(** * Relational schema of the social application: constraints, row-level
      security policies, cascades and maintenance triggers.

    The development embeds the SQL of [supabase/migrations] as executable
    definitions: every table is a list of rows, every CHECK / UNIQUE /
    FOREIGN KEY is a boolean test run by the write that the constraint
    guards, every policy is a boolean predicate over the caller and the row,
    and every trigger is a function on the database state. *)

From Stdlib Require Import List ZArith NArith String Ascii Bool Lia Arith.
Import ListNotations.

Local Open Scope string_scope.
Local Open Scope list_scope.
Local Open Scope N_scope.

(** ** Column types *)

(** [uuid]: sixteen bytes, ordered bytewise, which is the order of the
    number the bytes spell; only equality and that order are used. *)
Definition uuid := N.

(** [timestamptz]: microseconds since the epoch. *)
Definition timestamptz := Z.

(** [text], in the server encoding UTF-8. *)
Definition text := string.

Definition mem (x : uuid) (l : list uuid) : bool := existsb (N.eqb x) l.

Definition opt_mem (x : option uuid) (l : list uuid) : bool :=
  match x with
  | Some u => mem u l
  | None => false
  end.

(** A nullable foreign key is satisfied by NULL. *)
Definition fk_opt (x : option uuid) (l : list uuid) : bool :=
  match x with
  | Some u => mem u l
  | None => true
  end.

(** LEAST / GREATEST on [uuid]. *)
Definition LEAST (a b : uuid) : uuid := N.min a b.
Definition GREATEST (a b : uuid) : uuid := N.max a b.

(** [char_length]: the number of characters, that is, in a string the
    server accepts (well-formed UTF-8), of bytes that do not continue a
    sequence. *)
Definition utf8_continuation (c : ascii) : bool :=
  let n := N_of_ascii c in (128 <=? n) && (n <? 192).

Fixpoint char_length (s : text) : nat :=
  match s with
  | EmptyString => 0%nat
  | String c s' => ((if utf8_continuation c then 0 else 1) + char_length s')%nat
  end.

Fixpoint all_chars (f : ascii -> bool) (s : text) : bool :=
  match s with
  | EmptyString => true
  | String c s' => f c && all_chars f s'
  end.

Fixpoint has_char (c : ascii) (s : text) : bool :=
  match s with
  | EmptyString => false
  | String d s' => Ascii.eqb c d || has_char c s'
  end.

(** The bracket expression [[a-zA-Z0-9_]]. *)
Definition word_char (c : ascii) : bool :=
  let n := N_of_ascii c in
  ((97 <=? n) && (n <=? 122)) || ((65 <=? n) && (n <=? 90))
  || ((48 <=? n) && (n <=? 57)) || (n =? 95).

(** [s ~ '^[a-zA-Z0-9_]+$']: the anchors match at the two ends of the
    string only, so the whole string is one or more class members. *)
Definition matches_word_plus (s : text) : bool :=
  match s with
  | EmptyString => false
  | String _ _ => all_chars word_char s
  end.

Definition distinct_by {A : Type} (eqb : A -> A -> bool) : list A -> bool :=
  fix go (l : list A) : bool :=
    match l with
    | [] => true
    | x :: l' => negb (existsb (eqb x) l') && go l'
    end.

Definition pair_eqb (p q : uuid * uuid) : bool :=
  (fst p =? fst q) && (snd p =? snd q).

(** ** Errors of a write, and the error monad the writes run in *)

Inductive error : Type :=
| insufficient_privilege (table : string)      (* row-level security *)
| check_violation (constraint : string)
| unique_violation (constraint : string)
| foreign_key_violation (constraint : string).

Inductive result (A : Type) : Type :=
| Ok (a : A)
| Err (e : error).

Arguments Ok {A} a.
Arguments Err {A} e.

Definition bind {A B : Type} (m : result A) (k : A -> result B) : result B :=
  match m with
  | Ok a => k a
  | Err e => Err e
  end.

Definition require (b : bool) (e : error) : result unit :=
  if b then Ok tt else Err e.

Notation "'check!' b 'else' e ;; k" := (bind (require b e) (fun _ => k))
  (at level 10, b at level 0, e at level 0, k at level 200).

Definition is_unique_violation {A : Type} (r : result A) : bool :=
  match r with
  | Err (unique_violation _) => true
  | _ => false
  end.

Definition is_check_violation {A : Type} (r : result A) : bool :=
  match r with
  | Err (check_violation _) => true
  | _ => false
  end.

Definition is_rls_violation {A : Type} (r : result A) : bool :=
  match r with
  | Err (insufficient_privilege _) => true
  | _ => false
  end.

Definition is_ok {A : Type} (r : result A) : bool :=
  match r with
  | Ok _ => true
  | Err _ => false
  end.

(** The state a statement leaves behind: a failed statement is rolled
    back. *)
Definition commit {A : Type} (before : A) (r : result A) : A :=
  match r with
  | Ok after => after
  | Err _ => before
  end.

(** What a statement reads from its environment: [now()] and the value
    [gen_random_uuid()] draws. *)
Record env : Type := {
  now : timestamptz;
  gen_random_uuid : uuid
}.

(** A column with a DEFAULT, in an INSERT: omitted, or given. *)
Definition or_default {A : Type} (given : option A) (d : A) : A :=
  match given with
  | Some a => a
  | None => d
  end.

(** Who issues a statement. The policies are granted TO authenticated; a
    role without a policy is denied, a role that bypasses row-level
    security (the owner, the service key, a cascade) is not asked. *)
Inductive role : Type :=
| anon
| authenticated (uid : uuid)
| service_role.

(** ** The tables

    One module per table: the row, the CHECK constraints, the policies (for
    a caller [uid] of role authenticated, the value of [auth.uid()], which
    the later migrations read through a scalar sub-select with the same
    value), and the row an INSERT builds from the columns it names.
    A column declared NOT NULL has the column's type; a nullable one is an
    [option]. *)

Module Profiles.

Record row : Type := {
  id : uuid;
  username : text;
  full_name : option text;
  bio : option text;
  avatar_url : option text;
  cover_photo_url : option text;
  location : option text;
  website : option text;
  created_at : option timestamptz;
  updated_at : option timestamptz
}.

(** CONSTRAINT username_length *)
Definition username_length (r : row) : bool :=
  (3 <=? char_length (username r))%nat && (char_length (username r) <=? 30)%nat.

(** CONSTRAINT username_format *)
Definition username_format (r : row) : bool :=
  matches_word_plus (username r).

Definition public_profiles_are_viewable_by_everyone (uid : uuid) (r : row) : bool :=
  true.

Definition users_can_insert_their_own_profile (uid : uuid) (r : row) : bool :=
  uid =? id r.

(** USING and WITH CHECK are the same expression. *)
Definition users_can_update_their_own_profile (uid : uuid) (r : row) : bool :=
  uid =? id r.

Record ins : Type := {
  ins_id : uuid;
  ins_username : text;
  ins_full_name : option (option text);
  ins_bio : option (option text);
  ins_avatar_url : option (option text);
  ins_cover_photo_url : option (option text);
  ins_location : option (option text);
  ins_website : option (option text);
  ins_created_at : option (option timestamptz);
  ins_updated_at : option (option timestamptz)
}.

Definition new (e : env) (i : ins) : row := {|
  id := ins_id i;
  username := ins_username i;
  full_name := or_default (ins_full_name i) (Some "");
  bio := or_default (ins_bio i) (Some "");
  avatar_url := or_default (ins_avatar_url i) (Some "");
  cover_photo_url := or_default (ins_cover_photo_url i) (Some "");
  location := or_default (ins_location i) (Some "");
  website := or_default (ins_website i) (Some "");
  created_at := or_default (ins_created_at i) (Some (now e));
  updated_at := or_default (ins_updated_at i) (Some (now e))
|}.

Definition set_updated_at (t : option timestamptz) (r : row) : row := {|
  id := id r; username := username r; full_name := full_name r;
  bio := bio r; avatar_url := avatar_url r;
  cover_photo_url := cover_photo_url r; location := location r;
  website := website r; created_at := created_at r; updated_at := t
|}.

End Profiles.

Module Posts.

Record row : Type := {
  id : uuid;
  user_id : uuid;
  content : text;
  media_urls : option (list text);
  created_at : option timestamptz;
  updated_at : option timestamptz;
  is_edited : option bool
}.

(** CONSTRAINT content_length *)
Definition content_length (r : row) : bool :=
  (0 <? char_length (content r))%nat && (char_length (content r) <=? 5000)%nat.

Definition posts_are_viewable_by_authenticated_users (uid : uuid) (r : row) : bool :=
  true.

Definition users_can_create_their_own_posts (uid : uuid) (r : row) : bool :=
  uid =? user_id r.

Definition users_can_update_their_own_posts (uid : uuid) (r : row) : bool :=
  uid =? user_id r.

Definition users_can_delete_their_own_posts (uid : uuid) (r : row) : bool :=
  uid =? user_id r.

Record ins : Type := {
  ins_id : option uuid;
  ins_user_id : uuid;
  ins_content : text;
  ins_media_urls : option (option (list text));
  ins_created_at : option (option timestamptz);
  ins_updated_at : option (option timestamptz);
  ins_is_edited : option (option bool)
}.

Definition new (e : env) (i : ins) : row := {|
  id := or_default (ins_id i) (gen_random_uuid e);
  user_id := ins_user_id i;
  content := ins_content i;
  media_urls := or_default (ins_media_urls i) (Some []);
  created_at := or_default (ins_created_at i) (Some (now e));
  updated_at := or_default (ins_updated_at i) (Some (now e));
  is_edited := or_default (ins_is_edited i) (Some false)
|}.

Definition set_updated_at (t : option timestamptz) (r : row) : row := {|
  id := id r; user_id := user_id r; content := content r;
  media_urls := media_urls r; created_at := created_at r;
  updated_at := t; is_edited := is_edited r
|}.

End Posts.

Module Likes.

Record row : Type := {
  id : uuid;
  user_id : uuid;
  post_id : uuid;
  created_at : option timestamptz
}.

(** The key of UNIQUE(user_id, post_id). *)
Definition user_id_post_id (r : row) : uuid * uuid := (user_id r, post_id r).

Definition likes_are_viewable_by_authenticated_users (uid : uuid) (r : row) : bool :=
  true.

Definition users_can_create_their_own_likes (uid : uuid) (r : row) : bool :=
  uid =? user_id r.

Definition users_can_delete_their_own_likes (uid : uuid) (r : row) : bool :=
  uid =? user_id r.

Record ins : Type := {
  ins_id : option uuid;
  ins_user_id : uuid;
  ins_post_id : uuid;
  ins_created_at : option (option timestamptz)
}.

Definition new (e : env) (i : ins) : row := {|
  id := or_default (ins_id i) (gen_random_uuid e);
  user_id := ins_user_id i;
  post_id := ins_post_id i;
  created_at := or_default (ins_created_at i) (Some (now e))
|}.

End Likes.

Module Comments.

Record row : Type := {
  id : uuid;
  user_id : uuid;
  post_id : uuid;
  parent_id : option uuid;
  content : text;
  created_at : option timestamptz;
  updated_at : option timestamptz;
  is_edited : option bool
}.

(** CONSTRAINT comment_length *)
Definition comment_length (r : row) : bool :=
  (0 <? char_length (content r))%nat && (char_length (content r) <=? 2000)%nat.

Definition comments_are_viewable_by_authenticated_users (uid : uuid) (r : row) : bool :=
  true.

Definition users_can_create_their_own_comments (uid : uuid) (r : row) : bool :=
  uid =? user_id r.

Definition users_can_update_their_own_comments (uid : uuid) (r : row) : bool :=
  uid =? user_id r.

Definition users_can_delete_their_own_comments (uid : uuid) (r : row) : bool :=
  uid =? user_id r.

Record ins : Type := {
  ins_id : option uuid;
  ins_user_id : uuid;
  ins_post_id : uuid;
  ins_parent_id : option uuid;
  ins_content : text;
  ins_created_at : option (option timestamptz);
  ins_updated_at : option (option timestamptz);
  ins_is_edited : option (option bool)
}.

Definition new (e : env) (i : ins) : row := {|
  id := or_default (ins_id i) (gen_random_uuid e);
  user_id := ins_user_id i;
  post_id := ins_post_id i;
  parent_id := ins_parent_id i;
  content := ins_content i;
  created_at := or_default (ins_created_at i) (Some (now e));
  updated_at := or_default (ins_updated_at i) (Some (now e));
  is_edited := or_default (ins_is_edited i) (Some false)
|}.

Definition set_updated_at (t : option timestamptz) (r : row) : row := {|
  id := id r; user_id := user_id r; post_id := post_id r;
  parent_id := parent_id r; content := content r;
  created_at := created_at r; updated_at := t; is_edited := is_edited r
|}.

End Comments.

Module Follows.

Record row : Type := {
  id : uuid;
  follower_id : uuid;
  following_id : uuid;
  created_at : option timestamptz
}.

(** The key of UNIQUE(follower_id, following_id). *)
Definition follower_id_following_id (r : row) : uuid * uuid :=
  (follower_id r, following_id r).

(** CONSTRAINT no_self_follow *)
Definition no_self_follow (r : row) : bool :=
  negb (follower_id r =? following_id r).

Definition follows_are_viewable_by_authenticated_users (uid : uuid) (r : row) : bool :=
  true.

Definition users_can_create_their_own_follows (uid : uuid) (r : row) : bool :=
  uid =? follower_id r.

Definition users_can_delete_their_own_follows (uid : uuid) (r : row) : bool :=
  uid =? follower_id r.

Record ins : Type := {
  ins_id : option uuid;
  ins_follower_id : uuid;
  ins_following_id : uuid;
  ins_created_at : option (option timestamptz)
}.

Definition new (e : env) (i : ins) : row := {|
  id := or_default (ins_id i) (gen_random_uuid e);
  follower_id := ins_follower_id i;
  following_id := ins_following_id i;
  created_at := or_default (ins_created_at i) (Some (now e))
|}.

End Follows.

Module Conversations.

Record row : Type := {
  id : uuid;
  user1_id : uuid;
  user2_id : uuid;
  last_message_at : option timestamptz;
  created_at : option timestamptz
}.

(** CONSTRAINT different_users *)
Definition different_users (r : row) : bool :=
  negb (user1_id r =? user2_id r).

(** The key of the unique index conversations_users_idx. *)
Definition conversations_users_idx (r : row) : uuid * uuid :=
  (LEAST (user1_id r) (user2_id r), GREATEST (user1_id r) (user2_id r)).

Definition users_can_view_their_own_conversations (uid : uuid) (r : row) : bool :=
  (uid =? user1_id r) || (uid =? user2_id r).

Definition users_can_create_conversations (uid : uuid) (r : row) : bool :=
  (uid =? user1_id r) || (uid =? user2_id r).

Definition users_can_update_their_own_conversations (uid : uuid) (r : row) : bool :=
  (uid =? user1_id r) || (uid =? user2_id r).

Record ins : Type := {
  ins_id : option uuid;
  ins_user1_id : uuid;
  ins_user2_id : uuid;
  ins_last_message_at : option (option timestamptz);
  ins_created_at : option (option timestamptz)
}.

Definition new (e : env) (i : ins) : row := {|
  id := or_default (ins_id i) (gen_random_uuid e);
  user1_id := ins_user1_id i;
  user2_id := ins_user2_id i;
  last_message_at := or_default (ins_last_message_at i) (Some (now e));
  created_at := or_default (ins_created_at i) (Some (now e))
|}.

Definition set_last_message_at (t : option timestamptz) (r : row) : row := {|
  id := id r; user1_id := user1_id r; user2_id := user2_id r;
  last_message_at := t; created_at := created_at r
|}.

End Conversations.

Module Messages.

Record row : Type := {
  id : uuid;
  conversation_id : uuid;
  sender_id : uuid;
  content : text;
  is_read : option bool;
  created_at : option timestamptz
}.

(** CONSTRAINT message_length *)
Definition message_length (r : row) : bool :=
  (0 <? char_length (content r))%nat && (char_length (content r) <=? 2000)%nat.

(** EXISTS (SELECT 1 FROM conversations
            WHERE conversations.id = conversation_id
            AND (conversations.user1_id = auth.uid()
                 OR conversations.user2_id = auth.uid())) *)
Definition in_conversation_of (conversations : list Conversations.row)
    (uid : uuid) (r : row) : bool :=
  existsb (fun c =>
             (Conversations.id c =? conversation_id r)
             && ((Conversations.user1_id c =? uid)
                 || (Conversations.user2_id c =? uid)))
          conversations.

Definition users_can_view_messages_in_their_conversations
    (conversations : list Conversations.row) (uid : uuid) (r : row) : bool :=
  in_conversation_of conversations uid r.

Definition users_can_create_messages_in_their_conversations
    (conversations : list Conversations.row) (uid : uuid) (r : row) : bool :=
  (uid =? sender_id r) && in_conversation_of conversations uid r.

(** USING and WITH CHECK are the same expression. *)
Definition users_can_update_their_own_messages
    (conversations : list Conversations.row) (uid : uuid) (r : row) : bool :=
  in_conversation_of conversations uid r.

Record ins : Type := {
  ins_id : option uuid;
  ins_conversation_id : uuid;
  ins_sender_id : uuid;
  ins_content : text;
  ins_is_read : option (option bool);
  ins_created_at : option (option timestamptz)
}.

Definition new (e : env) (i : ins) : row := {|
  id := or_default (ins_id i) (gen_random_uuid e);
  conversation_id := ins_conversation_id i;
  sender_id := ins_sender_id i;
  content := ins_content i;
  is_read := or_default (ins_is_read i) (Some false);
  created_at := or_default (ins_created_at i) (Some (now e))
|}.

End Messages.

Module Notifications.

Record row : Type := {
  id : uuid;
  user_id : uuid;
  actor_id : uuid;
  type : text;
  post_id : option uuid;
  comment_id : option uuid;
  is_read : option bool;
  created_at : option timestamptz
}.

(** CONSTRAINT valid_notification_type *)
Definition valid_notification_type (r : row) : bool :=
  existsb (String.eqb (type r)) ["follow"; "like"; "comment"; "mention"; "message"].

Definition users_can_view_their_own_notifications (uid : uuid) (r : row) : bool :=
  uid =? user_id r.

Definition users_can_create_notifications (uid : uuid) (r : row) : bool :=
  uid =? actor_id r.

Definition users_can_update_their_own_notifications (uid : uuid) (r : row) : bool :=
  uid =? user_id r.

Definition users_can_delete_their_own_notifications (uid : uuid) (r : row) : bool :=
  uid =? user_id r.

Record ins : Type := {
  ins_id : option uuid;
  ins_user_id : uuid;
  ins_actor_id : uuid;
  ins_type : text;
  ins_post_id : option uuid;
  ins_comment_id : option uuid;
  ins_is_read : option (option bool);
  ins_created_at : option (option timestamptz)
}.

Definition new (e : env) (i : ins) : row := {|
  id := or_default (ins_id i) (gen_random_uuid e);
  user_id := ins_user_id i;
  actor_id := ins_actor_id i;
  type := ins_type i;
  post_id := ins_post_id i;
  comment_id := ins_comment_id i;
  is_read := or_default (ins_is_read i) (Some false);
  created_at := or_default (ins_created_at i) (Some (now e))
|}.

End Notifications.

(** ** The database *)

Record DB : Type := {
  auth_users : list uuid;               (* auth.users(id) *)
  profiles : list Profiles.row;
  posts : list Posts.row;
  likes : list Likes.row;
  comments : list Comments.row;
  follows : list Follows.row;
  conversations : list Conversations.row;
  messages : list Messages.row;
  notifications : list Notifications.row
}.

Definition empty_db : DB := {|
  auth_users := []; profiles := []; posts := []; likes := []; comments := [];
  follows := []; conversations := []; messages := []; notifications := []
|}.

Definition with_auth_users (x : list uuid) (db : DB) : DB := {|
  auth_users := x; profiles := profiles db; posts := posts db;
  likes := likes db; comments := comments db; follows := follows db;
  conversations := conversations db; messages := messages db;
  notifications := notifications db |}.

Definition with_profiles (x : list Profiles.row) (db : DB) : DB := {|
  auth_users := auth_users db; profiles := x; posts := posts db;
  likes := likes db; comments := comments db; follows := follows db;
  conversations := conversations db; messages := messages db;
  notifications := notifications db |}.

Definition with_posts (x : list Posts.row) (db : DB) : DB := {|
  auth_users := auth_users db; profiles := profiles db; posts := x;
  likes := likes db; comments := comments db; follows := follows db;
  conversations := conversations db; messages := messages db;
  notifications := notifications db |}.

Definition with_likes (x : list Likes.row) (db : DB) : DB := {|
  auth_users := auth_users db; profiles := profiles db; posts := posts db;
  likes := x; comments := comments db; follows := follows db;
  conversations := conversations db; messages := messages db;
  notifications := notifications db |}.

Definition with_comments (x : list Comments.row) (db : DB) : DB := {|
  auth_users := auth_users db; profiles := profiles db; posts := posts db;
  likes := likes db; comments := x; follows := follows db;
  conversations := conversations db; messages := messages db;
  notifications := notifications db |}.

Definition with_follows (x : list Follows.row) (db : DB) : DB := {|
  auth_users := auth_users db; profiles := profiles db; posts := posts db;
  likes := likes db; comments := comments db; follows := x;
  conversations := conversations db; messages := messages db;
  notifications := notifications db |}.

Definition with_conversations (x : list Conversations.row) (db : DB) : DB := {|
  auth_users := auth_users db; profiles := profiles db; posts := posts db;
  likes := likes db; comments := comments db; follows := follows db;
  conversations := x; messages := messages db;
  notifications := notifications db |}.

Definition with_messages (x : list Messages.row) (db : DB) : DB := {|
  auth_users := auth_users db; profiles := profiles db; posts := posts db;
  likes := likes db; comments := comments db; follows := follows db;
  conversations := conversations db; messages := x;
  notifications := notifications db |}.

Definition with_notifications (x : list Notifications.row) (db : DB) : DB := {|
  auth_users := auth_users db; profiles := profiles db; posts := posts db;
  likes := likes db; comments := comments db; follows := follows db;
  conversations := conversations db; messages := messages db;
  notifications := x |}.

(** ** Row-level security

    Every table has row level security enabled. A WITH CHECK expression
    that is not true fails the statement; a USING expression that is not
    true hides the row from it. *)

Definition policy_with_check (who : role) (table : string) (policy : uuid -> bool)
  : result unit :=
  match who with
  | service_role => Ok tt
  | authenticated uid => require (policy uid) (insufficient_privilege table)
  | anon => Err (insufficient_privilege table)
  end.

Definition policy_using (who : role) (policy : uuid -> bool) : bool :=
  match who with
  | service_role => true
  | authenticated uid => policy uid
  | anon => false
  end.

(** A command for which a table has no policy. *)
Definition no_policy (uid : uuid) : bool := false.

(** ** Rows by primary key *)

Section Keyed.

Context {R : Type} (key : R -> uuid).

Definition find_row (target : uuid) (l : list R) : option R :=
  find (fun x => key x =? target) l.

Definition others (target : uuid) (l : list R) : list R :=
  filter (fun x => negb (key x =? target)) l.

Definition replace_row (target : uuid) (new : R) (l : list R) : list R :=
  map (fun x => if key x =? target then new else x) l.

Definition keys (l : list R) : list uuid := map key l.

End Keyed.

(** A key that changes must not be referenced: the foreign keys say
    nothing ON UPDATE, which is NO ACTION. *)
Definition no_action (references : list (bool * string)) : result unit :=
  match find fst references with
  | Some (_, c) => Err (foreign_key_violation c)
  | None => Ok tt
  end.

Definition key_unchanged_or (new target : uuid) (references : list (bool * string))
  : result unit :=
  if new =? target then Ok tt else no_action references.

(** ** The maintenance triggers *)

(** Rows that carry an [updated_at] column. *)
Class UpdatedAt (R : Type) : Type :=
  set_updated_at : option timestamptz -> R -> R.

#[global] Instance profiles_updated_at : UpdatedAt Profiles.row :=
  Profiles.set_updated_at.
#[global] Instance posts_updated_at : UpdatedAt Posts.row :=
  Posts.set_updated_at.
#[global] Instance comments_updated_at : UpdatedAt Comments.row :=
  Comments.set_updated_at.

(** NEW.updated_at = now(); RETURN NEW; *)
Definition update_updated_at_column {R : Type} `{UpdatedAt R} (e : env) (NEW : R) : R :=
  set_updated_at (Some (now e)) NEW.

(** BEFORE UPDATE ON profiles / posts / comments FOR EACH ROW *)
Definition update_profiles_updated_at (e : env) (NEW : Profiles.row) : Profiles.row :=
  update_updated_at_column e NEW.
Definition update_posts_updated_at (e : env) (NEW : Posts.row) : Posts.row :=
  update_updated_at_column e NEW.
Definition update_comments_updated_at (e : env) (NEW : Comments.row) : Comments.row :=
  update_updated_at_column e NEW.

(** UPDATE conversations SET last_message_at = NEW.created_at
    WHERE id = NEW.conversation_id; RETURN NEW; *)
Definition update_conversation_last_message (NEW : Messages.row) (db : DB) : DB :=
  with_conversations
    (map (fun c =>
            if Conversations.id c =? Messages.conversation_id NEW
            then Conversations.set_last_message_at (Messages.created_at NEW) c
            else c)
         (conversations db))
    db.

(** AFTER INSERT ON messages FOR EACH ROW *)
Definition update_conversation_timestamp (NEW : Messages.row) (db : DB) : DB :=
  update_conversation_last_message NEW db.

(** ** INSERT

    One row per statement, as in every INSERT the client issues. In the
    order the server tests them: the policy's WITH CHECK, the CHECK
    constraints by name, the unique indexes (the primary key first), the
    foreign keys, and then the AFTER triggers. *)

Definition insert_profile (who : role) (r : Profiles.row) (db : DB) : result DB :=
  bind (policy_with_check who "profiles"
          (fun uid => Profiles.users_can_insert_their_own_profile uid r)) (fun _ =>
  check! (Profiles.username_format r) else (check_violation "username_format") ;;
  check! (Profiles.username_length r) else (check_violation "username_length") ;;
  check! (negb (mem (Profiles.id r) (keys Profiles.id (profiles db))))
    else (unique_violation "profiles_pkey") ;;
  check! (negb (existsb (String.eqb (Profiles.username r))
                       (map Profiles.username (profiles db))))
    else (unique_violation "profiles_username_key") ;;
  check! (mem (Profiles.id r) (auth_users db))
    else (foreign_key_violation "profiles_id_fkey") ;;
  Ok (with_profiles (r :: profiles db) db)).

Definition insert_post (who : role) (r : Posts.row) (db : DB) : result DB :=
  bind (policy_with_check who "posts"
          (fun uid => Posts.users_can_create_their_own_posts uid r)) (fun _ =>
  check! (Posts.content_length r) else (check_violation "content_length") ;;
  check! (negb (mem (Posts.id r) (keys Posts.id (posts db))))
    else (unique_violation "posts_pkey") ;;
  check! (mem (Posts.user_id r) (keys Profiles.id (profiles db)))
    else (foreign_key_violation "posts_user_id_fkey") ;;
  Ok (with_posts (r :: posts db) db)).

Definition insert_like (who : role) (r : Likes.row) (db : DB) : result DB :=
  bind (policy_with_check who "likes"
          (fun uid => Likes.users_can_create_their_own_likes uid r)) (fun _ =>
  check! (negb (mem (Likes.id r) (keys Likes.id (likes db))))
    else (unique_violation "likes_pkey") ;;
  check! (negb (existsb (pair_eqb (Likes.user_id_post_id r))
                       (map Likes.user_id_post_id (likes db))))
    else (unique_violation "likes_user_id_post_id_key") ;;
  check! (mem (Likes.user_id r) (keys Profiles.id (profiles db)))
    else (foreign_key_violation "likes_user_id_fkey") ;;
  check! (mem (Likes.post_id r) (keys Posts.id (posts db)))
    else (foreign_key_violation "likes_post_id_fkey") ;;
  Ok (with_likes (r :: likes db) db)).

(** [parent_id] may name the row itself: the key is looked up once the row
    is in the table. *)
Definition insert_comment (who : role) (r : Comments.row) (db : DB) : result DB :=
  bind (policy_with_check who "comments"
          (fun uid => Comments.users_can_create_their_own_comments uid r)) (fun _ =>
  check! (Comments.comment_length r) else (check_violation "comment_length") ;;
  check! (negb (mem (Comments.id r) (keys Comments.id (comments db))))
    else (unique_violation "comments_pkey") ;;
  check! (mem (Comments.user_id r) (keys Profiles.id (profiles db)))
    else (foreign_key_violation "comments_user_id_fkey") ;;
  check! (mem (Comments.post_id r) (keys Posts.id (posts db)))
    else (foreign_key_violation "comments_post_id_fkey") ;;
  check! (fk_opt (Comments.parent_id r) (keys Comments.id (r :: comments db)))
    else (foreign_key_violation "comments_parent_id_fkey") ;;
  Ok (with_comments (r :: comments db) db)).

Definition insert_follow (who : role) (r : Follows.row) (db : DB) : result DB :=
  bind (policy_with_check who "follows"
          (fun uid => Follows.users_can_create_their_own_follows uid r)) (fun _ =>
  check! (Follows.no_self_follow r) else (check_violation "no_self_follow") ;;
  check! (negb (mem (Follows.id r) (keys Follows.id (follows db))))
    else (unique_violation "follows_pkey") ;;
  check! (negb (existsb (pair_eqb (Follows.follower_id_following_id r))
                       (map Follows.follower_id_following_id (follows db))))
    else (unique_violation "follows_follower_id_following_id_key") ;;
  check! (mem (Follows.follower_id r) (keys Profiles.id (profiles db)))
    else (foreign_key_violation "follows_follower_id_fkey") ;;
  check! (mem (Follows.following_id r) (keys Profiles.id (profiles db)))
    else (foreign_key_violation "follows_following_id_fkey") ;;
  Ok (with_follows (r :: follows db) db)).

Definition insert_conversation (who : role) (r : Conversations.row) (db : DB)
  : result DB :=
  bind (policy_with_check who "conversations"
          (fun uid => Conversations.users_can_create_conversations uid r)) (fun _ =>
  check! (Conversations.different_users r) else (check_violation "different_users") ;;
  check! (negb (mem (Conversations.id r) (keys Conversations.id (conversations db))))
    else (unique_violation "conversations_pkey") ;;
  check! (negb (existsb (pair_eqb (Conversations.conversations_users_idx r))
                       (map Conversations.conversations_users_idx (conversations db))))
    else (unique_violation "conversations_users_idx") ;;
  check! (mem (Conversations.user1_id r) (keys Profiles.id (profiles db)))
    else (foreign_key_violation "conversations_user1_id_fkey") ;;
  check! (mem (Conversations.user2_id r) (keys Profiles.id (profiles db)))
    else (foreign_key_violation "conversations_user2_id_fkey") ;;
  Ok (with_conversations (r :: conversations db) db)).

Definition insert_message (who : role) (r : Messages.row) (db : DB) : result DB :=
  bind (policy_with_check who "messages"
          (fun uid => Messages.users_can_create_messages_in_their_conversations
                        (conversations db) uid r)) (fun _ =>
  check! (Messages.message_length r) else (check_violation "message_length") ;;
  check! (negb (mem (Messages.id r) (keys Messages.id (messages db))))
    else (unique_violation "messages_pkey") ;;
  check! (mem (Messages.conversation_id r) (keys Conversations.id (conversations db)))
    else (foreign_key_violation "messages_conversation_id_fkey") ;;
  check! (mem (Messages.sender_id r) (keys Profiles.id (profiles db)))
    else (foreign_key_violation "messages_sender_id_fkey") ;;
  Ok (update_conversation_timestamp r (with_messages (r :: messages db) db))).

Definition insert_notification (who : role) (r : Notifications.row) (db : DB)
  : result DB :=
  bind (policy_with_check who "notifications"
          (fun uid => Notifications.users_can_create_notifications uid r)) (fun _ =>
  check! (Notifications.valid_notification_type r)
    else (check_violation "valid_notification_type") ;;
  check! (negb (mem (Notifications.id r) (keys Notifications.id (notifications db))))
    else (unique_violation "notifications_pkey") ;;
  check! (mem (Notifications.user_id r) (keys Profiles.id (profiles db)))
    else (foreign_key_violation "notifications_user_id_fkey") ;;
  check! (mem (Notifications.actor_id r) (keys Profiles.id (profiles db)))
    else (foreign_key_violation "notifications_actor_id_fkey") ;;
  check! (fk_opt (Notifications.post_id r) (keys Posts.id (posts db)))
    else (foreign_key_violation "notifications_post_id_fkey") ;;
  check! (fk_opt (Notifications.comment_id r) (keys Comments.id (comments db)))
    else (foreign_key_violation "notifications_comment_id_fkey") ;;
  Ok (with_notifications (r :: notifications db) db)).

(** ** DELETE and ON DELETE CASCADE

    Every foreign key of the schema is ON DELETE CASCADE, so a DELETE never
    fails: the rows that reference a deleted key are deleted with it, and
    the rows that reference those in turn. The cascade is an action of the
    referential constraint and is not subject to the policies. *)

Definition keep {R : Type} (doomed : R -> bool) (l : list R) : list R :=
  filter (fun r => negb (doomed r)) l.

Definition delete_notifications_where (doomed : Notifications.row -> bool) (db : DB) : DB :=
  with_notifications (keep doomed (notifications db)) db.

Definition delete_messages_where (doomed : Messages.row -> bool) (db : DB) : DB :=
  with_messages (keep doomed (messages db)) db.

Definition delete_follows_where (doomed : Follows.row -> bool) (db : DB) : DB :=
  with_follows (keep doomed (follows db)) db.

Definition delete_likes_where (doomed : Likes.row -> bool) (db : DB) : DB :=
  with_likes (keep doomed (likes db)) db.

(** comments.parent_id REFERENCES comments(id) ON DELETE CASCADE: the
    replies of a deleted comment go, then their replies, until a round
    deletes nothing. Every round but the last shortens [live], so
    [length live] rounds are enough. *)
Fixpoint cascade_replies (rounds : nat) (dead : list uuid) (live : list Comments.row)
  : list uuid * list Comments.row :=
  match rounds with
  | O => (dead, live)
  | S n =>
      let orphan c := opt_mem (Comments.parent_id c) dead in
      match filter orphan live with
      | [] => (dead, live)
      | gone => cascade_replies n (keys Comments.id gone ++ dead) (keep orphan live)
      end
  end.

Definition delete_comments_where (doomed : Comments.row -> bool) (db : DB) : DB :=
  let first := filter doomed (comments db) in
  let rest := keep doomed (comments db) in
  let '(dead, live) := cascade_replies (List.length rest) (keys Comments.id first) rest in
  delete_notifications_where (fun n => opt_mem (Notifications.comment_id n) dead)
    (with_comments live db).

Definition delete_posts_where (doomed : Posts.row -> bool) (db : DB) : DB :=
  let dead := keys Posts.id (filter doomed (posts db)) in
  delete_notifications_where (fun n => opt_mem (Notifications.post_id n) dead)
    (delete_comments_where (fun c => mem (Comments.post_id c) dead)
       (delete_likes_where (fun l => mem (Likes.post_id l) dead)
          (with_posts (keep doomed (posts db)) db))).

Definition delete_conversations_where (doomed : Conversations.row -> bool) (db : DB) : DB :=
  let dead := keys Conversations.id (filter doomed (conversations db)) in
  delete_messages_where (fun m => mem (Messages.conversation_id m) dead)
    (with_conversations (keep doomed (conversations db)) db).

Definition delete_profiles_where (doomed : Profiles.row -> bool) (db : DB) : DB :=
  let dead := keys Profiles.id (filter doomed (profiles db)) in
  delete_notifications_where
    (fun n => mem (Notifications.user_id n) dead || mem (Notifications.actor_id n) dead)
    (delete_messages_where (fun m => mem (Messages.sender_id m) dead)
       (delete_conversations_where
          (fun c => mem (Conversations.user1_id c) dead
                    || mem (Conversations.user2_id c) dead)
          (delete_follows_where
             (fun f => mem (Follows.follower_id f) dead
                       || mem (Follows.following_id f) dead)
             (delete_comments_where (fun c => mem (Comments.user_id c) dead)
                (delete_likes_where (fun l => mem (Likes.user_id l) dead)
                   (delete_posts_where (fun p => mem (Posts.user_id p) dead)
                      (with_profiles (keep doomed (profiles db)) db))))))).

(** Deleting the row of profile [P]. *)
Definition delete_profile (P : uuid) (db : DB) : DB :=
  delete_profiles_where (fun r => Profiles.id r =? P) db.

(** auth.users is the server's; profiles.id REFERENCES auth.users(id)
    ON DELETE CASCADE. *)
Definition create_user (u : uuid) (db : DB) : DB :=
  if mem u (auth_users db) then db else with_auth_users (u :: auth_users db) db.

Definition delete_user (u : uuid) (db : DB) : DB :=
  delete_profiles_where (fun r => Profiles.id r =? u)
    (with_auth_users (filter (fun x => negb (x =? u)) (auth_users db)) db).

(** DELETE FROM t WHERE [cond], as [who]: the rows the statement sees are
    those both the SELECT and the DELETE policy let through. *)
Definition delete_profiles (who : role) (cond : Profiles.row -> bool) (db : DB) : DB :=
  delete_profiles_where
    (fun r => cond r
              && policy_using who (fun uid => Profiles.public_profiles_are_viewable_by_everyone uid r)
              && policy_using who no_policy)
    db.

Definition delete_posts (who : role) (cond : Posts.row -> bool) (db : DB) : DB :=
  delete_posts_where
    (fun r => cond r
              && policy_using who (fun uid => Posts.posts_are_viewable_by_authenticated_users uid r)
              && policy_using who (fun uid => Posts.users_can_delete_their_own_posts uid r))
    db.

Definition delete_likes (who : role) (cond : Likes.row -> bool) (db : DB) : DB :=
  delete_likes_where
    (fun r => cond r
              && policy_using who (fun uid => Likes.likes_are_viewable_by_authenticated_users uid r)
              && policy_using who (fun uid => Likes.users_can_delete_their_own_likes uid r))
    db.

Definition delete_comments (who : role) (cond : Comments.row -> bool) (db : DB) : DB :=
  delete_comments_where
    (fun r => cond r
              && policy_using who (fun uid => Comments.comments_are_viewable_by_authenticated_users uid r)
              && policy_using who (fun uid => Comments.users_can_delete_their_own_comments uid r))
    db.

Definition delete_follows (who : role) (cond : Follows.row -> bool) (db : DB) : DB :=
  delete_follows_where
    (fun r => cond r
              && policy_using who (fun uid => Follows.follows_are_viewable_by_authenticated_users uid r)
              && policy_using who (fun uid => Follows.users_can_delete_their_own_follows uid r))
    db.

Definition delete_conversations (who : role) (cond : Conversations.row -> bool) (db : DB) : DB :=
  delete_conversations_where
    (fun r => cond r
              && policy_using who (fun uid => Conversations.users_can_view_their_own_conversations uid r)
              && policy_using who no_policy)
    db.

Definition delete_messages (who : role) (cond : Messages.row -> bool) (db : DB) : DB :=
  delete_messages_where
    (fun r => cond r
              && policy_using who (fun uid =>
                   Messages.users_can_view_messages_in_their_conversations (conversations db) uid r)
              && policy_using who no_policy)
    db.

Definition delete_notifications (who : role) (cond : Notifications.row -> bool) (db : DB) : DB :=
  delete_notifications_where
    (fun r => cond r
              && policy_using who (fun uid => Notifications.users_can_view_their_own_notifications uid r)
              && policy_using who (fun uid => Notifications.users_can_delete_their_own_notifications uid r))
    db.

(** ** UPDATE

    UPDATE t SET ... WHERE id = [target], as [who]: [set] is the SET list,
    applied to the old row. A row the SELECT or the UPDATE policy's USING
    hides is not updated, and the statement succeeds on no row; the BEFORE
    trigger, the policy's WITH CHECK and the constraints then run on the new
    row. (The SELECT policy is asked of the new row as well; on every table
    with an UPDATE policy it is [true] or the WITH CHECK expression itself.)
    A statement over several rows does this row after row. *)

Definition profile_references (P : uuid) (db : DB) : list (bool * string) :=
  [ (existsb (fun r => Posts.user_id r =? P) (posts db), "posts_user_id_fkey");
    (existsb (fun r => Likes.user_id r =? P) (likes db), "likes_user_id_fkey");
    (existsb (fun r => Comments.user_id r =? P) (comments db), "comments_user_id_fkey");
    (existsb (fun r => Follows.follower_id r =? P) (follows db), "follows_follower_id_fkey");
    (existsb (fun r => Follows.following_id r =? P) (follows db), "follows_following_id_fkey");
    (existsb (fun r => Conversations.user1_id r =? P) (conversations db),
       "conversations_user1_id_fkey");
    (existsb (fun r => Conversations.user2_id r =? P) (conversations db),
       "conversations_user2_id_fkey");
    (existsb (fun r => Messages.sender_id r =? P) (messages db), "messages_sender_id_fkey");
    (existsb (fun r => Notifications.user_id r =? P) (notifications db),
       "notifications_user_id_fkey");
    (existsb (fun r => Notifications.actor_id r =? P) (notifications db),
       "notifications_actor_id_fkey") ].

Definition post_references (p : uuid) (db : DB) : list (bool * string) :=
  [ (existsb (fun r => Likes.post_id r =? p) (likes db), "likes_post_id_fkey");
    (existsb (fun r => Comments.post_id r =? p) (comments db), "comments_post_id_fkey");
    (existsb (fun r => opt_mem (Notifications.post_id r) [p]) (notifications db),
       "notifications_post_id_fkey") ].

Definition comment_references (c : uuid) (siblings : list Comments.row) (db : DB)
  : list (bool * string) :=
  [ (existsb (fun r => opt_mem (Comments.parent_id r) [c]) siblings,
       "comments_parent_id_fkey");
    (existsb (fun r => opt_mem (Notifications.comment_id r) [c]) (notifications db),
       "notifications_comment_id_fkey") ].

Definition conversation_references (c : uuid) (db : DB) : list (bool * string) :=
  [ (existsb (fun r => Messages.conversation_id r =? c) (messages db),
       "messages_conversation_id_fkey") ].

Definition update_profile (who : role) (e : env) (target : uuid)
    (set : Profiles.row -> Profiles.row) (db : DB) : result DB :=
  match find_row Profiles.id target (profiles db) with
  | None => Ok db
  | Some old =>
      if policy_using who (fun uid => Profiles.public_profiles_are_viewable_by_everyone uid old)
         && policy_using who (fun uid => Profiles.users_can_update_their_own_profile uid old)
      then
        let new := update_profiles_updated_at e (set old) in
        let rest := others Profiles.id target (profiles db) in
        bind (policy_with_check who "profiles"
                (fun uid => Profiles.users_can_update_their_own_profile uid new)) (fun _ =>
        check! (Profiles.username_format new) else (check_violation "username_format") ;;
        check! (Profiles.username_length new) else (check_violation "username_length") ;;
        check! (negb (mem (Profiles.id new) (keys Profiles.id rest)))
          else (unique_violation "profiles_pkey") ;;
        check! (negb (existsb (String.eqb (Profiles.username new))
                             (map Profiles.username rest)))
          else (unique_violation "profiles_username_key") ;;
        check! (mem (Profiles.id new) (auth_users db))
          else (foreign_key_violation "profiles_id_fkey") ;;
        bind (key_unchanged_or (Profiles.id new) target (profile_references target db)) (fun _ =>
        Ok (with_profiles (replace_row Profiles.id target new (profiles db)) db)))
      else Ok db
  end.

Definition update_post (who : role) (e : env) (target : uuid)
    (set : Posts.row -> Posts.row) (db : DB) : result DB :=
  match find_row Posts.id target (posts db) with
  | None => Ok db
  | Some old =>
      if policy_using who (fun uid => Posts.posts_are_viewable_by_authenticated_users uid old)
         && policy_using who (fun uid => Posts.users_can_update_their_own_posts uid old)
      then
        let new := update_posts_updated_at e (set old) in
        let rest := others Posts.id target (posts db) in
        bind (policy_with_check who "posts"
                (fun uid => Posts.users_can_update_their_own_posts uid new)) (fun _ =>
        check! (Posts.content_length new) else (check_violation "content_length") ;;
        check! (negb (mem (Posts.id new) (keys Posts.id rest)))
          else (unique_violation "posts_pkey") ;;
        check! (mem (Posts.user_id new) (keys Profiles.id (profiles db)))
          else (foreign_key_violation "posts_user_id_fkey") ;;
        bind (key_unchanged_or (Posts.id new) target (post_references target db)) (fun _ =>
        Ok (with_posts (replace_row Posts.id target new (posts db)) db)))
      else Ok db
  end.

Definition update_like (who : role) (target : uuid)
    (set : Likes.row -> Likes.row) (db : DB) : result DB :=
  match find_row Likes.id target (likes db) with
  | None => Ok db
  | Some old =>
      if policy_using who (fun uid => Likes.likes_are_viewable_by_authenticated_users uid old)
         && policy_using who no_policy
      then
        let new := set old in
        let rest := others Likes.id target (likes db) in
        bind (policy_with_check who "likes" no_policy) (fun _ =>
        check! (negb (mem (Likes.id new) (keys Likes.id rest)))
          else (unique_violation "likes_pkey") ;;
        check! (negb (existsb (pair_eqb (Likes.user_id_post_id new))
                             (map Likes.user_id_post_id rest)))
          else (unique_violation "likes_user_id_post_id_key") ;;
        check! (mem (Likes.user_id new) (keys Profiles.id (profiles db)))
          else (foreign_key_violation "likes_user_id_fkey") ;;
        check! (mem (Likes.post_id new) (keys Posts.id (posts db)))
          else (foreign_key_violation "likes_post_id_fkey") ;;
        Ok (with_likes (replace_row Likes.id target new (likes db)) db))
      else Ok db
  end.

Definition update_comment (who : role) (e : env) (target : uuid)
    (set : Comments.row -> Comments.row) (db : DB) : result DB :=
  match find_row Comments.id target (comments db) with
  | None => Ok db
  | Some old =>
      if policy_using who (fun uid => Comments.comments_are_viewable_by_authenticated_users uid old)
         && policy_using who (fun uid => Comments.users_can_update_their_own_comments uid old)
      then
        let new := update_comments_updated_at e (set old) in
        let rest := others Comments.id target (comments db) in
        bind (policy_with_check who "comments"
                (fun uid => Comments.users_can_update_their_own_comments uid new)) (fun _ =>
        check! (Comments.comment_length new) else (check_violation "comment_length") ;;
        check! (negb (mem (Comments.id new) (keys Comments.id rest)))
          else (unique_violation "comments_pkey") ;;
        check! (mem (Comments.user_id new) (keys Profiles.id (profiles db)))
          else (foreign_key_violation "comments_user_id_fkey") ;;
        check! (mem (Comments.post_id new) (keys Posts.id (posts db)))
          else (foreign_key_violation "comments_post_id_fkey") ;;
        check! (fk_opt (Comments.parent_id new) (keys Comments.id (new :: rest)))
          else (foreign_key_violation "comments_parent_id_fkey") ;;
        bind (key_unchanged_or (Comments.id new) target
                (comment_references target rest db)) (fun _ =>
        Ok (with_comments (replace_row Comments.id target new (comments db)) db)))
      else Ok db
  end.

Definition update_follow (who : role) (target : uuid)
    (set : Follows.row -> Follows.row) (db : DB) : result DB :=
  match find_row Follows.id target (follows db) with
  | None => Ok db
  | Some old =>
      if policy_using who (fun uid => Follows.follows_are_viewable_by_authenticated_users uid old)
         && policy_using who no_policy
      then
        let new := set old in
        let rest := others Follows.id target (follows db) in
        bind (policy_with_check who "follows" no_policy) (fun _ =>
        check! (Follows.no_self_follow new) else (check_violation "no_self_follow") ;;
        check! (negb (mem (Follows.id new) (keys Follows.id rest)))
          else (unique_violation "follows_pkey") ;;
        check! (negb (existsb (pair_eqb (Follows.follower_id_following_id new))
                             (map Follows.follower_id_following_id rest)))
          else (unique_violation "follows_follower_id_following_id_key") ;;
        check! (mem (Follows.follower_id new) (keys Profiles.id (profiles db)))
          else (foreign_key_violation "follows_follower_id_fkey") ;;
        check! (mem (Follows.following_id new) (keys Profiles.id (profiles db)))
          else (foreign_key_violation "follows_following_id_fkey") ;;
        Ok (with_follows (replace_row Follows.id target new (follows db)) db))
      else Ok db
  end.

Definition update_conversation (who : role) (target : uuid)
    (set : Conversations.row -> Conversations.row) (db : DB) : result DB :=
  match find_row Conversations.id target (conversations db) with
  | None => Ok db
  | Some old =>
      if policy_using who (fun uid => Conversations.users_can_view_their_own_conversations uid old)
         && policy_using who (fun uid => Conversations.users_can_update_their_own_conversations uid old)
      then
        let new := set old in
        let rest := others Conversations.id target (conversations db) in
        bind (policy_with_check who "conversations"
                (fun uid => Conversations.users_can_update_their_own_conversations uid new)) (fun _ =>
        check! (Conversations.different_users new) else (check_violation "different_users") ;;
        check! (negb (mem (Conversations.id new) (keys Conversations.id rest)))
          else (unique_violation "conversations_pkey") ;;
        check! (negb (existsb (pair_eqb (Conversations.conversations_users_idx new))
                             (map Conversations.conversations_users_idx rest)))
          else (unique_violation "conversations_users_idx") ;;
        check! (mem (Conversations.user1_id new) (keys Profiles.id (profiles db)))
          else (foreign_key_violation "conversations_user1_id_fkey") ;;
        check! (mem (Conversations.user2_id new) (keys Profiles.id (profiles db)))
          else (foreign_key_violation "conversations_user2_id_fkey") ;;
        bind (key_unchanged_or (Conversations.id new) target
                (conversation_references target db)) (fun _ =>
        Ok (with_conversations (replace_row Conversations.id target new (conversations db)) db)))
      else Ok db
  end.

Definition update_message (who : role) (target : uuid)
    (set : Messages.row -> Messages.row) (db : DB) : result DB :=
  match find_row Messages.id target (messages db) with
  | None => Ok db
  | Some old =>
      if policy_using who (fun uid =>
           Messages.users_can_view_messages_in_their_conversations (conversations db) uid old)
         && policy_using who (fun uid =>
           Messages.users_can_update_their_own_messages (conversations db) uid old)
      then
        let new := set old in
        let rest := others Messages.id target (messages db) in
        bind (policy_with_check who "messages"
                (fun uid => Messages.users_can_update_their_own_messages
                              (conversations db) uid new)) (fun _ =>
        check! (Messages.message_length new) else (check_violation "message_length") ;;
        check! (negb (mem (Messages.id new) (keys Messages.id rest)))
          else (unique_violation "messages_pkey") ;;
        check! (mem (Messages.conversation_id new) (keys Conversations.id (conversations db)))
          else (foreign_key_violation "messages_conversation_id_fkey") ;;
        check! (mem (Messages.sender_id new) (keys Profiles.id (profiles db)))
          else (foreign_key_violation "messages_sender_id_fkey") ;;
        Ok (with_messages (replace_row Messages.id target new (messages db)) db))
      else Ok db
  end.

Definition update_notification (who : role) (target : uuid)
    (set : Notifications.row -> Notifications.row) (db : DB) : result DB :=
  match find_row Notifications.id target (notifications db) with
  | None => Ok db
  | Some old =>
      if policy_using who (fun uid => Notifications.users_can_view_their_own_notifications uid old)
         && policy_using who (fun uid => Notifications.users_can_update_their_own_notifications uid old)
      then
        let new := set old in
        let rest := others Notifications.id target (notifications db) in
        bind (policy_with_check who "notifications"
                (fun uid => Notifications.users_can_update_their_own_notifications uid new)) (fun _ =>
        check! (Notifications.valid_notification_type new)
          else (check_violation "valid_notification_type") ;;
        check! (negb (mem (Notifications.id new) (keys Notifications.id rest)))
          else (unique_violation "notifications_pkey") ;;
        check! (mem (Notifications.user_id new) (keys Profiles.id (profiles db)))
          else (foreign_key_violation "notifications_user_id_fkey") ;;
        check! (mem (Notifications.actor_id new) (keys Profiles.id (profiles db)))
          else (foreign_key_violation "notifications_actor_id_fkey") ;;
        check! (fk_opt (Notifications.post_id new) (keys Posts.id (posts db)))
          else (foreign_key_violation "notifications_post_id_fkey") ;;
        check! (fk_opt (Notifications.comment_id new) (keys Comments.id (comments db)))
          else (foreign_key_violation "notifications_comment_id_fkey") ;;
        Ok (with_notifications (replace_row Notifications.id target new (notifications db)) db))
      else Ok db
  end.

(** SELECT * FROM messages, as [who]. *)
Definition select_messages (who : role) (db : DB) : list Messages.row :=
  filter (fun m => policy_using who (fun uid =>
            Messages.users_can_view_messages_in_their_conversations (conversations db) uid m))
         (messages db).

(** SELECT * FROM conversations, as [who]. *)
Definition select_conversations (who : role) (db : DB) : list Conversations.row :=
  filter (fun c => policy_using who (fun uid =>
            Conversations.users_can_view_their_own_conversations uid c))
         (conversations db).

(** ** Statements and the states they reach *)

Inductive statement : Type :=
| CREATE_USER (u : uuid)
| DELETE_USER (u : uuid)
| INSERT_profiles (r : Profiles.row)
| UPDATE_profiles (target : uuid) (set : Profiles.row -> Profiles.row)
| DELETE_profiles (cond : Profiles.row -> bool)
| INSERT_posts (r : Posts.row)
| UPDATE_posts (target : uuid) (set : Posts.row -> Posts.row)
| DELETE_posts (cond : Posts.row -> bool)
| INSERT_likes (r : Likes.row)
| UPDATE_likes (target : uuid) (set : Likes.row -> Likes.row)
| DELETE_likes (cond : Likes.row -> bool)
| INSERT_comments (r : Comments.row)
| UPDATE_comments (target : uuid) (set : Comments.row -> Comments.row)
| DELETE_comments (cond : Comments.row -> bool)
| INSERT_follows (r : Follows.row)
| UPDATE_follows (target : uuid) (set : Follows.row -> Follows.row)
| DELETE_follows (cond : Follows.row -> bool)
| INSERT_conversations (r : Conversations.row)
| UPDATE_conversations (target : uuid) (set : Conversations.row -> Conversations.row)
| DELETE_conversations (cond : Conversations.row -> bool)
| INSERT_messages (r : Messages.row)
| UPDATE_messages (target : uuid) (set : Messages.row -> Messages.row)
| DELETE_messages (cond : Messages.row -> bool)
| INSERT_notifications (r : Notifications.row)
| UPDATE_notifications (target : uuid) (set : Notifications.row -> Notifications.row)
| DELETE_notifications (cond : Notifications.row -> bool).

Definition exec (who : role) (e : env) (s : statement) (db : DB) : result DB :=
  match s with
  | CREATE_USER u => Ok (create_user u db)
  | DELETE_USER u => Ok (delete_user u db)
  | INSERT_profiles r => insert_profile who r db
  | UPDATE_profiles target set => update_profile who e target set db
  | DELETE_profiles cond => Ok (delete_profiles who cond db)
  | INSERT_posts r => insert_post who r db
  | UPDATE_posts target set => update_post who e target set db
  | DELETE_posts cond => Ok (delete_posts who cond db)
  | INSERT_likes r => insert_like who r db
  | UPDATE_likes target set => update_like who target set db
  | DELETE_likes cond => Ok (delete_likes who cond db)
  | INSERT_comments r => insert_comment who r db
  | UPDATE_comments target set => update_comment who e target set db
  | DELETE_comments cond => Ok (delete_comments who cond db)
  | INSERT_follows r => insert_follow who r db
  | UPDATE_follows target set => update_follow who target set db
  | DELETE_follows cond => Ok (delete_follows who cond db)
  | INSERT_conversations r => insert_conversation who r db
  | UPDATE_conversations target set => update_conversation who target set db
  | DELETE_conversations cond => Ok (delete_conversations who cond db)
  | INSERT_messages r => insert_message who r db
  | UPDATE_messages target set => update_message who target set db
  | DELETE_messages cond => Ok (delete_messages who cond db)
  | INSERT_notifications r => insert_notification who r db
  | UPDATE_notifications target set => update_notification who target set db
  | DELETE_notifications cond => Ok (delete_notifications who cond db)
  end.

(** The states of the database: what committed statements, of any role,
    make of the empty one. *)
Inductive reachable : DB -> Prop :=
| reachable_empty : reachable empty_db
| reachable_step (db db' : DB) (who : role) (e : env) (s : statement) :
    reachable db -> exec who e s db = Ok db' -> reachable db'.

(** ** What the constraints keep true of a state *)

Definition primary_keys (db : DB) : bool :=
  distinct_by N.eqb (keys Profiles.id (profiles db))
  && distinct_by N.eqb (keys Posts.id (posts db))
  && distinct_by N.eqb (keys Likes.id (likes db))
  && distinct_by N.eqb (keys Comments.id (comments db))
  && distinct_by N.eqb (keys Follows.id (follows db))
  && distinct_by N.eqb (keys Conversations.id (conversations db))
  && distinct_by N.eqb (keys Messages.id (messages db))
  && distinct_by N.eqb (keys Notifications.id (notifications db)).

Definition unique_keys (db : DB) : bool :=
  distinct_by String.eqb (map Profiles.username (profiles db))
  && distinct_by pair_eqb (map Likes.user_id_post_id (likes db))
  && distinct_by pair_eqb (map Follows.follower_id_following_id (follows db))
  && distinct_by pair_eqb (map Conversations.conversations_users_idx (conversations db)).

Definition checks (db : DB) : bool :=
  forallb Profiles.username_length (profiles db)
  && forallb Profiles.username_format (profiles db)
  && forallb Posts.content_length (posts db)
  && forallb Comments.comment_length (comments db)
  && forallb Follows.no_self_follow (follows db)
  && forallb Conversations.different_users (conversations db)
  && forallb Messages.message_length (messages db)
  && forallb Notifications.valid_notification_type (notifications db).

(** The foreign keys of the schema, by the names the server gives them. *)
Inductive fkey : Type :=
| profiles_id_fkey
| posts_user_id_fkey
| likes_user_id_fkey
| likes_post_id_fkey
| comments_user_id_fkey
| comments_post_id_fkey
| comments_parent_id_fkey
| follows_follower_id_fkey
| follows_following_id_fkey
| conversations_user1_id_fkey
| conversations_user2_id_fkey
| messages_conversation_id_fkey
| messages_sender_id_fkey
| notifications_user_id_fkey
| notifications_actor_id_fkey
| notifications_post_id_fkey
| notifications_comment_id_fkey.

Definition all_fkeys : list fkey :=
  [ profiles_id_fkey; posts_user_id_fkey; likes_user_id_fkey; likes_post_id_fkey;
    comments_user_id_fkey; comments_post_id_fkey; comments_parent_id_fkey;
    follows_follower_id_fkey; follows_following_id_fkey;
    conversations_user1_id_fkey; conversations_user2_id_fkey;
    messages_conversation_id_fkey; messages_sender_id_fkey;
    notifications_user_id_fkey; notifications_actor_id_fkey;
    notifications_post_id_fkey; notifications_comment_id_fkey ].

(** Every row's column is NULL or a key of the referenced table. *)
Definition references {R : Type} (rows : list R) (column : R -> option uuid)
    (referenced : list uuid) : bool :=
  forallb (fun r => fk_opt (column r) referenced) rows.

Definition holds (k : fkey) (db : DB) : bool :=
  let P := keys Profiles.id (profiles db) in
  let p := keys Posts.id (posts db) in
  let c := keys Comments.id (comments db) in
  match k with
  | profiles_id_fkey =>
      references (profiles db) (fun r => Some (Profiles.id r)) (auth_users db)
  | posts_user_id_fkey =>
      references (posts db) (fun r => Some (Posts.user_id r)) P
  | likes_user_id_fkey =>
      references (likes db) (fun r => Some (Likes.user_id r)) P
  | likes_post_id_fkey =>
      references (likes db) (fun r => Some (Likes.post_id r)) p
  | comments_user_id_fkey =>
      references (comments db) (fun r => Some (Comments.user_id r)) P
  | comments_post_id_fkey =>
      references (comments db) (fun r => Some (Comments.post_id r)) p
  | comments_parent_id_fkey =>
      references (comments db) Comments.parent_id c
  | follows_follower_id_fkey =>
      references (follows db) (fun r => Some (Follows.follower_id r)) P
  | follows_following_id_fkey =>
      references (follows db) (fun r => Some (Follows.following_id r)) P
  | conversations_user1_id_fkey =>
      references (conversations db) (fun r => Some (Conversations.user1_id r)) P
  | conversations_user2_id_fkey =>
      references (conversations db) (fun r => Some (Conversations.user2_id r)) P
  | messages_conversation_id_fkey =>
      references (messages db) (fun r => Some (Messages.conversation_id r))
        (keys Conversations.id (conversations db))
  | messages_sender_id_fkey =>
      references (messages db) (fun r => Some (Messages.sender_id r)) P
  | notifications_user_id_fkey =>
      references (notifications db) (fun r => Some (Notifications.user_id r)) P
  | notifications_actor_id_fkey =>
      references (notifications db) (fun r => Some (Notifications.actor_id r)) P
  | notifications_post_id_fkey =>
      references (notifications db) Notifications.post_id p
  | notifications_comment_id_fkey =>
      references (notifications db) Notifications.comment_id c
  end.

(** Referential integrity: every foreign key resolves. *)
Definition foreign_keys (db : DB) : bool :=
  forallb (fun k => holds k db) all_fkeys.

Definition consistent (db : DB) : bool :=
  primary_keys db && unique_keys db && checks db.

(** No row of any table names profile [P] in a column that references
    profiles(id). *)
Definition unreferenced (P : uuid) (db : DB) : bool :=
  forallb (fun r => negb (Profiles.id r =? P)) (profiles db)
  && forallb (fun r => negb (Posts.user_id r =? P)) (posts db)
  && forallb (fun r => negb (Likes.user_id r =? P)) (likes db)
  && forallb (fun r => negb (Comments.user_id r =? P)) (comments db)
  && forallb (fun r => negb (Follows.follower_id r =? P)
                       && negb (Follows.following_id r =? P)) (follows db)
  && forallb (fun r => negb (Conversations.user1_id r =? P)
                       && negb (Conversations.user2_id r =? P)) (conversations db)
  && forallb (fun r => negb (Messages.sender_id r =? P)) (messages db)
  && forallb (fun r => negb (Notifications.user_id r =? P)
                       && negb (Notifications.actor_id r =? P)) (notifications db).

(** The two participants of a conversation are [A] and [B], in either
    order. *)
Definition between (A B : uuid) (c : Conversations.row) : bool :=
  ((Conversations.user1_id c =? A) && (Conversations.user2_id c =? B))
  || ((Conversations.user1_id c =? B) && (Conversations.user2_id c =? A)).

(** ** The function catalog, and the migrations that write it *)

Module Catalog.

(** The bodies of the two trigger functions. *)
Inductive prosrc : Type :=
| set_updated_at_to_now         (* NEW.updated_at = now(); RETURN NEW; *)
| set_last_message_at.          (* UPDATE conversations SET last_message_at ... *)

(** A row of pg_proc: SECURITY DEFINER or not, and the SET clause for
    search_path when the function has one. *)
Record pg_proc : Type := {
  proname : string;
  prosecdef : bool;
  proconfig : option (list string);
  body : prosrc
}.

Inductive ddl : Type :=
| CREATE_OR_REPLACE_FUNCTION (f : pg_proc)
| DROP_FUNCTION_IF_EXISTS (name : string).

Definition catalog := list pg_proc.

Definition drop (name : string) (c : catalog) : catalog :=
  filter (fun f => negb (String.eqb (proname f) name)) c.

(** CREATE OR REPLACE gives the function the properties the command
    states or implies: a clause the command leaves out is reset. *)
Definition apply (c : catalog) (d : ddl) : catalog :=
  match d with
  | CREATE_OR_REPLACE_FUNCTION f => f :: drop (proname f) c
  | DROP_FUNCTION_IF_EXISTS name => drop name c
  end.

Definition lookup (name : string) (c : catalog) : option pg_proc :=
  find (fun f => String.eqb (proname f) name) c.

(** A migration file: its version (the timestamp its name starts with)
    and the statements on functions, in the order of the file. *)
Record migration : Type := {
  version : N;
  statements : list ddl
}.

Definition fix_security_and_performance_issues : migration := {|
  version := 20251115152416;
  statements :=
    [ DROP_FUNCTION_IF_EXISTS "update_updated_at_column";
      CREATE_OR_REPLACE_FUNCTION
        {| proname := "update_updated_at_column"; prosecdef := true;
           proconfig := Some ["public"; "pg_temp"]; body := set_updated_at_to_now |};
      DROP_FUNCTION_IF_EXISTS "update_conversation_last_message";
      CREATE_OR_REPLACE_FUNCTION
        {| proname := "update_conversation_last_message"; prosecdef := true;
           proconfig := Some ["public"; "pg_temp"]; body := set_last_message_at |} ]
|}.

Definition fix_remaining_security_issues : migration := {|
  version := 20251115152525;
  statements := []
|}.

Definition create_social_app_schema : migration := {|
  version := 20251115160152;
  statements :=
    [ CREATE_OR_REPLACE_FUNCTION
        {| proname := "update_updated_at_column"; prosecdef := false;
           proconfig := None; body := set_updated_at_to_now |};
      CREATE_OR_REPLACE_FUNCTION
        {| proname := "update_conversation_last_message"; prosecdef := false;
           proconfig := None; body := set_last_message_at |} ]
|}.

Definition fix_all_security_and_performance_issues : migration := {|
  version := 20251115163920;
  statements :=
    [ CREATE_OR_REPLACE_FUNCTION
        {| proname := "update_updated_at_column"; prosecdef := true;
           proconfig := Some ["public"; "pg_temp"]; body := set_updated_at_to_now |};
      CREATE_OR_REPLACE_FUNCTION
        {| proname := "update_conversation_last_message"; prosecdef := true;
           proconfig := Some ["public"; "pg_temp"]; body := set_last_message_at |} ]
|}.

(** The directory, in the order the file system happens to list it. *)
Definition migrations : list migration :=
  [ create_social_app_schema;
    fix_all_security_and_performance_issues;
    fix_remaining_security_issues;
    fix_security_and_performance_issues ].

Fixpoint insert_by_version (m : migration) (l : list migration) : list migration :=
  match l with
  | [] => [m]
  | x :: l' => if version m <=? version x then m :: l else x :: insert_by_version m l'
  end.

Definition by_version (l : list migration) : list migration :=
  fold_right insert_by_version [] l.

Definition run (l : list migration) (c : catalog) : catalog :=
  fold_left apply (flat_map statements l) c.

(** The catalog once every migration has run, in timestamp order. *)
Definition final : catalog := run (by_version migrations) [].

(** The search path names resolve against while [f] runs, for a caller
    whose session has [session]. *)
Definition search_path_in (f : pg_proc) (session : list string) : list string :=
  match proconfig f with
  | Some pinned => pinned
  | None => session
  end.

Inductive executor : Type :=
| owner
| invoker (who : role).

(** The role whose privileges [f] runs with, called by [who]. *)
Definition runs_as (f : pg_proc) (who : role) : executor :=
  if prosecdef f then owner else invoker who.

End Catalog.

(** Every table of [db'] holds rows of the same table of [db] only. *)
Definition shrunk (db' db : DB) : Prop :=
  incl (auth_users db') (auth_users db)
  /\ incl (profiles db') (profiles db)
  /\ incl (posts db') (posts db)
  /\ incl (likes db') (likes db)
  /\ incl (comments db') (comments db)
  /\ incl (follows db') (follows db)
  /\ incl (conversations db') (conversations db)
  /\ incl (messages db') (messages db)
  /\ incl (notifications db') (notifications db).

(** A script of statements, run from a state; [None] when one fails. *)
Fixpoint run_script (script : list (role * env * statement)) (db : DB) : option DB :=
  match script with
  | [] => Some db
  | (who, e, s) :: rest =>
      match exec who e s db with
      | Ok db' => run_script rest db'
      | Err _ => None
      end
  end.

(** ** Reads and statements over several rows *)

(** SELECT * FROM notifications, as [who]. *)
Definition select_notifications (who : role) (db : DB) : list Notifications.row :=
  filter (fun n => policy_using who (fun uid =>
            Notifications.users_can_view_their_own_notifications uid n))
         (notifications db).

(** An UPDATE over the rows of keys [targets], one row after the other;
    the first row that fails fails the statement. *)
Fixpoint update_each (step : uuid -> DB -> result DB) (targets : list uuid) (db : DB)
  : result DB :=
  match targets with
  | [] => Ok db
  | t :: rest => bind (step t db) (update_each step rest)
  end.

(** UPDATE messages SET ... WHERE [cond], as [who]. *)
Definition update_messages (who : role) (cond : Messages.row -> bool)
    (set : Messages.row -> Messages.row) (db : DB) : result DB :=
  update_each (fun t => update_message who t set)
    (keys Messages.id (filter cond (messages db))) db.

(** [x = v] on a nullable column: not true of NULL. *)
Definition eq_opt {A : Type} (eqb : A -> A -> bool) (x : option A) (v : A) : bool :=
  match x with
  | Some a => eqb a v
  | None => false
  end.

(** No row of likes, comments or notifications names post [p], and no row
    of posts has that key. *)
Definition post_unreferenced (p : uuid) (db : DB) : bool :=
  forallb (fun r => negb (Posts.id r =? p)) (posts db)
  && forallb (fun r => negb (Likes.post_id r =? p)) (likes db)
  && forallb (fun r => negb (Comments.post_id r =? p)) (comments db)
  && forallb (fun r => negb (eq_opt N.eqb (Notifications.post_id r) p)) (notifications db).

(** [r] is a reply to [c], or a reply to such a reply, among [cs]. *)
Inductive reply_under (cs : list Comments.row) (c : Comments.row)
  : Comments.row -> Prop :=
| reply_to (r : Comments.row) :
    In r cs -> Comments.parent_id r = Some (Comments.id c) -> reply_under cs c r
| reply_to_reply (r' r : Comments.row) :
    reply_under cs c r' -> In r cs -> Comments.parent_id r = Some (Comments.id r') ->
    reply_under cs c r.

(** ** The messages page of the client (pages/MessagesPage.tsx)

    What each handler does to the database, as the signed-in [user] (none
    when nobody is signed in). The handlers drop the errors of the writes
    whose result they do not read. *)

Module MessagesPage.

(** .update({ is_read: true }) *)
Definition is_read_true (m : Messages.row) : Messages.row := {|
  Messages.id := Messages.id m;
  Messages.conversation_id := Messages.conversation_id m;
  Messages.sender_id := Messages.sender_id m;
  Messages.content := Messages.content m;
  Messages.is_read := Some true;
  Messages.created_at := Messages.created_at m
|}.

Definition markMessagesAsRead (user : option uuid) (conversationId : uuid) (db : DB) : DB :=
  match user with
  | None => db
  | Some me =>
      commit db
        (update_messages (authenticated me)
           (fun m => (Messages.conversation_id m =? conversationId)
                     && negb (Messages.sender_id m =? me))
           is_read_true db)
  end.

(** The count query of loadConversations:
    .eq('conversation_id', conv.id).eq('is_read', false).neq('sender_id', user.id) *)
Definition unread_count (me : uuid) (conv : uuid) (db : DB) : nat :=
  List.length
    (filter (fun m => (Messages.conversation_id m =? conv)
                      && eq_opt Bool.eqb (Messages.is_read m) false
                      && negb (Messages.sender_id m =? me))
            (select_messages (authenticated me) db)).

(** .maybeSingle(): the row when there is exactly one, no data otherwise. *)
Definition maybeSingle {A : Type} (rows : list A) : option A :=
  match rows with
  | [x] => Some x
  | _ => None
  end.

(** The conversation the page selects, and the state it leaves. *)
Definition startConversation (e : env) (user : option uuid) (otherUser : uuid) (db : DB)
  : DB * option Conversations.row :=
  match user with
  | None => (db, None)
  | Some me =>
      match maybeSingle
              (filter (fun c =>
                         ((Conversations.user1_id c =? me)
                          && (Conversations.user2_id c =? otherUser))
                         || ((Conversations.user1_id c =? otherUser)
                             && (Conversations.user2_id c =? me)))
                      (select_conversations (authenticated me) db)) with
      | Some existingConv => (db, Some existingConv)
      | None =>
          let newConv :=
            Conversations.new e {|
              Conversations.ins_id := None;
              Conversations.ins_user1_id := me;
              Conversations.ins_user2_id := otherUser;
              Conversations.ins_last_message_at := None;
              Conversations.ins_created_at := None |} in
          match insert_conversation (authenticated me) newConv db with
          | Ok db' => (db', Some newConv)
          | Err _ => (db, None)
          end
      end
  end.

Section Send.

(** String.prototype.trim *)
Variable trim : text -> text.

Definition message_of (me : uuid) (conv : Conversations.row) (newMessage : text)
  : Messages.ins := {|
  Messages.ins_id := None;
  Messages.ins_conversation_id := Conversations.id conv;
  Messages.ins_sender_id := me;
  Messages.ins_content := trim newMessage;
  Messages.ins_is_read := None;
  Messages.ins_created_at := None
|}.

Definition recipientId (me : uuid) (conv : Conversations.row) : uuid :=
  if Conversations.user1_id conv =? me
  then Conversations.user2_id conv
  else Conversations.user1_id conv.

Definition notification_of (me : uuid) (conv : Conversations.row) : Notifications.ins := {|
  Notifications.ins_id := None;
  Notifications.ins_user_id := recipientId me conv;
  Notifications.ins_actor_id := me;
  Notifications.ins_type := "message";
  Notifications.ins_post_id := None;
  Notifications.ins_comment_id := None;
  Notifications.ins_is_read := None;
  Notifications.ins_created_at := None
|}.

(** [e1] is the environment of the INSERT into messages, [e2] that of the
    INSERT into notifications that follows it. *)
Definition handleSendMessage (e1 e2 : env) (user : option uuid)
    (selectedConversation : option Conversations.row) (newMessage : text) (db : DB) : DB :=
  match user, selectedConversation with
  | Some me, Some conv =>
      if String.eqb (trim newMessage) "" then db
      else
        match insert_message (authenticated me)
                (Messages.new e1 (message_of me conv newMessage)) db with
        | Err _ => db
        | Ok db1 =>
            commit db1
              (insert_notification (authenticated me)
                 (Notifications.new e2 (notification_of me conv)) db1)
        end
  | _, _ => db
  end.

End Send.

End MessagesPage.

(** ** The like button of a post (components/PostCard.tsx) *)

Module PostCard.

(** What handleLike reads of its [post]: the key, the owner and the
    user_id of the likes the page loaded with it. *)
Record Post : Type := {
  id : uuid;
  user_id : uuid;
  likes : list uuid
}.

(** post.likes.some(like => like.user_id === user.id) *)
Definition isLiked (user : option uuid) (post : Post) : bool :=
  match user with
  | Some me => existsb (fun like_user_id => like_user_id =? me) (likes post)
  | None => false
  end.

Definition like_of (me : uuid) (post : Post) : Likes.ins := {|
  Likes.ins_id := None;
  Likes.ins_user_id := me;
  Likes.ins_post_id := id post;
  Likes.ins_created_at := None
|}.

Definition notification_of (me : uuid) (post : Post) : Notifications.ins := {|
  Notifications.ins_id := None;
  Notifications.ins_user_id := user_id post;
  Notifications.ins_actor_id := me;
  Notifications.ins_type := "like";
  Notifications.ins_post_id := Some (id post);
  Notifications.ins_comment_id := None;
  Notifications.ins_is_read := None;
  Notifications.ins_created_at := None
|}.

Definition handleLike (e1 e2 : env) (user : option uuid) (likeLoading : bool)
    (post : Post) (db : DB) : DB :=
  match user with
  | None => db
  | Some me =>
      if likeLoading then db
      else if isLiked user post then
        let db1 :=
          delete_likes (authenticated me)
            (fun l => (Likes.user_id l =? me) && (Likes.post_id l =? id post)) db in
        delete_notifications (authenticated me)
          (fun n => (Notifications.user_id n =? user_id post)
                    && (Notifications.actor_id n =? me)
                    && eq_opt N.eqb (Notifications.post_id n) (id post)
                    && String.eqb (Notifications.type n) "like")
          db1
      else
        let db1 :=
          commit db (insert_like (authenticated me) (Likes.new e1 (like_of me post)) db) in
        if negb (me =? user_id post)
        then commit db1
               (insert_notification (authenticated me)
                  (Notifications.new e2 (notification_of me post)) db1)
        else db1
  end.

End PostCard.

(** ** The notifications page and the counters of the layout
    (pages/NotificationsPage.tsx, components/Layout.tsx) *)

(** UPDATE notifications SET ... WHERE [cond], as [who]. *)
Definition update_notifications (who : role) (cond : Notifications.row -> bool)
    (set : Notifications.row -> Notifications.row) (db : DB) : result DB :=
  update_each (fun t => update_notification who t set)
    (keys Notifications.id (filter cond (notifications db))) db.

Module NotificationsPage.

(** .update({ is_read: true }) *)
Definition is_read_true (n : Notifications.row) : Notifications.row := {|
  Notifications.id := Notifications.id n;
  Notifications.user_id := Notifications.user_id n;
  Notifications.actor_id := Notifications.actor_id n;
  Notifications.type := Notifications.type n;
  Notifications.post_id := Notifications.post_id n;
  Notifications.comment_id := Notifications.comment_id n;
  Notifications.is_read := Some true;
  Notifications.created_at := Notifications.created_at n
|}.

Definition markAllAsRead (user : option uuid) (db : DB) : DB :=
  match user with
  | None => db
  | Some me =>
      commit db
        (update_notifications (authenticated me)
           (fun n => (Notifications.user_id n =? me)
                     && eq_opt Bool.eqb (Notifications.is_read n) false)
           is_read_true db)
  end.

End NotificationsPage.

Module Layout.

(** The two counts of loadUnreadCounts, for the signed-in user [me]. *)
Definition notifCount (me : uuid) (db : DB) : nat :=
  List.length
    (filter (fun n => (Notifications.user_id n =? me)
                      && eq_opt Bool.eqb (Notifications.is_read n) false)
            (select_notifications (authenticated me) db)).

Definition conversationIds (me : uuid) (db : DB) : list uuid :=
  map Conversations.id
    (filter (fun c => (Conversations.user1_id c =? me) || (Conversations.user2_id c =? me))
            (select_conversations (authenticated me) db)).

Definition msgCount (me : uuid) (db : DB) : nat :=
  List.length
    (filter (fun m => mem (Messages.conversation_id m) (conversationIds me db)
                      && eq_opt Bool.eqb (Messages.is_read m) false
                      && negb (Messages.sender_id m =? me))
            (select_messages (authenticated me) db)).

End Layout.

(** ** The follow button (pages/ExplorePage.tsx; pages/ProfilePage.tsx
    issues the same statements for the profile it shows) *)

Module ExplorePage.

Definition follow_of (me profileId : uuid) : Follows.ins := {|
  Follows.ins_id := None;
  Follows.ins_follower_id := me;
  Follows.ins_following_id := profileId;
  Follows.ins_created_at := None
|}.

Definition notification_of (me profileId : uuid) : Notifications.ins := {|
  Notifications.ins_id := None;
  Notifications.ins_user_id := profileId;
  Notifications.ins_actor_id := me;
  Notifications.ins_type := "follow";
  Notifications.ins_post_id := None;
  Notifications.ins_comment_id := None;
  Notifications.ins_is_read := None;
  Notifications.ins_created_at := None
|}.

Definition handleFollow (e1 e2 : env) (user : option uuid) (profileId : uuid)
    (isFollowing : bool) (db : DB) : DB :=
  match user with
  | None => db
  | Some me =>
      if isFollowing then
        let db1 :=
          delete_follows (authenticated me)
            (fun f => (Follows.follower_id f =? me) && (Follows.following_id f =? profileId))
            db in
        delete_notifications (authenticated me)
          (fun n => (Notifications.user_id n =? profileId)
                    && (Notifications.actor_id n =? me)
                    && String.eqb (Notifications.type n) "follow")
          db1
      else
        let db1 :=
          commit db (insert_follow (authenticated me) (Follows.new e1 (follow_of me profileId)) db) in
        commit db1
          (insert_notification (authenticated me)
             (Notifications.new e2 (notification_of me profileId)) db1)
  end.

End ExplorePage.

Module ProfilePage.

Definition handleFollow (e1 e2 : env) (user profile : option uuid) (isFollowing : bool)
    (db : DB) : DB :=
  match profile with
  | None => db
  | Some profileId => ExplorePage.handleFollow e1 e2 user profileId isFollowing db
  end.

End ProfilePage.

(** ** The comments of a post (components/CommentSection.tsx) *)

Module CommentSection.

Section Submit.

(** String.prototype.trim *)
Variable trim : text -> text.

Definition comment_of (me postId : uuid) (newComment : text) : Comments.ins := {|
  Comments.ins_id := None;
  Comments.ins_user_id := me;
  Comments.ins_post_id := postId;
  Comments.ins_parent_id := None;
  Comments.ins_content := trim newComment;
  Comments.ins_created_at := None;
  Comments.ins_updated_at := None;
  Comments.ins_is_edited := None
|}.

Definition notification_of (me postId postOwnerId : uuid) : Notifications.ins := {|
  Notifications.ins_id := None;
  Notifications.ins_user_id := postOwnerId;
  Notifications.ins_actor_id := me;
  Notifications.ins_type := "comment";
  Notifications.ins_post_id := Some postId;
  Notifications.ins_comment_id := None;
  Notifications.ins_is_read := None;
  Notifications.ins_created_at := None
|}.

Definition handleSubmit (e1 e2 : env) (user : option uuid) (postId postOwnerId : uuid)
    (newComment : text) (db : DB) : DB :=
  match user with
  | None => db
  | Some me =>
      if String.eqb (trim newComment) "" then db
      else
        match insert_comment (authenticated me)
                (Comments.new e1 (comment_of me postId newComment)) db with
        | Err _ => db
        | Ok db1 =>
            if negb (me =? postOwnerId)
            then commit db1
                   (insert_notification (authenticated me)
                      (Notifications.new e2 (notification_of me postId postOwnerId)) db1)
            else db1
        end
  end.

End Submit.

(** Once the dialog is confirmed. *)
Definition handleDelete (user : role) (commentId : uuid) (db : DB) : DB :=
  delete_comments user (fun c => Comments.id c =? commentId) db.

End CommentSection.

(** ** Editing a post (components/PostCard.tsx) *)

Module PostCardMenu.

Section Edit.

(** String.prototype.trim *)
Variable trim : text -> text.

(** .update({ content: editedContent.trim(), is_edited: true }) *)
Definition edited (editedContent : text) (r : Posts.row) : Posts.row := {|
  Posts.id := Posts.id r;
  Posts.user_id := Posts.user_id r;
  Posts.content := trim editedContent;
  Posts.media_urls := Posts.media_urls r;
  Posts.created_at := Posts.created_at r;
  Posts.updated_at := Posts.updated_at r;
  Posts.is_edited := Some true
|}.

Definition handleEdit (e : env) (who : role) (postId : uuid) (editedContent : text)
    (db : DB) : DB :=
  if String.eqb (trim editedContent) "" then db
  else commit db (update_post who e postId (edited editedContent) db).

End Edit.

End PostCardMenu.

(** ** The form of a new post (components/CreatePost.tsx) *)

Module CreatePost.

Section Form.

(** String.prototype.trim *)
Variable trim : text -> text.

(** The media list and the input field, after the button. *)
Definition addMediaUrl (mediaInput : text) (mediaUrls : list text) : list text * text :=
  if negb (String.eqb (trim mediaInput) "") && (List.length mediaUrls <? 4)%nat
  then (mediaUrls ++ [trim mediaInput], "")
  else (mediaUrls, mediaInput).

(** mediaUrls.filter((_, i) => i !== index) *)
Definition removeMediaUrl (index : nat) (mediaUrls : list text) : list text :=
  map snd (filter (fun x => negb (fst x =? index)%nat)
                  (combine (seq 0 (List.length mediaUrls)) mediaUrls)).

Definition post_of (me : uuid) (content : text) (mediaUrls : list text) : Posts.ins := {|
  Posts.ins_id := None;
  Posts.ins_user_id := me;
  Posts.ins_content := trim content;
  Posts.ins_media_urls := Some (Some mediaUrls);
  Posts.ins_created_at := None;
  Posts.ins_updated_at := None;
  Posts.ins_is_edited := None
|}.

Definition handleSubmit (e : env) (user : option uuid) (content : text)
    (mediaUrls : list text) (db : DB) : DB :=
  match user with
  | None => db
  | Some me =>
      if String.eqb (trim content) "" then db
      else commit db (insert_post (authenticated me)
                        (Posts.new e (post_of me content mediaUrls)) db)
  end.

End Form.

End CreatePost.

(** ** The profile form (pages/EditProfilePage.tsx) *)

Module EditProfilePage.

Record form : Type := {
  fullName : text;
  bio : text;
  location : text;
  website : text;
  avatarUrl : text;
  coverPhotoUrl : text
}.

(** .update({ full_name, bio, location, website, avatar_url, cover_photo_url }) *)
Definition saved (f : form) (r : Profiles.row) : Profiles.row := {|
  Profiles.id := Profiles.id r;
  Profiles.username := Profiles.username r;
  Profiles.full_name := Some (fullName f);
  Profiles.bio := Some (bio f);
  Profiles.avatar_url := Some (avatarUrl f);
  Profiles.cover_photo_url := Some (coverPhotoUrl f);
  Profiles.location := Some (location f);
  Profiles.website := Some (website f);
  Profiles.created_at := Profiles.created_at r;
  Profiles.updated_at := Profiles.updated_at r
|}.

(** [profile] is the key of the profile the page holds, [who] the client. *)
Definition handleSubmit (e : env) (who : role) (profile : option uuid) (f : form)
    (db : DB) : DB :=
  match profile with
  | None => db
  | Some profileId => commit db (update_profile who e profileId (saved f) db)
  end.

End EditProfilePage.

(** ** A small state, built by statements

    Three accounts sign up; alice opens a conversation with bob, and bob
    writes to her. *)

Module Example.

Definition alice : uuid := 1.
Definition bob : uuid := 2.
Definition carol : uuid := 3.

Definition clock : env := {| now := 1000%Z; gen_random_uuid := 77 |}.
Definition later : env := {| now := 2000%Z; gen_random_uuid := 78 |}.

Definition profile (u : uuid) (name : text) : Profiles.ins := {|
  Profiles.ins_id := u;
  Profiles.ins_username := name;
  Profiles.ins_full_name := None;
  Profiles.ins_bio := None;
  Profiles.ins_avatar_url := None;
  Profiles.ins_cover_photo_url := None;
  Profiles.ins_location := None;
  Profiles.ins_website := None;
  Profiles.ins_created_at := None;
  Profiles.ins_updated_at := None
|}.

Definition sign_up (u : uuid) (name : text) : list (role * env * statement) :=
  [ (service_role, clock, CREATE_USER u);
    (authenticated u, clock, INSERT_profiles (Profiles.new clock (profile u name))) ].

Definition conversation : Conversations.ins := {|
  Conversations.ins_id := Some 10;
  Conversations.ins_user1_id := alice;
  Conversations.ins_user2_id := bob;
  Conversations.ins_last_message_at := None;
  Conversations.ins_created_at := None
|}.

Definition hello : Messages.ins := {|
  Messages.ins_id := Some 20;
  Messages.ins_conversation_id := 10;
  Messages.ins_sender_id := bob;
  Messages.ins_content := "hello";
  Messages.ins_is_read := None;
  Messages.ins_created_at := None
|}.

Definition signing_up : list (role * env * statement) :=
  sign_up alice "alice" ++ sign_up bob "bob_2" ++ sign_up carol "carol".

Definition talking : list (role * env * statement) :=
  signing_up
  ++ [ (authenticated alice, clock,
        INSERT_conversations (Conversations.new clock conversation));
       (authenticated bob, later, INSERT_messages (Messages.new later hello)) ].

Definition post : Posts.ins := {|
  Posts.ins_id := Some 30;
  Posts.ins_user_id := alice;
  Posts.ins_content := "first post";
  Posts.ins_media_urls := None;
  Posts.ins_created_at := None;
  Posts.ins_updated_at := None;
  Posts.ins_is_edited := None
|}.

Definition like : Likes.ins := {|
  Likes.ins_id := Some 40;
  Likes.ins_user_id := bob;
  Likes.ins_post_id := 30;
  Likes.ins_created_at := None
|}.

Definition follow : Follows.ins := {|
  Follows.ins_id := Some 50;
  Follows.ins_follower_id := alice;
  Follows.ins_following_id := bob;
  Follows.ins_created_at := None
|}.

Definition posting : list (role * env * statement) :=
  signing_up
  ++ [ (authenticated alice, clock, INSERT_posts (Posts.new clock post));
       (authenticated bob, clock, INSERT_likes (Likes.new clock like));
       (authenticated alice, clock, INSERT_follows (Follows.new clock follow)) ].

Definition state_after (script : list (role * env * statement)) : DB :=
  match run_script script empty_db with
  | Some db => db
  | None => empty_db
  end.

(** The three profiles, and nothing else. *)
Definition people : DB := Eval vm_compute in state_after signing_up.

(** The three profiles, the conversation and the message. *)
Definition chat : DB := Eval vm_compute in state_after talking.

(** The three profiles, alice's post, bob's like of it, and alice
    following bob. *)
Definition feed : DB := Eval vm_compute in state_after posting.

Definition the_conversation : Conversations.row := {|
  Conversations.id := 10;
  Conversations.user1_id := alice;
  Conversations.user2_id := bob;
  Conversations.last_message_at := Some 2000%Z;
  Conversations.created_at := Some 1000%Z
|}.

Definition the_message : Messages.row := Messages.new later hello.

End Example.

(** ** A busier state

    On top of the accounts of [Example]: alice's post with bob's like, a
    thread of three comments under it, the notifications bob's like and
    comment sent alice, alice following bob, and their conversation with a
    message each way. *)

Module Scenario.

Definition comment (key : uuid) (author : uuid) (parent : option uuid) (words : text)
  : Comments.ins := {|
  Comments.ins_id := Some key;
  Comments.ins_user_id := author;
  Comments.ins_post_id := 30;
  Comments.ins_parent_id := parent;
  Comments.ins_content := words;
  Comments.ins_created_at := None;
  Comments.ins_updated_at := None;
  Comments.ins_is_edited := None
|}.

Definition notification (key : uuid) (kind : text) (about : option uuid)
  : Notifications.ins := {|
  Notifications.ins_id := Some key;
  Notifications.ins_user_id := Example.alice;
  Notifications.ins_actor_id := Example.bob;
  Notifications.ins_type := kind;
  Notifications.ins_post_id := Some 30;
  Notifications.ins_comment_id := about;
  Notifications.ins_is_read := None;
  Notifications.ins_created_at := None
|}.

Definition reply : Messages.ins := {|
  Messages.ins_id := Some 21;
  Messages.ins_conversation_id := 10;
  Messages.ins_sender_id := Example.alice;
  Messages.ins_content := "hi bob";
  Messages.ins_is_read := None;
  Messages.ins_created_at := None
|}.

Definition script : list (role * env * statement) :=
  Example.posting
  ++ [ (authenticated Example.bob, Example.clock,
        INSERT_comments (Comments.new Example.clock (comment 60 Example.bob None "nice")));
       (authenticated Example.alice, Example.clock,
        INSERT_comments
          (Comments.new Example.clock (comment 61 Example.alice (Some 60) "thanks")));
       (authenticated Example.carol, Example.clock,
        INSERT_comments
          (Comments.new Example.clock (comment 62 Example.carol (Some 61) "agreed")));
       (authenticated Example.bob, Example.clock,
        INSERT_notifications (Notifications.new Example.clock (notification 70 "like" None)));
       (authenticated Example.bob, Example.clock,
        INSERT_notifications
          (Notifications.new Example.clock (notification 71 "comment" (Some 60))));
       (authenticated Example.alice, Example.clock,
        INSERT_conversations (Conversations.new Example.clock Example.conversation));
       (authenticated Example.bob, Example.later,
        INSERT_messages (Messages.new Example.later Example.hello));
       (authenticated Example.alice, Example.later,
        INSERT_messages (Messages.new Example.later reply)) ].

Definition busy : DB := Eval vm_compute in Example.state_after script.

Definition the_post : Posts.row := Posts.new Example.clock Example.post.

Definition first_comment : Comments.row :=
  Comments.new Example.clock (comment 60 Example.bob None "nice").

Definition last_comment : Comments.row :=
  Comments.new Example.clock (comment 62 Example.carol (Some 61) "agreed").

End Scenario.

(** * Properties *)

(** ** Lists, keys and the error monad *)

Lemma mem_In (x : uuid) (l : list uuid) : mem x l = true <-> In x l.
Proof.
  unfold mem. rewrite existsb_exists. split.
  - intros [y [Hy E]]. apply N.eqb_eq in E. now subst.
  - intros H. exists x. split; [assumption | apply N.eqb_refl].
Qed.

Lemma mem_false (x : uuid) (l : list uuid) : mem x l = false <-> ~ In x l.
Proof.
  rewrite <- mem_In. destruct (mem x l); split; congruence.
Qed.

Lemma pair_eqb_eq (p q : uuid * uuid) : pair_eqb p q = true <-> p = q.
Proof.
  destruct p as [a b], q as [c d]. unfold pair_eqb. simpl.
  rewrite andb_true_iff, !N.eqb_eq. split.
  - intros [-> ->]. reflexivity.
  - intros E. inversion E. split; reflexivity.
Qed.

Lemma pair_eqb_sym (p q : uuid * uuid) : pair_eqb p q = pair_eqb q p.
Proof.
  unfold pair_eqb. now rewrite (N.eqb_sym (fst p)), (N.eqb_sym (snd p)).
Qed.

Lemma bind_Ok {A B : Type} (m : result A) (k : A -> result B) (b : B) :
  bind m k = Ok b -> exists a, m = Ok a /\ k a = Ok b.
Proof.
  destruct m as [a | e]; simpl; intros H; [eauto | discriminate].
Qed.

Lemma require_Ok (b : bool) (e : error) (u : unit) : require b e = Ok u -> b = true.
Proof.
  destruct b; simpl; [reflexivity | discriminate].
Qed.

(** Taking a successful write apart: one hypothesis per test it passed. *)
Ltac passed H :=
  repeat match type of H with
         | bind _ _ = Ok _ =>
             let a := fresh "a" in
             let Ha := fresh "Pass" in
             apply bind_Ok in H; destruct H as [a [Ha H]];
             try (apply require_Ok in Ha)
         end.

Lemma forallb_keep {R : Type} (f doomed : R -> bool) (l : list R) :
  forallb f l = true -> forallb f (keep doomed l) = true.
Proof.
  rewrite !forallb_forall. intros H x Hx. apply H.
  unfold keep in Hx. apply filter_In in Hx. tauto.
Qed.

Lemma existsb_keep_false {R K : Type} (k : R -> K) (g : K -> bool) (doomed : R -> bool)
    (l : list R) :
  existsb g (map k l) = false -> existsb g (map k (keep doomed l)) = false.
Proof.
  induction l as [| x l IH]; simpl; [trivial |].
  rewrite orb_false_iff. intros [Hx Hl].
  destruct (doomed x); simpl; [auto |]. rewrite Hx. simpl. auto.
Qed.

Lemma distinct_by_keep {R K : Type} (eqb : K -> K -> bool) (k : R -> K)
    (doomed : R -> bool) (l : list R) :
  distinct_by eqb (map k l) = true -> distinct_by eqb (map k (keep doomed l)) = true.
Proof.
  induction l as [| x l IH]; simpl; [trivial |].
  rewrite andb_true_iff, negb_true_iff. intros [Hx Hl].
  destruct (doomed x); simpl; [auto |].
  rewrite (existsb_keep_false k (eqb (k x)) doomed l Hx). simpl. auto.
Qed.

(** What [keep] preserves, the cascade through replies preserves. *)
Lemma cascade_replies_keeps (P : list Comments.row -> Prop) :
  (forall doomed l, P l -> P (keep doomed l)) ->
  forall rounds dead live, P live -> P (snd (cascade_replies rounds dead live)).
Proof.
  intros HP. induction rounds as [| n IH]; intros dead live Hl; simpl; [assumption |].
  destruct (filter _ live) as [| g gone] eqn:E; simpl; [assumption |].
  apply IH. apply HP. assumption.
Qed.

Section Replace.

Context {R : Type} (key : R -> uuid).

Lemma others_absent (t : uuid) (l : list R) :
  mem t (keys key l) = false -> others key t l = l.
Proof.
  induction l as [| x l IH]; simpl; [trivial |].
  rewrite orb_false_iff. intros [Hx Hl].
  rewrite N.eqb_sym in Hx. rewrite Hx. simpl. now rewrite IH.
Qed.

Lemma replace_row_absent (t : uuid) (new : R) (l : list R) :
  mem t (keys key l) = false -> replace_row key t new l = l.
Proof.
  induction l as [| x l IH]; simpl; [trivial |].
  rewrite orb_false_iff. intros [Hx Hl].
  rewrite N.eqb_sym in Hx. rewrite Hx. now rewrite IH.
Qed.

Lemma forallb_replace_row (f : R -> bool) (t : uuid) (new : R) (l : list R) :
  f new = true -> forallb f l = true -> forallb f (replace_row key t new l) = true.
Proof.
  intros Hn. induction l as [| x l IH]; simpl; [trivial |].
  rewrite andb_true_iff. intros [Hx Hl].
  destruct (key x =? t); rewrite ?Hn, ?Hx; simpl; auto.
Qed.

Lemma existsb_replace_row_false {K : Type} (k : R -> K) (g : K -> bool)
    (t : uuid) (new : R) (l : list R) :
  g (k new) = false ->
  existsb g (map k (others key t l)) = false ->
  existsb g (map k (replace_row key t new l)) = false.
Proof.
  intros Hn. induction l as [| x l IH]; simpl; [trivial |].
  destruct (key x =? t); simpl.
  - intros H. rewrite Hn. simpl. auto.
  - rewrite orb_false_iff. intros [Hx Hl]. rewrite Hx. simpl. auto.
Qed.

Lemma existsb_others_false {K : Type} (k : R -> K) (g : K -> bool)
    (t : uuid) (l : list R) :
  existsb g (map k l) = false -> existsb g (map k (others key t l)) = false.
Proof.
  apply (existsb_keep_false k g (fun x => key x =? t)).
Qed.

(** Replacing the row of key [t] keeps a key [k] unique when the new
    row's [k] is not among the other rows'. *)
Lemma distinct_by_replace_row {K : Type} (eqb : K -> K -> bool) (k : R -> K)
    (t : uuid) (new : R) (l : list R) :
  (forall a b, eqb a b = eqb b a) ->
  distinct_by N.eqb (keys key l) = true ->
  distinct_by eqb (map k l) = true ->
  existsb (eqb (k new)) (map k (others key t l)) = false ->
  distinct_by eqb (map k (replace_row key t new l)) = true.
Proof.
  intros Hsym. induction l as [| x l IH]; simpl; [trivial |].
  rewrite !andb_true_iff, !negb_true_iff.
  intros [Hkx Hkl] [Hx Hl].
  destruct (key x =? t) eqn:E; simpl.
  - apply N.eqb_eq in E. subst t. fold (mem (key x) (keys key l)) in Hkx.
    rewrite (others_absent _ _ Hkx), (replace_row_absent _ new _ Hkx).
    intros Hn. rewrite Hn. auto.
  - rewrite orb_false_iff. intros [Hnx Hn].
    rewrite (existsb_replace_row_false k (eqb (k x)) t new l).
    + auto.
    + rewrite Hsym. exact Hnx.
    + apply existsb_others_false. exact Hx.
Qed.

Lemma find_row_In (t : uuid) (l : list R) (r : R) :
  find_row key t l = Some r -> In r l /\ key r = t.
Proof.
  unfold find_row. intros H. apply find_some in H.
  rewrite N.eqb_eq in H. exact H.
Qed.

End Replace.

(** ** Every statement keeps the state consistent *)

Ltac consistency :=
  unfold consistent, primary_keys, unique_keys, checks in *;
  cbn [auth_users profiles posts likes comments follows conversations messages
       notifications with_auth_users with_profiles with_posts with_likes
       with_comments with_follows with_conversations with_messages
       with_notifications map forallb distinct_by] in *;
  unfold keys in *;
  cbn [map forallb distinct_by] in *;
  rewrite ?andb_true_iff in *;
  repeat match goal with H : _ /\ _ |- _ => destruct H end;
  repeat split;
  try assumption;
  try (apply distinct_by_keep; assumption);
  try (apply forallb_keep; assumption).

Lemma insert_profile_consistent who r db db' :
  consistent db = true -> insert_profile who r db = Ok db' -> consistent db' = true.
Proof.
  intros C H. unfold insert_profile in H. passed H. injection H as <-. consistency.
Qed.

Lemma insert_post_consistent who r db db' :
  consistent db = true -> insert_post who r db = Ok db' -> consistent db' = true.
Proof.
  intros C H. unfold insert_post in H. passed H. injection H as <-. consistency.
Qed.

Lemma insert_like_consistent who r db db' :
  consistent db = true -> insert_like who r db = Ok db' -> consistent db' = true.
Proof.
  intros C H. unfold insert_like in H. passed H. injection H as <-. consistency.
Qed.

Lemma insert_comment_consistent who r db db' :
  consistent db = true -> insert_comment who r db = Ok db' -> consistent db' = true.
Proof.
  intros C H. unfold insert_comment in H. passed H. injection H as <-. consistency.
Qed.

Lemma insert_follow_consistent who r db db' :
  consistent db = true -> insert_follow who r db = Ok db' -> consistent db' = true.
Proof.
  intros C H. unfold insert_follow in H. passed H. injection H as <-. consistency.
Qed.

Lemma insert_conversation_consistent who r db db' :
  consistent db = true -> insert_conversation who r db = Ok db' -> consistent db' = true.
Proof.
  intros C H. unfold insert_conversation in H. passed H. injection H as <-. consistency.
Qed.

Lemma insert_notification_consistent who r db db' :
  consistent db = true -> insert_notification who r db = Ok db' -> consistent db' = true.
Proof.
  intros C H. unfold insert_notification in H. passed H. injection H as <-. consistency.
Qed.

(** The trigger on messages rewrites [last_message_at] and nothing a
    constraint of conversations reads. *)
Lemma touched_conversations_map {K : Type} (k : Conversations.row -> K)
    (NEW : Messages.row) (l : list Conversations.row) :
  (forall t c, k (Conversations.set_last_message_at t c) = k c) ->
  map k (map (fun c => if Conversations.id c =? Messages.conversation_id NEW
                       then Conversations.set_last_message_at (Messages.created_at NEW) c
                       else c) l)
  = map k l.
Proof.
  intros Hk. rewrite map_map. apply map_ext. intros c.
  destruct (Conversations.id c =? _); [apply Hk | reflexivity].
Qed.

Lemma touched_conversations_forallb (f : Conversations.row -> bool)
    (NEW : Messages.row) (l : list Conversations.row) :
  (forall t c, f (Conversations.set_last_message_at t c) = f c) ->
  forallb f (map (fun c => if Conversations.id c =? Messages.conversation_id NEW
                           then Conversations.set_last_message_at (Messages.created_at NEW) c
                           else c) l)
  = forallb f l.
Proof.
  intros Hf. induction l as [| c l IH]; simpl; [reflexivity |].
  rewrite IH. destruct (Conversations.id c =? _); [now rewrite Hf | reflexivity].
Qed.

Lemma insert_message_consistent who r db db' :
  consistent db = true -> insert_message who r db = Ok db' -> consistent db' = true.
Proof.
  intros C H. unfold insert_message in H. passed H. injection H as <-.
  unfold update_conversation_timestamp, update_conversation_last_message.
  unfold consistent, primary_keys, unique_keys, checks in *.
  cbn [auth_users profiles posts likes comments follows conversations messages
       notifications with_conversations with_messages] in *.
  unfold keys in *.
  rewrite !touched_conversations_map, touched_conversations_forallb by reflexivity.
  consistency.
Qed.

Ltac replaced :=
  try (apply distinct_by_replace_row;
       [ first [exact N.eqb_sym | exact String.eqb_sym | exact pair_eqb_sym]
       | assumption | assumption
       | first [ assumption
               | match goal with
                 | H : negb _ = true |- _ => apply negb_true_iff in H; exact H
                 end ] ]);
  try (apply forallb_replace_row; assumption).

Ltac not_updated H :=
  match type of H with
  | match ?x with _ => _ end = Ok _ =>
      destruct x eqn:?; [| injection H as <-; assumption]
  | (if ?b then _ else _) = Ok _ =>
      destruct b eqn:?; [| injection H as <-; assumption]
  end.

Lemma key_unchanged_or_Ok new target refs u :
  key_unchanged_or new target refs = Ok u ->
  new = target \/ forallb (fun r => negb (fst r)) refs = true.
Proof.
  unfold key_unchanged_or, no_action.
  destruct (new =? target) eqn:E; [apply N.eqb_eq in E; auto |].
  intros H. right.
  destruct (find fst refs) as [[b c] |] eqn:F; [discriminate |].
  apply forallb_forall. intros x Hx.
  apply (find_none _ _ F) in Hx. now rewrite Hx.
Qed.

Lemma update_profile_consistent who e target set db db' :
  consistent db = true -> update_profile who e target set db = Ok db' ->
  consistent db' = true.
Proof.
  intros C H. unfold update_profile in H. do 2 not_updated H.
  cbv zeta in H. passed H. injection H as <-.
  unfold mem in *. consistency; replaced.
Qed.

Lemma update_post_consistent who e target set db db' :
  consistent db = true -> update_post who e target set db = Ok db' ->
  consistent db' = true.
Proof.
  intros C H. unfold update_post in H. do 2 not_updated H.
  cbv zeta in H. passed H. injection H as <-.
  unfold mem in *. consistency; replaced.
Qed.

Lemma update_like_consistent who target set db db' :
  consistent db = true -> update_like who target set db = Ok db' ->
  consistent db' = true.
Proof.
  intros C H. unfold update_like in H. do 2 not_updated H.
  cbv zeta in H. passed H. injection H as <-.
  unfold mem in *. consistency; replaced.
Qed.

Lemma update_comment_consistent who e target set db db' :
  consistent db = true -> update_comment who e target set db = Ok db' ->
  consistent db' = true.
Proof.
  intros C H. unfold update_comment in H. do 2 not_updated H.
  cbv zeta in H. passed H. injection H as <-.
  unfold mem in *. consistency; replaced.
Qed.

Lemma update_follow_consistent who target set db db' :
  consistent db = true -> update_follow who target set db = Ok db' ->
  consistent db' = true.
Proof.
  intros C H. unfold update_follow in H. do 2 not_updated H.
  cbv zeta in H. passed H. injection H as <-.
  unfold mem in *. consistency; replaced.
Qed.

Lemma update_conversation_consistent who target set db db' :
  consistent db = true -> update_conversation who target set db = Ok db' ->
  consistent db' = true.
Proof.
  intros C H. unfold update_conversation in H. do 2 not_updated H.
  cbv zeta in H. passed H. injection H as <-.
  unfold mem in *. consistency; replaced.
Qed.

Lemma update_message_consistent who target set db db' :
  consistent db = true -> update_message who target set db = Ok db' ->
  consistent db' = true.
Proof.
  intros C H. unfold update_message in H. do 2 not_updated H.
  cbv zeta in H. passed H. injection H as <-.
  unfold mem in *. consistency; replaced.
Qed.

Lemma update_notification_consistent who target set db db' :
  consistent db = true -> update_notification who target set db = Ok db' ->
  consistent db' = true.
Proof.
  intros C H. unfold update_notification in H. do 2 not_updated H.
  cbv zeta in H. passed H. injection H as <-.
  unfold mem in *. consistency; replaced.
Qed.

Lemma delete_notifications_where_consistent doomed db :
  consistent db = true -> consistent (delete_notifications_where doomed db) = true.
Proof. intros C. unfold delete_notifications_where. consistency. Qed.

Lemma delete_messages_where_consistent doomed db :
  consistent db = true -> consistent (delete_messages_where doomed db) = true.
Proof. intros C. unfold delete_messages_where. consistency. Qed.

Lemma delete_follows_where_consistent doomed db :
  consistent db = true -> consistent (delete_follows_where doomed db) = true.
Proof. intros C. unfold delete_follows_where. consistency. Qed.

Lemma delete_likes_where_consistent doomed db :
  consistent db = true -> consistent (delete_likes_where doomed db) = true.
Proof. intros C. unfold delete_likes_where. consistency. Qed.

Lemma delete_comments_where_consistent doomed db :
  consistent db = true -> consistent (delete_comments_where doomed db) = true.
Proof.
  intros C. unfold delete_comments_where.
  pose proof (cascade_replies_keeps
                (fun l => distinct_by N.eqb (keys Comments.id l) = true)
                (fun d l => distinct_by_keep N.eqb Comments.id d l)
                (List.length (keep doomed (comments db)))
                (keys Comments.id (filter doomed (comments db)))
                (keep doomed (comments db))) as K1.
  pose proof (cascade_replies_keeps
                (fun l => forallb Comments.comment_length l = true)
                (fun d l => forallb_keep Comments.comment_length d l)
                (List.length (keep doomed (comments db)))
                (keys Comments.id (filter doomed (comments db)))
                (keep doomed (comments db))) as K2.
  destruct (cascade_replies _ _ _) as [dead live]. simpl in K1, K2.
  apply delete_notifications_where_consistent.
  consistency.
  - apply K1. apply distinct_by_keep. assumption.
  - apply K2. apply forallb_keep. assumption.
Qed.

Lemma delete_posts_where_consistent doomed db :
  consistent db = true -> consistent (delete_posts_where doomed db) = true.
Proof.
  intros C. unfold delete_posts_where.
  apply delete_notifications_where_consistent, delete_comments_where_consistent,
    delete_likes_where_consistent.
  consistency.
Qed.

Lemma delete_conversations_where_consistent doomed db :
  consistent db = true -> consistent (delete_conversations_where doomed db) = true.
Proof.
  intros C. unfold delete_conversations_where.
  apply delete_messages_where_consistent. consistency.
Qed.

Lemma delete_profiles_where_consistent doomed db :
  consistent db = true -> consistent (delete_profiles_where doomed db) = true.
Proof.
  intros C. unfold delete_profiles_where.
  apply delete_notifications_where_consistent, delete_messages_where_consistent,
    delete_conversations_where_consistent, delete_follows_where_consistent,
    delete_comments_where_consistent, delete_likes_where_consistent,
    delete_posts_where_consistent.
  consistency.
Qed.

Lemma create_user_consistent u db :
  consistent db = true -> consistent (create_user u db) = true.
Proof.
  intros C. unfold create_user. destruct (mem u (auth_users db)); [assumption |].
  consistency.
Qed.

Lemma delete_user_consistent u db :
  consistent db = true -> consistent (delete_user u db) = true.
Proof.
  intros C. unfold delete_user. apply delete_profiles_where_consistent. consistency.
Qed.

Lemma exec_consistent who e s db db' :
  consistent db = true -> exec who e s db = Ok db' -> consistent db' = true.
Proof.
  intros C H. destruct s; cbn [exec] in H;
  [ injection H as <-; apply create_user_consistent, C
  | injection H as <-; apply delete_user_consistent, C
  | exact (insert_profile_consistent _ _ _ _ C H)
  | exact (update_profile_consistent _ _ _ _ _ _ C H)
  | injection H as <-; apply delete_profiles_where_consistent, C
  | exact (insert_post_consistent _ _ _ _ C H)
  | exact (update_post_consistent _ _ _ _ _ _ C H)
  | injection H as <-; apply delete_posts_where_consistent, C
  | exact (insert_like_consistent _ _ _ _ C H)
  | exact (update_like_consistent _ _ _ _ _ C H)
  | injection H as <-; apply delete_likes_where_consistent, C
  | exact (insert_comment_consistent _ _ _ _ C H)
  | exact (update_comment_consistent _ _ _ _ _ _ C H)
  | injection H as <-; apply delete_comments_where_consistent, C
  | exact (insert_follow_consistent _ _ _ _ C H)
  | exact (update_follow_consistent _ _ _ _ _ C H)
  | injection H as <-; apply delete_follows_where_consistent, C
  | exact (insert_conversation_consistent _ _ _ _ C H)
  | exact (update_conversation_consistent _ _ _ _ _ C H)
  | injection H as <-; apply delete_conversations_where_consistent, C
  | exact (insert_message_consistent _ _ _ _ C H)
  | exact (update_message_consistent _ _ _ _ _ C H)
  | injection H as <-; apply delete_messages_where_consistent, C
  | exact (insert_notification_consistent _ _ _ _ C H)
  | exact (update_notification_consistent _ _ _ _ _ C H)
  | injection H as <-; apply delete_notifications_where_consistent, C ].
Qed.

(** In every reachable state the primary keys and the unique keys are
    distinct and every row passes the CHECK constraints of its table. *)
Lemma reachable_consistent db : reachable db -> consistent db = true.
Proof.
  induction 1 as [| db db' who e s _ IH H]; [reflexivity |].
  eapply exec_consistent; eassumption.
Qed.

Lemma run_script_reachable script db db' :
  reachable db -> run_script script db = Some db' -> reachable db'.
Proof.
  revert db. induction script as [| [[who e] s] rest IH]; simpl; intros db R H.
  - injection H as <-. assumption.
  - destruct (exec who e s db) as [db1 |] eqn:E; [| discriminate].
    apply (IH db1); [| assumption].
    eapply reachable_step; eassumption.
Qed.

Lemma people_reachable : reachable Example.people.
Proof.
  apply (run_script_reachable Example.signing_up empty_db);
    [apply reachable_empty | vm_compute; reflexivity].
Qed.

Lemma feed_reachable : reachable Example.feed.
Proof.
  apply (run_script_reachable Example.posting empty_db);
    [apply reachable_empty | vm_compute; reflexivity].
Qed.

Lemma chat_reachable : reachable Example.chat.
Proof.
  apply (run_script_reachable Example.talking empty_db);
    [apply reachable_empty | vm_compute; reflexivity].
Qed.

(** ** The trigger functions in the final catalog *)

(** Between the migration that creates the schema and the last one, the
    functions resolve names against the caller's search path. *)
Lemma search_path_follows_session_before_last_migration :
  let c := Catalog.run [Catalog.fix_security_and_performance_issues;
                       Catalog.fix_remaining_security_issues;
                       Catalog.create_social_app_schema] [] in
  exists f, Catalog.lookup "update_conversation_last_message" c = Some f
            /\ forall session, Catalog.search_path_in f session = session.
Proof.
  eexists. split; [vm_compute; reflexivity | reflexivity].
Qed.

Lemma by_version_migrations :
  Catalog.by_version Catalog.migrations
  = [Catalog.fix_security_and_performance_issues;
     Catalog.fix_remaining_security_issues;
     Catalog.create_social_app_schema;
     Catalog.fix_all_security_and_performance_issues].
Proof. vm_compute. reflexivity. Qed.

(** Whatever the catalog held before, the last migration leaves both
    functions with their own search path. *)
Lemma last_migration_pins_search_path (c : Catalog.catalog) :
  let c' := Catalog.run [Catalog.fix_all_security_and_performance_issues] c in
  exists f g,
    Catalog.lookup "update_updated_at_column" c' = Some f
    /\ Catalog.lookup "update_conversation_last_message" c' = Some g
    /\ Catalog.proconfig f = Some ["public"; "pg_temp"]
    /\ Catalog.proconfig g = Some ["public"; "pg_temp"].
Proof.
  eexists. eexists. cbn. repeat split.
Qed.

(** C3. Once every migration has run, in timestamp order, both trigger
    functions, update_updated_at_column and
    update_conversation_last_message, carry their own search path
    (public, pg_temp) and run as their owner: whatever search path the
    caller's session has and whoever the caller is, the names in the
    function resolve against the pinned path. *)
Theorem trigger_functions_pinned_in_final_catalog :
  exists f g,
    Catalog.lookup "update_updated_at_column" Catalog.final = Some f
    /\ Catalog.lookup "update_conversation_last_message" Catalog.final = Some g
    /\ forall (session : list string) (who : role),
         Catalog.search_path_in f session = ["public"; "pg_temp"]
         /\ Catalog.search_path_in g session = ["public"; "pg_temp"]
         /\ Catalog.runs_as f who = Catalog.owner
         /\ Catalog.runs_as g who = Catalog.owner.
Proof.
  eexists. eexists.
  split; [vm_compute; reflexivity |].
  split; [vm_compute; reflexivity |].
  intros session who. repeat split.
Qed.

(** ** Defaults of a new conversation *)

(** An INSERT that gives [last_message_at] stores what it gives: NULL, or
    an instant that is not the row's [created_at]. *)
Lemma conversation_last_message_at_as_given :
  let null_activity := {|
    Conversations.ins_id := Some 10;
    Conversations.ins_user1_id := Example.alice;
    Conversations.ins_user2_id := Example.bob;
    Conversations.ins_last_message_at := Some None;
    Conversations.ins_created_at := None |} in
  let old_activity := {|
    Conversations.ins_id := Some 10;
    Conversations.ins_user1_id := Example.alice;
    Conversations.ins_user2_id := Example.bob;
    Conversations.ins_last_message_at := Some (Some 5%Z);
    Conversations.ins_created_at := None |} in
  (exists db',
      insert_conversation (authenticated Example.alice)
        (Conversations.new Example.clock null_activity) Example.people = Ok db'
      /\ messages db' = []
      /\ map Conversations.last_message_at (conversations db') = [None])
  /\ (exists db',
         insert_conversation (authenticated Example.alice)
           (Conversations.new Example.clock old_activity) Example.people = Ok db'
         /\ messages db' = []
         /\ map Conversations.last_message_at (conversations db') = [Some 5%Z]
         /\ map Conversations.created_at (conversations db') = [Some 1000%Z]).
Proof.
  split; eexists; (split; [vm_compute; reflexivity |]); repeat split.
Qed.

(** C10, amended. An INSERT into conversations that leaves
    [last_message_at] out stores the instant of the insertion there, which
    is not NULL; when it leaves [created_at] out as well, the two columns of
    the new row hold the same instant. (The column is nullable: an INSERT
    that names it stores the value it gives.) *)
Theorem conversation_last_message_at_defaults_to_now
    (who : role) (e : env) (i : Conversations.ins) (db db' : DB) :
  Conversations.ins_last_message_at i = None ->
  insert_conversation who (Conversations.new e i) db = Ok db' ->
  exists c,
    conversations db' = c :: conversations db
    /\ Conversations.user1_id c = Conversations.ins_user1_id i
    /\ Conversations.user2_id c = Conversations.ins_user2_id i
    /\ Conversations.last_message_at c = Some (now e)
    /\ (Conversations.ins_created_at i = None ->
        Conversations.last_message_at c = Conversations.created_at c).
Proof.
  intros Hi H. unfold insert_conversation in H. passed H. injection H as <-.
  exists (Conversations.new e i). simpl. rewrite Hi. simpl.
  repeat split. intros ->. reflexivity.
Qed.

Lemma conversation_last_message_at_defaults_to_now_witness :
  exists c,
    conversations
      (commit Example.people
         (insert_conversation (authenticated Example.alice)
            (Conversations.new Example.clock Example.conversation) Example.people))
    = c :: conversations Example.people
    /\ Conversations.last_message_at c = Some 1000%Z
    /\ Conversations.last_message_at c = Conversations.created_at c.
Proof.
  destruct (conversation_last_message_at_defaults_to_now
              (authenticated Example.alice) Example.clock Example.conversation
              Example.people
              (commit Example.people
                 (insert_conversation (authenticated Example.alice)
                    (Conversations.new Example.clock Example.conversation)
                    Example.people))
              eq_refl eq_refl) as [c [H1 [_ [_ [H2 H3]]]]].
  exists c. split; [exact H1 |]. split; [exact H2 | exact (H3 eq_refl)].
Defined.

(** ** What the policy decides first *)

Lemma policy_with_check_using (who : role) (table : string) (policy : uuid -> bool) :
  policy_with_check who table policy
  = if policy_using who policy then Ok tt else Err (insufficient_privilege table).
Proof.
  destruct who as [| uid |]; simpl; [reflexivity | | reflexivity].
  destruct (policy uid); reflexivity.
Qed.

(** ** Usernames *)

Lemma word_char_not_continuation (c : ascii) :
  word_char c = true -> utf8_continuation c = false.
Proof.
  destruct c as [[] [] [] [] [] [] [] []]; vm_compute; congruence.
Qed.

(** A string of class members has one byte per character. *)
Lemma word_chars_char_length (s : text) :
  all_chars word_char s = true -> char_length s = String.length s.
Proof.
  induction s as [| c s IH]; simpl; [reflexivity |].
  rewrite andb_true_iff. intros [Hc Hs].
  rewrite (word_char_not_continuation c Hc), (IH Hs). reflexivity.
Qed.

Lemma matches_word_plus_all_chars (s : text) :
  matches_word_plus s = true -> all_chars word_char s = true.
Proof.
  destruct s; simpl; [discriminate | trivial].
Qed.

Lemma space_does_not_match (s : text) :
  has_char " " s = true -> matches_word_plus s = false.
Proof.
  intros H. assert (A : all_chars word_char s = false).
  { induction s as [| c s IH]; cbn [has_char all_chars] in *; [discriminate |].
    apply orb_true_iff in H. destruct H as [H | H].
    - apply Ascii.eqb_eq in H. subst c. reflexivity.
    - rewrite (IH H). apply andb_false_r. }
  destruct s; [reflexivity | exact A].
Qed.

Lemma valid_username_shape (r : Profiles.row) :
  Profiles.username_length r = true -> Profiles.username_format r = true ->
  (3 <= String.length (Profiles.username r) <= 30)%nat
  /\ all_chars word_char (Profiles.username r) = true.
Proof.
  unfold Profiles.username_length, Profiles.username_format. intros L F.
  apply matches_word_plus_all_chars in F.
  rewrite (word_chars_char_length _ F) in L.
  apply andb_true_iff in L. destruct L as [L1 L2].
  apply Nat.leb_le in L1, L2. auto.
Qed.

Lemma insert_profile_stores (who : role) (r : Profiles.row) (db : DB) :
  policy_using who (fun uid => Profiles.users_can_insert_their_own_profile uid r) = true ->
  Profiles.username_format r = true ->
  Profiles.username_length r = true ->
  mem (Profiles.id r) (keys Profiles.id (profiles db)) = false ->
  existsb (String.eqb (Profiles.username r)) (map Profiles.username (profiles db)) = false ->
  mem (Profiles.id r) (auth_users db) = true ->
  insert_profile who r db = Ok (with_profiles (r :: profiles db) db).
Proof.
  intros P F L K N A. unfold insert_profile.
  rewrite policy_with_check_using, P, F, L, K, N, A. reflexivity.
Qed.

Lemma update_profile_check_fails (who : role) (e : env) (target : uuid)
    (set : Profiles.row -> Profiles.row) (db : DB) :
  (forall r, Profiles.username_format (update_profiles_updated_at e (set r))
             && Profiles.username_length (update_profiles_updated_at e (set r)) = false) ->
  commit db (update_profile who e target set db) = db.
Proof.
  intros H. unfold update_profile.
  destruct (find_row Profiles.id target (profiles db)) as [old |]; [| reflexivity].
  destruct (_ && _); [| reflexivity]. cbv zeta.
  destruct (policy_with_check who "profiles" _); [| reflexivity].
  simpl. specialize (H old). apply andb_false_iff in H.
  destruct (Profiles.username_format _); simpl; [| reflexivity].
  destruct H as [H | H]; [discriminate |]. rewrite H. reflexivity.
Qed.

(** C8. An INSERT of a profile with username "ab" fails, on the CHECK
    username_length for a caller the policy admits; with username "abc" it
    stores the row, when the key and the name are free and the account
    exists; with a username that contains a space it fails, on the CHECK
    username_format. A caller the policy does not admit is refused before.
    An UPDATE that would give a row such a username writes nothing. In every
    reachable state every stored username has between 3 and 30 characters,
    all of them letters, digits or underscores. *)
Theorem username_checked_at_write_time :
  (forall who r db,
      Profiles.username r = "ab" ->
      insert_profile who r db
      = if policy_using who (fun uid => Profiles.users_can_insert_their_own_profile uid r)
        then Err (check_violation "username_length")
        else Err (insufficient_privilege "profiles"))
  /\ (forall who r db,
         Profiles.username r = "abc" ->
         policy_using who (fun uid => Profiles.users_can_insert_their_own_profile uid r) = true ->
         mem (Profiles.id r) (keys Profiles.id (profiles db)) = false ->
         existsb (String.eqb "abc") (map Profiles.username (profiles db)) = false ->
         mem (Profiles.id r) (auth_users db) = true ->
         insert_profile who r db = Ok (with_profiles (r :: profiles db) db))
  /\ (forall who r db,
         has_char " " (Profiles.username r) = true ->
         insert_profile who r db
         = if policy_using who (fun uid => Profiles.users_can_insert_their_own_profile uid r)
           then Err (check_violation "username_format")
           else Err (insufficient_privilege "profiles"))
  /\ (forall who e target set db,
         (forall r, Profiles.username (set r) = "ab"
                    \/ has_char " " (Profiles.username (set r)) = true) ->
         commit db (update_profile who e target set db) = db)
  /\ (forall db, reachable db ->
      forall p, In p (profiles db) ->
        (3 <= String.length (Profiles.username p) <= 30)%nat
        /\ all_chars word_char (Profiles.username p) = true).
Proof.
  split; [| split; [| split; [| split]]].
  - intros who r db U.
    unfold insert_profile, Profiles.username_format, Profiles.username_length.
    rewrite policy_with_check_using, U.
    destruct (policy_using who _); reflexivity.
  - intros who r db U P K N A. rewrite <- U in N.
    apply insert_profile_stores; try assumption.
    + unfold Profiles.username_format. rewrite U. reflexivity.
    + unfold Profiles.username_length. rewrite U. reflexivity.
  - intros who r db S.
    unfold insert_profile, Profiles.username_format.
    rewrite policy_with_check_using, (space_does_not_match _ S).
    destruct (policy_using who _); reflexivity.
  - intros who e target set db H. apply update_profile_check_fails. intros r.
    unfold Profiles.username_format, Profiles.username_length. simpl.
    destruct (H r) as [U | S].
    + rewrite U. reflexivity.
    + rewrite (space_does_not_match _ S). reflexivity.
  - intros db R p Hp. apply reachable_consistent in R.
    unfold consistent, checks in R. rewrite !andb_true_iff in R.
    destruct R as [_ [[[[[[[L F] _] _] _] _] _] _]].
    rewrite forallb_forall in L, F.
    apply valid_username_shape; auto.
Qed.

Lemma username_checked_at_write_time_witness :
  let dave : uuid := 4 in
  let db := create_user dave Example.people in
  let named (name : text) := Profiles.new Example.clock (Example.profile dave name) in
  insert_profile (authenticated dave) (named "ab") db
  = Err (check_violation "username_length")
  /\ insert_profile (authenticated dave) (named "abc") db
     = Ok (with_profiles (named "abc" :: profiles db) db)
  /\ insert_profile (authenticated dave) (named "a b c") db
     = Err (check_violation "username_format")
  /\ commit Example.people
       (update_profile (authenticated Example.alice) Example.later Example.alice
          (fun _ => named "ab") Example.people)
     = Example.people
  /\ forall p, In p (profiles Example.people) ->
       (3 <= String.length (Profiles.username p) <= 30)%nat
       /\ all_chars word_char (Profiles.username p) = true.
Proof.
  intros dave db named.
  destruct username_checked_at_write_time as [H1 [H2 [H3 [H4 H5]]]].
  split; [exact (H1 (authenticated dave) (named "ab") db eq_refl) |].
  split; [apply H2; reflexivity |].
  split; [exact (H3 (authenticated dave) (named "a b c") db eq_refl) |].
  split; [apply H4; intros r; left; reflexivity |].
  apply H5. exact people_reachable.
Defined.

(** ** Unique keys *)

(** Rows that a test picks, when the test picks rows of one key only, are
    at most one where the key is unique. *)
Lemma at_most_one_row {R K : Type} (eqb : K -> K -> bool) (k : R -> K)
    (f : R -> bool) (l : list R) :
  (forall x y, f x = true -> f y = true -> eqb (k x) (k y) = true) ->
  distinct_by eqb (map k l) = true ->
  (List.length (filter f l) <= 1)%nat.
Proof.
  intros Hf. induction l as [| x l IH]; simpl; [lia |].
  rewrite andb_true_iff, negb_true_iff. intros [Hx Hl].
  destruct (f x) eqn:Fx; [| auto].
  assert (E : filter f l = []).
  { destruct (filter f l) as [| y t] eqn:Fl; [reflexivity |].
    assert (Hy : In y (filter f l)) by (rewrite Fl; left; reflexivity).
    apply filter_In in Hy. destruct Hy as [Hy Fy].
    assert (X : existsb (eqb (k x)) (map k l) = true).
    { apply existsb_exists. exists (k y). split; [apply in_map; assumption | auto]. }
    congruence. }
  rewrite E. simpl. lia.
Qed.

Lemma existsb_key_of_row {R K : Type} (eqb : K -> K -> bool) (k : R -> K)
    (x : K) (r : R) (l : list R) :
  In r l -> eqb x (k r) = true -> existsb (eqb x) (map k l) = true.
Proof.
  intros Hr E. apply existsb_exists. exists (k r). split; [apply in_map |]; assumption.
Qed.

Lemma reachable_unique_keys db :
  reachable db ->
  distinct_by pair_eqb (map Likes.user_id_post_id (likes db)) = true
  /\ distinct_by pair_eqb (map Follows.follower_id_following_id (follows db)) = true
  /\ distinct_by pair_eqb (map Conversations.conversations_users_idx (conversations db)) = true
  /\ distinct_by N.eqb (keys Conversations.id (conversations db)) = true
  /\ forallb Follows.no_self_follow (follows db) = true
  /\ forallb Conversations.different_users (conversations db) = true.
Proof.
  intros R. apply reachable_consistent in R.
  unfold consistent, primary_keys, unique_keys, checks in R.
  rewrite !andb_true_iff in R. tauto.
Qed.

(** C6. In every reachable state at most one row of likes has a given
    (user_id, post_id). An INSERT of a like whose pair a row already has
    fails with a uniqueness violation (a caller the policy does not admit
    is refused before) and leaves likes as it was. *)
Theorem one_like_per_user_and_post :
  (forall db, reachable db ->
   forall u p,
     (List.length (filter (fun l => (Likes.user_id l =? u)%N && (Likes.post_id l =? p)%N)
                          (likes db)) <= 1)%nat)
  /\ (forall who r db l,
        In l (likes db) ->
        Likes.user_id r = Likes.user_id l ->
        Likes.post_id r = Likes.post_id l ->
        (if policy_using who (fun uid => Likes.users_can_create_their_own_likes uid r)
         then is_unique_violation (insert_like who r db) = true
         else insert_like who r db = Err (insufficient_privilege "likes"))
        /\ likes (commit db (insert_like who r db)) = likes db).
Proof.
  split.
  - intros db R u p. destruct (reachable_unique_keys db R) as [U _].
    apply (at_most_one_row pair_eqb Likes.user_id_post_id); [| exact U].
    intros x y Hx Hy. apply andb_true_iff in Hx, Hy.
    destruct Hx as [X1 X2], Hy as [Y1 Y2]. apply N.eqb_eq in X1, X2, Y1, Y2.
    apply pair_eqb_eq. unfold Likes.user_id_post_id. congruence.
  - intros who r db l Hl Eu Ep.
    assert (D : existsb (pair_eqb (Likes.user_id_post_id r))
                  (map Likes.user_id_post_id (likes db)) = true).
    { apply (existsb_key_of_row _ _ _ l _ Hl). apply pair_eqb_eq.
      unfold Likes.user_id_post_id. congruence. }
    unfold insert_like. rewrite policy_with_check_using, D.
    destruct (policy_using who _); simpl; [| auto].
    destruct (mem (Likes.id r) (keys Likes.id (likes db))); simpl; auto.
Qed.

Lemma one_like_per_user_and_post_witness :
  (List.length (filter (fun l => (Likes.user_id l =? Example.bob)%N && (Likes.post_id l =? 30)%N)
                       (likes Example.feed)) <= 1)%nat
  /\ is_unique_violation
       (insert_like (authenticated Example.bob)
          (Likes.new Example.later Example.like) Example.feed) = true
  /\ likes (commit Example.feed
              (insert_like (authenticated Example.bob)
                 (Likes.new Example.later Example.like) Example.feed))
     = likes Example.feed.
Proof.
  destruct one_like_per_user_and_post as [H1 H2].
  split; [apply H1; exact feed_reachable |].
  apply (H2 (authenticated Example.bob) (Likes.new Example.later Example.like)
            Example.feed (Likes.new Example.clock Example.like));
    [left; reflexivity | reflexivity | reflexivity].
Defined.

(** C7. An INSERT of a follow whose follower is the followed fails on the
    CHECK no_self_follow; in a reachable state an INSERT of a follow whose
    (follower_id, following_id) a row already has fails with a uniqueness
    violation. A caller the policy does not admit is refused before. Either
    way follows stays as it was. *)
Theorem follow_rejects_self_and_duplicate :
  (forall who r db,
      Follows.follower_id r = Follows.following_id r ->
      insert_follow who r db
      = (if policy_using who (fun uid => Follows.users_can_create_their_own_follows uid r)
         then Err (check_violation "no_self_follow")
         else Err (insufficient_privilege "follows"))
      /\ follows (commit db (insert_follow who r db)) = follows db)
  /\ (forall db, reachable db ->
      forall who r f,
        In f (follows db) ->
        Follows.follower_id r = Follows.follower_id f ->
        Follows.following_id r = Follows.following_id f ->
        (if policy_using who (fun uid => Follows.users_can_create_their_own_follows uid r)
         then is_unique_violation (insert_follow who r db) = true
         else insert_follow who r db = Err (insufficient_privilege "follows"))
        /\ follows (commit db (insert_follow who r db)) = follows db).
Proof.
  split.
  - intros who r db E. unfold insert_follow, Follows.no_self_follow.
    rewrite policy_with_check_using, E, N.eqb_refl.
    destruct (policy_using who _); simpl; auto.
  - intros db R who r f Hf E1 E2.
    destruct (reachable_unique_keys db R) as [_ [_ [_ [_ [S _]]]]].
    rewrite forallb_forall in S. specialize (S f Hf).
    assert (C : Follows.no_self_follow r = true).
    { unfold Follows.no_self_follow in *. congruence. }
    assert (D : existsb (pair_eqb (Follows.follower_id_following_id r))
                  (map Follows.follower_id_following_id (follows db)) = true).
    { apply (existsb_key_of_row _ _ _ f _ Hf). apply pair_eqb_eq.
      unfold Follows.follower_id_following_id. congruence. }
    unfold insert_follow. rewrite policy_with_check_using, C, D.
    destruct (policy_using who _); simpl; [| auto].
    destruct (mem (Follows.id r) (keys Follows.id (follows db))); simpl; auto.
Qed.

Lemma follow_rejects_self_and_duplicate_witness :
  let self : Follows.row :=
    {| Follows.id := 51; Follows.follower_id := Example.alice;
       Follows.following_id := Example.alice; Follows.created_at := None |} in
  let again := Follows.new Example.later Example.follow in
  (insert_follow (authenticated Example.alice) self Example.feed
   = Err (check_violation "no_self_follow")
   /\ follows (commit Example.feed
                 (insert_follow (authenticated Example.alice) self Example.feed))
      = follows Example.feed)
  /\ (is_unique_violation
        (insert_follow (authenticated Example.alice) again Example.feed) = true
      /\ follows (commit Example.feed
                    (insert_follow (authenticated Example.alice) again Example.feed))
         = follows Example.feed).
Proof.
  intros self again.
  destruct follow_rejects_self_and_duplicate as [H1 H2].
  split; [exact (H1 (authenticated Example.alice) self Example.feed eq_refl) |].
  apply (H2 Example.feed feed_reachable (authenticated Example.alice) again
            (Follows.new Example.clock Example.follow));
    [left; reflexivity | reflexivity | reflexivity].
Defined.

(** ** One conversation per pair *)

Lemma between_users_idx (A B : uuid) (c : Conversations.row) :
  between A B c = true ->
  Conversations.conversations_users_idx c = (LEAST A B, GREATEST A B).
Proof.
  unfold between, Conversations.conversations_users_idx, LEAST, GREATEST.
  rewrite orb_true_iff, !andb_true_iff, !N.eqb_eq.
  intros [[-> ->] | [-> ->]]; [reflexivity |].
  now rewrite N.min_comm, N.max_comm.
Qed.

(** C4. In every reachable state at most one conversation is between two
    given profiles, whichever of them is user1_id. An INSERT of a
    conversation between the two participants of an existing one, in either
    order, fails with a uniqueness violation; an INSERT of a conversation of
    a profile with itself fails on the CHECK different_users. A caller the
    policy does not admit is refused before. Either way conversations stays
    as it was. *)
Theorem one_conversation_per_pair :
  (forall db, reachable db ->
   forall A B, (List.length (filter (between A B) (conversations db)) <= 1)%nat)
  /\ (forall db, reachable db ->
      forall who r c,
        In c (conversations db) ->
        between (Conversations.user1_id r) (Conversations.user2_id r) c = true ->
        (if policy_using who (fun uid => Conversations.users_can_create_conversations uid r)
         then is_unique_violation (insert_conversation who r db) = true
         else insert_conversation who r db = Err (insufficient_privilege "conversations"))
        /\ conversations (commit db (insert_conversation who r db)) = conversations db)
  /\ (forall who r db,
        Conversations.user1_id r = Conversations.user2_id r ->
        insert_conversation who r db
        = (if policy_using who (fun uid => Conversations.users_can_create_conversations uid r)
           then Err (check_violation "different_users")
           else Err (insufficient_privilege "conversations"))
        /\ conversations (commit db (insert_conversation who r db)) = conversations db).
Proof.
  split; [| split].
  - intros db R A B. destruct (reachable_unique_keys db R) as [_ [_ [U _]]].
    apply (at_most_one_row pair_eqb Conversations.conversations_users_idx); [| exact U].
    intros x y Hx Hy. apply pair_eqb_eq.
    rewrite (between_users_idx A B x Hx), (between_users_idx A B y Hy). reflexivity.
  - intros db R who r c Hc B.
    destruct (reachable_unique_keys db R) as [_ [_ [_ [_ [_ S]]]]].
    rewrite forallb_forall in S. specialize (S c Hc).
    assert (K : Conversations.conversations_users_idx r
                = Conversations.conversations_users_idx c).
    { rewrite (between_users_idx _ _ c B). reflexivity. }
    assert (C : Conversations.different_users r = true).
    { unfold Conversations.different_users, between in *.
      rewrite negb_true_iff, N.eqb_neq in *.
      rewrite orb_true_iff, !andb_true_iff, !N.eqb_eq in B.
      destruct B as [[E1 E2] | [E1 E2]]; congruence. }
    assert (D : existsb (pair_eqb (Conversations.conversations_users_idx r))
                  (map Conversations.conversations_users_idx (conversations db)) = true).
    { apply (existsb_key_of_row _ _ _ c _ Hc). apply pair_eqb_eq. exact K. }
    unfold insert_conversation. rewrite policy_with_check_using, C, D.
    destruct (policy_using who _); simpl; [| auto].
    destruct (mem (Conversations.id r) (keys Conversations.id (conversations db)));
      simpl; auto.
  - intros who r db E. unfold insert_conversation, Conversations.different_users.
    rewrite policy_with_check_using, E, N.eqb_refl.
    destruct (policy_using who _); simpl; auto.
Qed.

Lemma one_conversation_per_pair_witness :
  let swapped : Conversations.row :=
    {| Conversations.id := 11; Conversations.user1_id := Example.bob;
       Conversations.user2_id := Example.alice;
       Conversations.last_message_at := None; Conversations.created_at := None |} in
  let alone : Conversations.row :=
    {| Conversations.id := 12; Conversations.user1_id := Example.carol;
       Conversations.user2_id := Example.carol;
       Conversations.last_message_at := None; Conversations.created_at := None |} in
  (List.length (filter (between Example.bob Example.alice) (conversations Example.chat))
   <= 1)%nat
  /\ (is_unique_violation
        (insert_conversation (authenticated Example.bob) swapped Example.chat) = true
      /\ conversations (commit Example.chat
                          (insert_conversation (authenticated Example.bob) swapped
                             Example.chat))
         = conversations Example.chat)
  /\ (insert_conversation (authenticated Example.carol) alone Example.chat
      = Err (check_violation "different_users")
      /\ conversations (commit Example.chat
                          (insert_conversation (authenticated Example.carol) alone
                             Example.chat))
         = conversations Example.chat).
Proof.
  intros swapped alone.
  destruct one_conversation_per_pair as [H1 [H2 H3]].
  split; [apply H1; exact chat_reachable |].
  split; [| exact (H3 (authenticated Example.carol) alone Example.chat eq_refl)].
  apply (H2 Example.chat chat_reachable (authenticated Example.bob) swapped
            Example.the_conversation);
    [left; reflexivity | reflexivity].
Defined.

(** ** What a DELETE leaves *)

Lemma incl_keep {R : Type} (doomed : R -> bool) (l : list R) : incl (keep doomed l) l.
Proof.
  intros x Hx. unfold keep in Hx. apply filter_In in Hx. tauto.
Qed.

Lemma In_keep {R : Type} (doomed : R -> bool) (l : list R) (x : R) :
  In x (keep doomed l) <-> In x l /\ doomed x = false.
Proof.
  unfold keep. rewrite filter_In, negb_true_iff. reflexivity.
Qed.

Lemma shrunk_refl db : shrunk db db.
Proof. unfold shrunk. repeat split; apply incl_refl. Qed.

Lemma shrunk_trans db1 db2 db3 : shrunk db1 db2 -> shrunk db2 db3 -> shrunk db1 db3.
Proof.
  unfold shrunk. intros H1 H2.
  repeat match goal with H : _ /\ _ |- _ => destruct H end.
  repeat split; eapply incl_tran; eassumption.
Qed.

Ltac shrinking :=
  unfold shrunk;
  cbn [auth_users profiles posts likes comments follows conversations messages
       notifications with_auth_users with_profiles with_posts with_likes
       with_comments with_follows with_conversations with_messages
       with_notifications];
  repeat split; first [apply incl_refl | apply incl_keep | idtac].

Lemma delete_notifications_where_shrunk doomed db :
  shrunk (delete_notifications_where doomed db) db.
Proof. unfold delete_notifications_where. shrinking. Qed.

Lemma delete_messages_where_shrunk doomed db :
  shrunk (delete_messages_where doomed db) db.
Proof. unfold delete_messages_where. shrinking. Qed.

Lemma delete_follows_where_shrunk doomed db :
  shrunk (delete_follows_where doomed db) db.
Proof. unfold delete_follows_where. shrinking. Qed.

Lemma delete_likes_where_shrunk doomed db :
  shrunk (delete_likes_where doomed db) db.
Proof. unfold delete_likes_where. shrinking. Qed.

Lemma cascade_replies_incl rounds dead live :
  incl (snd (cascade_replies rounds dead live)) live.
Proof.
  apply (cascade_replies_keeps (fun l => incl l live)); [| apply incl_refl].
  intros d l H. eapply incl_tran; [apply incl_keep | exact H].
Qed.

Lemma delete_comments_where_shrunk doomed db :
  shrunk (delete_comments_where doomed db) db.
Proof.
  unfold delete_comments_where.
  pose proof (cascade_replies_incl (List.length (keep doomed (comments db)))
                (keys Comments.id (filter doomed (comments db)))
                (keep doomed (comments db))) as I.
  destruct (cascade_replies _ _ _) as [dead live]. simpl in I.
  eapply shrunk_trans; [apply delete_notifications_where_shrunk |].
  shrinking. eapply incl_tran; [exact I | apply incl_keep].
Qed.

Lemma delete_posts_where_shrunk doomed db :
  shrunk (delete_posts_where doomed db) db.
Proof.
  unfold delete_posts_where.
  eapply shrunk_trans; [apply delete_notifications_where_shrunk |].
  eapply shrunk_trans; [apply delete_comments_where_shrunk |].
  eapply shrunk_trans; [apply delete_likes_where_shrunk |].
  shrinking.
Qed.

Lemma delete_conversations_where_shrunk doomed db :
  shrunk (delete_conversations_where doomed db) db.
Proof.
  unfold delete_conversations_where.
  eapply shrunk_trans; [apply delete_messages_where_shrunk |].
  shrinking.
Qed.

(** The rows a DELETE leaves in its own table are rows it was not asked
    to delete. *)
Lemma delete_notifications_where_left doomed db r :
  In r (notifications (delete_notifications_where doomed db)) -> doomed r = false.
Proof. unfold delete_notifications_where. simpl. rewrite In_keep. tauto. Qed.

Lemma delete_messages_where_left doomed db r :
  In r (messages (delete_messages_where doomed db)) -> doomed r = false.
Proof. unfold delete_messages_where. simpl. rewrite In_keep. tauto. Qed.

Lemma delete_follows_where_left doomed db r :
  In r (follows (delete_follows_where doomed db)) -> doomed r = false.
Proof. unfold delete_follows_where. simpl. rewrite In_keep. tauto. Qed.

Lemma delete_likes_where_left doomed db r :
  In r (likes (delete_likes_where doomed db)) -> doomed r = false.
Proof. unfold delete_likes_where. simpl. rewrite In_keep. tauto. Qed.

Lemma delete_comments_where_left doomed db r :
  In r (comments (delete_comments_where doomed db)) -> doomed r = false.
Proof.
  unfold delete_comments_where.
  pose proof (cascade_replies_incl (List.length (keep doomed (comments db)))
                (keys Comments.id (filter doomed (comments db)))
                (keep doomed (comments db))) as I.
  destruct (cascade_replies _ _ _) as [dead live]. simpl in *.
  intros H. apply I in H. apply In_keep in H. tauto.
Qed.

Lemma delete_posts_where_left doomed db r :
  In r (posts (delete_posts_where doomed db)) -> doomed r = false.
Proof.
  unfold delete_posts_where. intros H.
  pose proof (delete_notifications_where_shrunk
                (fun n => opt_mem (Notifications.post_id n)
                            (keys Posts.id (filter doomed (posts db))))
                (delete_comments_where
                   (fun c => mem (Comments.post_id c)
                               (keys Posts.id (filter doomed (posts db))))
                   (delete_likes_where
                      (fun l => mem (Likes.post_id l)
                                  (keys Posts.id (filter doomed (posts db))))
                      (with_posts (keep doomed (posts db)) db)))) as S1.
  pose proof (delete_comments_where_shrunk
                (fun c => mem (Comments.post_id c)
                            (keys Posts.id (filter doomed (posts db))))
                (delete_likes_where
                   (fun l => mem (Likes.post_id l)
                               (keys Posts.id (filter doomed (posts db))))
                   (with_posts (keep doomed (posts db)) db))) as S2.
  destruct S1 as [_ [_ [S1 _]]]. destruct S2 as [_ [_ [S2 _]]].
  apply S1, S2 in H. simpl in H. apply In_keep in H. tauto.
Qed.

Lemma delete_conversations_where_left doomed db r :
  In r (conversations (delete_conversations_where doomed db)) -> doomed r = false.
Proof.
  unfold delete_conversations_where. simpl. rewrite In_keep. tauto.
Qed.

Lemma delete_profiles_where_shrunk doomed db :
  shrunk (delete_profiles_where doomed db) db.
Proof.
  unfold delete_profiles_where.
  eapply shrunk_trans; [apply delete_notifications_where_shrunk |].
  eapply shrunk_trans; [apply delete_messages_where_shrunk |].
  eapply shrunk_trans; [apply delete_conversations_where_shrunk |].
  eapply shrunk_trans; [apply delete_follows_where_shrunk |].
  eapply shrunk_trans; [apply delete_comments_where_shrunk |].
  eapply shrunk_trans; [apply delete_likes_where_shrunk |].
  eapply shrunk_trans; [apply delete_posts_where_shrunk |].
  shrinking.
Qed.

Lemma not_the_dead (P x : uuid) (dead : list uuid) :
  mem P dead = true -> mem x dead = false -> negb (x =? P) = true.
Proof.
  intros HP Hx. apply negb_true_iff, N.eqb_neq. intros ->. congruence.
Qed.

(** ** Cascade on the deletion of a profile *)

Lemma delete_profiles_where_unreferenced doomed db P :
  mem P (keys Profiles.id (filter doomed (profiles db))) = true ->
  (forall r, Profiles.id r = P -> doomed r = true) ->
  unreferenced P (delete_profiles_where doomed db) = true.
Proof.
  intros HP HD. unfold delete_profiles_where.
  set (dead := keys Profiles.id (filter doomed (profiles db))) in *.
  set (db0 := with_profiles (keep doomed (profiles db)) db).
  set (dpo := fun p => mem (Posts.user_id p) dead).
  set (db1 := delete_posts_where dpo db0).
  set (dl := fun l => mem (Likes.user_id l) dead).
  set (db2 := delete_likes_where dl db1).
  set (dc := fun c => mem (Comments.user_id c) dead).
  set (db3 := delete_comments_where dc db2).
  set (df := fun f => mem (Follows.follower_id f) dead
                      || mem (Follows.following_id f) dead).
  set (db4 := delete_follows_where df db3).
  set (dcv := fun c => mem (Conversations.user1_id c) dead
                       || mem (Conversations.user2_id c) dead).
  set (db5 := delete_conversations_where dcv db4).
  set (dm := fun m => mem (Messages.sender_id m) dead).
  set (db6 := delete_messages_where dm db5).
  set (dn := fun n => mem (Notifications.user_id n) dead
                      || mem (Notifications.actor_id n) dead).
  set (db7 := delete_notifications_where dn db6).
  pose proof (delete_posts_where_shrunk dpo db0) as S1.
  pose proof (delete_likes_where_shrunk dl db1) as S2.
  pose proof (delete_comments_where_shrunk dc db2) as S3.
  pose proof (delete_follows_where_shrunk df db3) as S4.
  pose proof (delete_conversations_where_shrunk dcv db4) as S5.
  pose proof (delete_messages_where_shrunk dm db5) as S6.
  pose proof (delete_notifications_where_shrunk dn db6) as S7.
  fold db1 in S1. fold db2 in S2. fold db3 in S3. fold db4 in S4.
  fold db5 in S5. fold db6 in S6. fold db7 in S7.
  pose proof (shrunk_trans _ _ _ S7 S6) as S75.
  pose proof (shrunk_trans _ _ _ S75 S5) as S74.
  pose proof (shrunk_trans _ _ _ S74 S4) as S73.
  pose proof (shrunk_trans _ _ _ S73 S3) as S72.
  pose proof (shrunk_trans _ _ _ S72 S2) as S71.
  pose proof (shrunk_trans _ _ _ S71 S1) as S70.
  unfold unreferenced. rewrite !andb_true_iff, !forallb_forall.
  repeat split; intros r Hr.
  - apply S70 in Hr. simpl in Hr. apply In_keep in Hr. destruct Hr as [_ Hr].
    apply negb_true_iff, N.eqb_neq. intros E. rewrite (HD r E) in Hr. discriminate.
  - apply S71 in Hr. apply delete_posts_where_left in Hr.
    exact (not_the_dead _ _ _ HP Hr).
  - apply S72 in Hr. apply delete_likes_where_left in Hr.
    exact (not_the_dead _ _ _ HP Hr).
  - apply S73 in Hr. apply delete_comments_where_left in Hr.
    exact (not_the_dead _ _ _ HP Hr).
  - apply S74 in Hr. apply delete_follows_where_left in Hr.
    apply orb_false_iff in Hr. destruct Hr as [H1 H2].
    rewrite (not_the_dead _ _ _ HP H1), (not_the_dead _ _ _ HP H2). reflexivity.
  - apply S75 in Hr. apply delete_conversations_where_left in Hr.
    apply orb_false_iff in Hr. destruct Hr as [H1 H2].
    rewrite (not_the_dead _ _ _ HP H1), (not_the_dead _ _ _ HP H2). reflexivity.
  - apply S7 in Hr. apply delete_messages_where_left in Hr.
    exact (not_the_dead _ _ _ HP Hr).
  - apply delete_notifications_where_left in Hr.
    apply orb_false_iff in Hr. destruct Hr as [H1 H2].
    rewrite (not_the_dead _ _ _ HP H1), (not_the_dead _ _ _ HP H2). reflexivity.
Qed.

(** ** Messages and their conversation *)

(** With the primary key of conversations, the EXISTS of the messages
    policies is a test on the one conversation the message belongs to. *)
Lemma in_conversation_of_the_one (convs : list Conversations.row)
    (C : Conversations.row) (uid : uuid) (m : Messages.row) :
  distinct_by N.eqb (keys Conversations.id convs) = true ->
  In C convs ->
  Messages.conversation_id m = Conversations.id C ->
  Messages.in_conversation_of convs uid m
  = (Conversations.user1_id C =? uid) || (Conversations.user2_id C =? uid).
Proof.
  intros D HC E. unfold Messages.in_conversation_of. rewrite E. clear E.
  induction convs as [| c l IH]; [contradiction |].
  cbn [keys map distinct_by] in D. apply andb_true_iff in D. destruct D as [Dc Dl].
  apply negb_true_iff in Dc. cbn [existsb].
  destruct HC as [-> | HC].
  - rewrite N.eqb_refl. cbn [andb].
    assert (X : existsb (fun c => (Conversations.id c =? Conversations.id C)
                                  && ((Conversations.user1_id c =? uid)
                                      || (Conversations.user2_id c =? uid))) l = false).
    { apply not_true_is_false. intros X. apply existsb_exists in X.
      destruct X as [c [Hc X]]. apply andb_true_iff in X. destruct X as [X _].
      apply N.eqb_eq in X.
      assert (Y : existsb (N.eqb (Conversations.id C)) (map Conversations.id l) = true).
      { apply existsb_exists. exists (Conversations.id c).
        split; [apply in_map; exact Hc | apply N.eqb_eq; congruence]. }
      unfold keys in Dc. congruence. }
    rewrite X. apply orb_false_r.
  - rewrite (IH Dl HC).
    assert (N : (Conversations.id c =? Conversations.id C) = false).
    { apply N.eqb_neq. intros E.
      assert (Y : existsb (N.eqb (Conversations.id c)) (map Conversations.id l) = true).
      { apply existsb_exists. exists (Conversations.id C).
        split; [apply in_map; exact HC | apply N.eqb_eq; congruence]. }
      unfold keys in Dc. congruence. }
    rewrite N. reflexivity.
Qed.

Lemma in_conversation_of_participant (convs : list Conversations.row)
    (C : Conversations.row) (uid : uuid) (m : Messages.row) :
  In C convs ->
  Messages.conversation_id m = Conversations.id C ->
  uid = Conversations.user1_id C \/ uid = Conversations.user2_id C ->
  Messages.in_conversation_of convs uid m = true.
Proof.
  intros HC E HP. unfold Messages.in_conversation_of.
  apply existsb_exists. exists C. split; [exact HC |].
  rewrite E, N.eqb_refl. cbn [andb]. apply orb_true_iff.
  destruct HP as [-> | ->]; [left | right]; apply N.eqb_refl.
Qed.

(** C1. In a reachable state, for a conversation C and an authenticated
    caller c who is neither user1_id nor user2_id of C, and any message row
    m of C, whatever its sender_id: the SELECT policy is false on m and m
    is in no result c reads; the INSERT policy is false on m and c's INSERT
    of m is refused; the UPDATE policy is false on m, c's UPDATE of a stored
    m changes no row, and c's UPDATE that would move a row into C writes
    nothing. *)
Theorem messages_closed_to_non_participants
    (db : DB) (C : Conversations.row) (c : uuid) (m : Messages.row) :
  reachable db ->
  In C (conversations db) ->
  c <> Conversations.user1_id C ->
  c <> Conversations.user2_id C ->
  Messages.conversation_id m = Conversations.id C ->
  (Messages.users_can_view_messages_in_their_conversations (conversations db) c m = false
   /\ ~ In m (select_messages (authenticated c) db))
  /\ (Messages.users_can_create_messages_in_their_conversations (conversations db) c m = false
      /\ insert_message (authenticated c) m db = Err (insufficient_privilege "messages"))
  /\ (Messages.users_can_update_their_own_messages (conversations db) c m = false
      /\ (forall target set,
             find_row Messages.id target (messages db) = Some m ->
             update_message (authenticated c) target set db = Ok db)
      /\ (forall target set old,
             find_row Messages.id target (messages db) = Some old ->
             set old = m ->
             commit db (update_message (authenticated c) target set db) = db)).
Proof.
  intros R HC N1 N2 E.
  destruct (reachable_unique_keys db R) as [_ [_ [_ [D _]]]].
  assert (X : Messages.in_conversation_of (conversations db) c m = false).
  { rewrite (in_conversation_of_the_one _ C c m D HC E).
    apply orb_false_iff. split; apply N.eqb_neq; congruence. }
  split; [| split].
  - split; [exact X |].
    unfold select_messages. rewrite filter_In. simpl.
    unfold Messages.users_can_view_messages_in_their_conversations.
    rewrite X. intros [_ F]. discriminate.
  - unfold Messages.users_can_create_messages_in_their_conversations.
    rewrite X, andb_false_r. split; [reflexivity |].
    unfold insert_message. simpl.
    unfold Messages.users_can_create_messages_in_their_conversations.
    rewrite X, andb_false_r. reflexivity.
  - split; [exact X |]. split.
    + intros target set F. unfold update_message. rewrite F. simpl.
      unfold Messages.users_can_view_messages_in_their_conversations.
      rewrite X. reflexivity.
    + intros target set old F S. unfold update_message. rewrite F.
      destruct (_ && _); [| reflexivity]. cbv zeta. rewrite S. simpl.
      unfold Messages.users_can_update_their_own_messages at 1.
      rewrite X. reflexivity.
Qed.

Lemma messages_closed_to_non_participants_witness :
  let forged : Messages.row :=
    {| Messages.id := 21; Messages.conversation_id := 10;
       Messages.sender_id := Example.alice; Messages.content := "not from alice";
       Messages.is_read := Some false; Messages.created_at := Some 3000%Z |} in
  ~ In Example.the_message (select_messages (authenticated Example.carol) Example.chat)
  /\ insert_message (authenticated Example.carol) forged Example.chat
     = Err (insufficient_privilege "messages")
  /\ (forall set, update_message (authenticated Example.carol) 20 set Example.chat
                  = Ok Example.chat).
Proof.
  intros forged.
  assert (N1 : Example.carol <> Conversations.user1_id Example.the_conversation)
    by discriminate.
  assert (N2 : Example.carol <> Conversations.user2_id Example.the_conversation)
    by discriminate.
  assert (HC : In Example.the_conversation (conversations Example.chat))
    by (left; reflexivity).
  destruct (messages_closed_to_non_participants Example.chat Example.the_conversation
              Example.carol Example.the_message chat_reachable HC N1 N2 eq_refl)
    as [[_ H1] [_ [_ [H3 _]]]].
  destruct (messages_closed_to_non_participants Example.chat Example.the_conversation
              Example.carol forged chat_reachable HC N1 N2 eq_refl)
    as [_ [[_ H2] _]].
  split; [exact H1 |]. split; [exact H2 |].
  intros set. apply H3. reflexivity.
Defined.

(** C9. For a conversation C, a participant p of C and a message m of C,
    the UPDATE policy of messages is true of m whoever sent it, as USING and
    as WITH CHECK: it reads conversation_id only. So p's UPDATE of a stored
    message m of C is carried out whichever columns it changes, the content
    and the sender among them, when the new row is in a conversation of p
    (C itself, for one) and the table's constraints accept it. *)
Theorem participants_may_update_any_message
    (db : DB) (C : Conversations.row) (p : uuid) (m : Messages.row) :
  In C (conversations db) ->
  p = Conversations.user1_id C \/ p = Conversations.user2_id C ->
  Messages.conversation_id m = Conversations.id C ->
  Messages.users_can_update_their_own_messages (conversations db) p m = true
  /\ (forall m', Messages.conversation_id m' = Messages.conversation_id m ->
                 Messages.users_can_update_their_own_messages (conversations db) p m'
                 = true)
  /\ (forall target set C',
         find_row Messages.id target (messages db) = Some m ->
         In C' (conversations db) ->
         p = Conversations.user1_id C' \/ p = Conversations.user2_id C' ->
         Messages.conversation_id (set m) = Conversations.id C' ->
         Messages.message_length (set m) = true ->
         mem (Messages.id (set m))
             (keys Messages.id (others Messages.id target (messages db))) = false ->
         mem (Messages.sender_id (set m)) (keys Profiles.id (profiles db)) = true ->
         update_message (authenticated p) target set db
         = Ok (with_messages (replace_row Messages.id target (set m) (messages db)) db)).
Proof.
  intros HC HP E.
  assert (X : forall m', Messages.conversation_id m' = Conversations.id C ->
                         Messages.in_conversation_of (conversations db) p m' = true).
  { intros m' E'. exact (in_conversation_of_participant _ C p m' HC E' HP). }
  split; [exact (X m E) |]. split.
  - intros m' E'. apply X. congruence.
  - intros target set C' F HC' HP' E' L K S. unfold update_message. rewrite F. simpl.
    unfold Messages.users_can_view_messages_in_their_conversations,
      Messages.users_can_update_their_own_messages.
    rewrite (X m E), (in_conversation_of_participant _ C' p (set m) HC' E' HP').
    simpl. rewrite L, K. simpl.
    assert (Y : mem (Messages.conversation_id (set m))
                    (keys Conversations.id (conversations db)) = true).
    { apply mem_In. rewrite E'. unfold keys. apply in_map. exact HC'. }
    rewrite Y, S. reflexivity.
Qed.

Lemma participants_may_update_any_message_witness :
  let rewrite_it (m : Messages.row) : Messages.row :=
    {| Messages.id := Messages.id m;
       Messages.conversation_id := Messages.conversation_id m;
       Messages.sender_id := Messages.sender_id m;
       Messages.content := "words bob never wrote";
       Messages.is_read := Some true;
       Messages.created_at := Messages.created_at m |} in
  Messages.sender_id Example.the_message <> Example.alice
  /\ Messages.users_can_update_their_own_messages (conversations Example.chat)
       Example.alice Example.the_message = true
  /\ update_message (authenticated Example.alice) 20 rewrite_it Example.chat
     = Ok (with_messages [rewrite_it Example.the_message] Example.chat).
Proof.
  intros rewrite_it.
  destruct (participants_may_update_any_message Example.chat Example.the_conversation
              Example.alice Example.the_message
              (or_introl eq_refl) (or_introl eq_refl) eq_refl) as [H1 [_ H2]].
  split; [discriminate |]. split; [exact H1 |].
  apply (H2 20 rewrite_it Example.the_conversation);
    [reflexivity | left; reflexivity | left; reflexivity
    | reflexivity | reflexivity | reflexivity | reflexivity].
Defined.

(** ** The last activity of a conversation *)

Lemma touched_conversations_In (NEW : Messages.row) (l : list Conversations.row)
    (c : Conversations.row) :
  In c (map (fun c => if Conversations.id c =? Messages.conversation_id NEW
                      then Conversations.set_last_message_at (Messages.created_at NEW) c
                      else c) l) ->
  exists c0, In c0 l
             /\ Conversations.id c = Conversations.id c0
             /\ Conversations.user1_id c = Conversations.user1_id c0
             /\ Conversations.user2_id c = Conversations.user2_id c0
             /\ Conversations.created_at c = Conversations.created_at c0
             /\ Conversations.last_message_at c
                = if Conversations.id c0 =? Messages.conversation_id NEW
                  then Messages.created_at NEW
                  else Conversations.last_message_at c0.
Proof.
  rewrite in_map_iff. intros [c0 [E H]]. exists c0. split; [exact H |].
  destruct (Conversations.id c0 =? Messages.conversation_id NEW); subst c;
    repeat split.
Qed.

(** C5. An INSERT of a message m that succeeds stores m and, in the same
    statement, sets last_message_at of the conversation m names, which
    exists, to the created_at of m; the conversations are the same rows
    otherwise. An INSERT that fails leaves the state, the conversation with
    it, as it was. *)
Theorem message_insert_sets_last_message_at (who : role) (m : Messages.row) (db : DB) :
  (forall db',
      insert_message who m db = Ok db' ->
      messages db' = m :: messages db
      /\ (exists C, In C (conversations db)
                    /\ Conversations.id C = Messages.conversation_id m
                    /\ In (Conversations.set_last_message_at (Messages.created_at m) C)
                          (conversations db'))
      /\ (forall C', In C' (conversations db') ->
                     Conversations.id C' = Messages.conversation_id m ->
                     Conversations.last_message_at C' = Messages.created_at m)
      /\ (forall C', In C' (conversations db') ->
                     Conversations.id C' <> Messages.conversation_id m ->
                     In C' (conversations db)))
  /\ (is_ok (insert_message who m db) = false ->
      commit db (insert_message who m db) = db).
Proof.
  split.
  - intros db' H. unfold insert_message in H. passed H. injection H as <-.
    unfold update_conversation_timestamp, update_conversation_last_message. simpl.
    split; [reflexivity |]. split; [| split].
    + apply mem_In in Pass2. unfold keys in Pass2. apply in_map_iff in Pass2.
      destruct Pass2 as [C [E HC]]. exists C. split; [exact HC |]. split; [exact E |].
      apply in_map_iff. exists C. rewrite E, N.eqb_refl. split; [reflexivity | exact HC].
    + intros C' HC' E. apply touched_conversations_In in HC'.
      destruct HC' as [c0 [_ [E0 [_ [_ [_ L]]]]]].
      rewrite <- E0, E, N.eqb_refl in L. exact L.
    + intros C' HC' NE. apply in_map_iff in HC'. destruct HC' as [c0 [E0 H0]].
      destruct (Conversations.id c0 =? Messages.conversation_id m) eqn:Q.
      * apply N.eqb_eq in Q. subst C'. simpl in NE. contradiction.
      * subst C'. exact H0.
  - destruct (insert_message who m db); simpl; [discriminate | reflexivity].
Qed.

Lemma message_insert_sets_last_message_at_witness :
  let reply : Messages.row :=
    {| Messages.id := 21; Messages.conversation_id := 10;
       Messages.sender_id := Example.alice; Messages.content := "hi bob";
       Messages.is_read := Some false; Messages.created_at := Some 3000%Z |} in
  let after := commit Example.chat
                 (insert_message (authenticated Example.alice) reply Example.chat) in
  map Conversations.last_message_at (conversations Example.chat) = [Some 2000%Z]
  /\ messages after = reply :: messages Example.chat
  /\ (forall C', In C' (conversations after) ->
                 Conversations.id C' = 10 ->
                 Conversations.last_message_at C' = Some 3000%Z).
Proof.
  intros reply after.
  destruct (message_insert_sets_last_message_at (authenticated Example.alice) reply
              Example.chat) as [H _].
  destruct (H after eq_refl) as [H1 [_ [H2 _]]].
  split; [reflexivity |]. split; [exact H1 | exact H2].
Defined.

(** ** Referential integrity *)

Lemma fk_opt_In (x : option uuid) (ids : list uuid) :
  fk_opt x ids = true <-> forall u, x = Some u -> In u ids.
Proof.
  destruct x as [u |]; simpl.
  - rewrite mem_In. split; [intros H v E; injection E as <-; exact H | auto].
  - split; [intros _ u E; discriminate | reflexivity].
Qed.

Lemma opt_mem_false (x : option uuid) (ids : list uuid) :
  opt_mem x ids = false <-> forall u, x = Some u -> ~ In u ids.
Proof.
  destruct x as [u |]; simpl.
  - rewrite mem_false. split; [intros H v E; injection E as <-; exact H | auto].
  - split; [intros _ u E; discriminate | reflexivity].
Qed.

Lemma references_forall {R : Type} (rows : list R) (column : R -> option uuid)
    (ids : list uuid) :
  references rows column ids = true
  <-> forall r u, In r rows -> column r = Some u -> In u ids.
Proof.
  unfold references. rewrite forallb_forall. split.
  - intros H r u Hr E. apply (proj1 (fk_opt_In _ _) (H r Hr) u E).
  - intros H r Hr. apply fk_opt_In. intros u E. exact (H r u Hr E).
Qed.

(** Fewer referencing rows, or more referenced keys, keep a foreign key. *)
Lemma references_incl {R : Type} (rows rows' : list R) (column : R -> option uuid)
    (ids ids' : list uuid) :
  incl rows' rows -> incl ids ids' ->
  references rows column ids = true -> references rows' column ids' = true.
Proof.
  rewrite !references_forall. intros Hr Hi H r u Hr' E.
  apply Hi. exact (H r u (Hr r Hr') E).
Qed.

(** The rows left in the referenced table still carry every key that a
    row left in the referencing table names, when none of those names a
    deleted row. *)
Lemma references_cascade {R T : Type} (rows rows' : list R) (column : R -> option uuid)
    (key : T -> uuid) (doomed : T -> bool) (table : list T) :
  incl rows' rows ->
  (forall r, In r rows' ->
             opt_mem (column r) (keys key (filter doomed table)) = false) ->
  references rows column (keys key table) = true ->
  references rows' column (keys key (keep doomed table)) = true.
Proof.
  rewrite !references_forall. intros Hr Hd H r u Hr' E.
  specialize (H r u (Hr r Hr') E). specialize (Hd r Hr').
  rewrite opt_mem_false in Hd. specialize (Hd u E).
  unfold keys in *. apply in_map_iff in H. destruct H as [t [Et Ht]].
  apply in_map_iff. exists t. split; [exact Et |].
  apply In_keep. split; [exact Ht |].
  destruct (doomed t) eqn:D; [| reflexivity].
  exfalso. apply Hd. apply in_map_iff. exists t. split; [exact Et |].
  apply filter_In. auto.
Qed.

Lemma foreign_keys_holds (db : DB) :
  foreign_keys db = true <-> forall k, holds k db = true.
Proof.
  unfold foreign_keys. rewrite forallb_forall. split.
  - intros H k. apply H. destruct k; simpl; tauto.
  - intros H k _. apply H.
Qed.

(** *** The cascade through replies closes *)

Lemma keep_length {R : Type} (f : R -> bool) (l : list R) :
  (List.length (filter f l) + List.length (keep f l) = List.length l)%nat.
Proof.
  induction l as [| x l IH]; simpl; [reflexivity |].
  unfold keep in *. simpl. destruct (f x); simpl; lia.
Qed.

Lemma filter_nil_forall {R : Type} (f : R -> bool) (l : list R) :
  filter f l = [] -> forall x, In x l -> f x = false.
Proof.
  intros E x Hx. destruct (f x) eqn:F; [| reflexivity].
  assert (H : In x (filter f l)) by (apply filter_In; auto).
  rewrite E in H. contradiction.
Qed.

Lemma In_keys_split {R : Type} (key : R -> uuid) (f : R -> bool) (l : list R) (x : uuid) :
  In x (keys key l) -> In x (keys key (filter f l)) \/ In x (keys key (keep f l)).
Proof.
  unfold keys. rewrite !in_map_iff. intros [r [E Hr]].
  destruct (f r) eqn:F; [left | right]; exists r; split; try exact E.
  - apply filter_In. auto.
  - apply In_keep. auto.
Qed.

(** With a round for every row, no reply of a deleted comment is left,
    and a comment that is not left is among the deleted. *)
Lemma cascade_replies_closed rounds dead live :
  (List.length live <= rounds)%nat ->
  let '(dead', live') := cascade_replies rounds dead live in
  (forall c, In c live' -> opt_mem (Comments.parent_id c) dead' = false)
  /\ (forall x, In x dead -> In x dead')
  /\ (forall x, In x (keys Comments.id live) ->
                In x (keys Comments.id live') \/ In x dead').
Proof.
  revert dead live. induction rounds as [| n IH]; intros dead live L.
  - destruct live; [| simpl in L; lia]. simpl. repeat split; auto. contradiction.
  - cbn [cascade_replies].
    set (orphan := fun c => opt_mem (Comments.parent_id c) dead).
    destruct (filter orphan live) as [| g gone] eqn:E.
    + repeat split; auto. intros c Hc. exact (filter_nil_forall orphan live E c Hc).
    + assert (L' : (List.length (keep orphan live) <= n)%nat).
      { pose proof (keep_length orphan live) as K. rewrite E in K. simpl in K. lia. }
      specialize (IH (keys Comments.id (g :: gone) ++ dead) (keep orphan live) L').
      destruct (cascade_replies n _ _) as [dead' live'].
      destruct IH as [I1 [I2 I3]]. repeat split.
      * exact I1.
      * intros x Hx. apply I2. apply in_or_app. right. exact Hx.
      * intros x Hx. apply (In_keys_split Comments.id orphan) in Hx.
        destruct Hx as [Hx | Hx].
        -- right. apply I2. apply in_or_app. left. rewrite <- E. exact Hx.
        -- apply I3. exact Hx.
Qed.

(** What DELETE FROM comments leaves: the comments, live, that were not
    asked to go and reply to none that went, and the notifications about
    none that went. *)
Lemma delete_comments_where_leaves doomed db :
  exists dead live,
    delete_comments_where doomed db
    = with_notifications
        (keep (fun n => opt_mem (Notifications.comment_id n) dead) (notifications db))
        (with_comments live db)
    /\ incl live (keep doomed (comments db))
    /\ (forall c, In c live -> opt_mem (Comments.parent_id c) dead = false)
    /\ (forall x, In x (keys Comments.id (comments db)) ->
                  In x (keys Comments.id live) \/ In x dead).
Proof.
  unfold delete_comments_where.
  pose proof (cascade_replies_closed (List.length (keep doomed (comments db)))
                (keys Comments.id (filter doomed (comments db)))
                (keep doomed (comments db)) (le_n _)) as C.
  pose proof (cascade_replies_incl (List.length (keep doomed (comments db)))
                (keys Comments.id (filter doomed (comments db)))
                (keep doomed (comments db))) as I.
  destruct (cascade_replies _ _ _) as [dead live]. simpl in I.
  destruct C as [C1 [C2 C3]].
  exists dead, live. split; [reflexivity |]. split; [exact I |]. split; [exact C1 |].
  intros x Hx. apply (In_keys_split Comments.id doomed) in Hx.
  destruct Hx as [Hx | Hx]; [right; apply C2; exact Hx | apply C3; exact Hx].
Qed.

(** *** A DELETE keeps every foreign key *)

Ltac projections :=
  cbn [holds auth_users profiles posts likes comments follows conversations messages
       notifications with_auth_users with_profiles with_posts with_likes
       with_comments with_follows with_conversations with_messages
       with_notifications].

Ltac fewer_rows H :=
  first [ exact H
        | apply (references_incl _ _ _ _ _ (incl_keep _ _) (incl_refl _) H) ].

Lemma delete_notifications_where_holds k doomed db :
  holds k db = true -> holds k (delete_notifications_where doomed db) = true.
Proof.
  unfold delete_notifications_where. destruct k; projections; intros H; fewer_rows H.
Qed.

Lemma delete_messages_where_holds k doomed db :
  holds k db = true -> holds k (delete_messages_where doomed db) = true.
Proof.
  unfold delete_messages_where. destruct k; projections; intros H; fewer_rows H.
Qed.

Lemma delete_follows_where_holds k doomed db :
  holds k db = true -> holds k (delete_follows_where doomed db) = true.
Proof.
  unfold delete_follows_where. destruct k; projections; intros H; fewer_rows H.
Qed.

Lemma delete_likes_where_holds k doomed db :
  holds k db = true -> holds k (delete_likes_where doomed db) = true.
Proof.
  unfold delete_likes_where. destruct k; projections; intros H; fewer_rows H.
Qed.

Lemma delete_comments_where_holds k doomed db :
  holds k db = true -> holds k (delete_comments_where doomed db) = true.
Proof.
  destruct (delete_comments_where_leaves doomed db) as [dead [live [E [I [C1 C3]]]]].
  rewrite E. clear E.
  assert (I' : incl live (comments db)).
  { eapply incl_tran; [exact I | apply incl_keep]. }
  destruct k; projections; intros H; try fewer_rows H;
    try (apply (references_incl _ _ _ _ _ I' (incl_refl _) H)).
  - (* comments_parent_id_fkey *)
    rewrite references_forall in *. intros r u Hr Eu.
    destruct (C3 u (H r u (I' r Hr) Eu)) as [Hu | Hu]; [exact Hu |].
    specialize (C1 r Hr). rewrite opt_mem_false in C1. destruct (C1 u Eu Hu).
  - (* notifications_comment_id_fkey *)
    rewrite references_forall in *. intros r u Hr Eu.
    apply In_keep in Hr. destruct Hr as [Hr Hd].
    destruct (C3 u (H r u Hr Eu)) as [Hu | Hu]; [exact Hu |].
    rewrite opt_mem_false in Hd. destruct (Hd u Eu Hu).
Qed.

Lemma delete_comments_where_frame doomed db :
  auth_users (delete_comments_where doomed db) = auth_users db
  /\ profiles (delete_comments_where doomed db) = profiles db
  /\ posts (delete_comments_where doomed db) = posts db
  /\ likes (delete_comments_where doomed db) = likes db
  /\ follows (delete_comments_where doomed db) = follows db
  /\ conversations (delete_comments_where doomed db) = conversations db
  /\ messages (delete_comments_where doomed db) = messages db.
Proof.
  destruct (delete_comments_where_leaves doomed db) as [dead [live [E _]]].
  rewrite E. repeat split.
Qed.

Lemma delete_posts_where_frame doomed db :
  auth_users (delete_posts_where doomed db) = auth_users db
  /\ profiles (delete_posts_where doomed db) = profiles db
  /\ posts (delete_posts_where doomed db) = keep doomed (posts db)
  /\ follows (delete_posts_where doomed db) = follows db
  /\ conversations (delete_posts_where doomed db) = conversations db
  /\ messages (delete_posts_where doomed db) = messages db.
Proof.
  unfold delete_posts_where, delete_notifications_where.
  set (db1 := delete_likes_where _ _).
  destruct (delete_comments_where_frame
              (fun c => mem (Comments.post_id c) (keys Posts.id (filter doomed (posts db))))
              db1) as [F1 [F2 [F3 [_ [F5 [F6 F7]]]]]].
  projections. rewrite F1, F2, F3, F5, F6, F7. repeat split.
Qed.

Lemma delete_posts_where_holds k doomed db :
  holds k db = true -> holds k (delete_posts_where doomed db) = true.
Proof.
  intros H.
  assert (Chain : forall db0,
            holds k db0 = true ->
            holds k (delete_notifications_where
                       (fun n => opt_mem (Notifications.post_id n)
                                   (keys Posts.id (filter doomed (posts db))))
                       (delete_comments_where
                          (fun c => mem (Comments.post_id c)
                                      (keys Posts.id (filter doomed (posts db))))
                          (delete_likes_where
                             (fun l => mem (Likes.post_id l)
                                         (keys Posts.id (filter doomed (posts db))))
                             db0))) = true).
  { intros db0 H0.
    apply delete_notifications_where_holds, delete_comments_where_holds,
      delete_likes_where_holds. exact H0. }
  pose proof (delete_posts_where_shrunk doomed db) as S.
  destruct S as [_ [_ [_ [Sl [Sc [_ [_ [_ Sn]]]]]]]].
  destruct (delete_posts_where_frame doomed db) as [_ [_ [Fp _]]].
  destruct k;
    try (unfold delete_posts_where; apply Chain; revert H; projections;
         intros H; fewer_rows H).
  - (* likes_post_id_fkey *)
    unfold holds. rewrite Fp.
    apply (references_cascade (likes db)); [exact Sl | | exact H].
    intros r Hr. unfold delete_posts_where in Hr.
    apply (delete_notifications_where_shrunk) in Hr.
    apply (delete_comments_where_shrunk) in Hr.
    apply delete_likes_where_left in Hr. exact Hr.
  - (* comments_post_id_fkey *)
    unfold holds. rewrite Fp.
    apply (references_cascade (comments db)); [exact Sc | | exact H].
    intros r Hr. unfold delete_posts_where in Hr.
    apply (delete_notifications_where_shrunk) in Hr.
    apply delete_comments_where_left in Hr. exact Hr.
  - (* notifications_post_id_fkey *)
    unfold holds. rewrite Fp.
    apply (references_cascade (notifications db)); [exact Sn | | exact H].
    intros r Hr. unfold delete_posts_where in Hr.
    apply delete_notifications_where_left in Hr. exact Hr.
Qed.

Lemma delete_conversations_where_holds k doomed db :
  holds k db = true -> holds k (delete_conversations_where doomed db) = true.
Proof.
  intros H. unfold delete_conversations_where, delete_messages_where.
  destruct k; revert H; projections; intros H; try fewer_rows H.
  (* messages_conversation_id_fkey *)
  apply (references_cascade (messages db)); [apply incl_keep | | exact H].
  intros r Hr. apply In_keep in Hr. tauto.
Qed.

Lemma delete_conversations_where_frame doomed db :
  auth_users (delete_conversations_where doomed db) = auth_users db
  /\ profiles (delete_conversations_where doomed db) = profiles db.
Proof. split; reflexivity. Qed.

Lemma delete_posts_where_profiles doomed db :
  profiles (delete_posts_where doomed db) = profiles db
  /\ auth_users (delete_posts_where doomed db) = auth_users db.
Proof.
  destruct (delete_posts_where_frame doomed db) as [Fa [Fp _]]. auto.
Qed.

Lemma delete_comments_where_profiles doomed db :
  profiles (delete_comments_where doomed db) = profiles db
  /\ auth_users (delete_comments_where doomed db) = auth_users db.
Proof.
  destruct (delete_comments_where_frame doomed db) as [Fa [Fp _]]. auto.
Qed.

Lemma delete_profiles_where_profiles doomed db :
  profiles (delete_profiles_where doomed db) = keep doomed (profiles db)
  /\ auth_users (delete_profiles_where doomed db) = auth_users db.
Proof.
  unfold delete_profiles_where.
  set (dead := keys Profiles.id (filter doomed (profiles db))).
  set (db0 := with_profiles (keep doomed (profiles db)) db).
  set (db1 := delete_posts_where (fun p => mem (Posts.user_id p) dead) db0).
  set (db2 := delete_likes_where (fun l => mem (Likes.user_id l) dead) db1).
  set (db3 := delete_comments_where (fun c => mem (Comments.user_id c) dead) db2).
  set (db4 := delete_follows_where
                (fun f => mem (Follows.follower_id f) dead
                          || mem (Follows.following_id f) dead) db3).
  assert (E1 : profiles db1 = keep doomed (profiles db)
               /\ auth_users db1 = auth_users db).
  { exact (delete_posts_where_profiles _ db0). }
  assert (E3 : profiles db3 = profiles db1 /\ auth_users db3 = auth_users db1).
  { exact (delete_comments_where_profiles _ db2). }
  destruct E1 as [E1 E1']. destruct E3 as [E3 E3'].
  split.
  - change (profiles db3 = keep doomed (profiles db)). congruence.
  - change (auth_users db3 = auth_users db). congruence.
Qed.

(** The rows that the deletion of profiles leaves name no deleted
    profile. *)
Lemma delete_profiles_where_left doomed db :
  let dead := keys Profiles.id (filter doomed (profiles db)) in
  let db' := delete_profiles_where doomed db in
  (forall r, In r (posts db') -> mem (Posts.user_id r) dead = false)
  /\ (forall r, In r (likes db') -> mem (Likes.user_id r) dead = false)
  /\ (forall r, In r (comments db') -> mem (Comments.user_id r) dead = false)
  /\ (forall r, In r (follows db') ->
                mem (Follows.follower_id r) dead = false
                /\ mem (Follows.following_id r) dead = false)
  /\ (forall r, In r (conversations db') ->
                mem (Conversations.user1_id r) dead = false
                /\ mem (Conversations.user2_id r) dead = false)
  /\ (forall r, In r (messages db') -> mem (Messages.sender_id r) dead = false)
  /\ (forall r, In r (notifications db') ->
                mem (Notifications.user_id r) dead = false
                /\ mem (Notifications.actor_id r) dead = false).
Proof.
  intros dead db'. subst db'. unfold delete_profiles_where. fold dead.
  set (db0 := with_profiles (keep doomed (profiles db)) db).
  set (dpo := fun p => mem (Posts.user_id p) dead).
  set (db1 := delete_posts_where dpo db0).
  set (dl := fun l => mem (Likes.user_id l) dead).
  set (db2 := delete_likes_where dl db1).
  set (dc := fun c => mem (Comments.user_id c) dead).
  set (db3 := delete_comments_where dc db2).
  set (df := fun f => mem (Follows.follower_id f) dead
                      || mem (Follows.following_id f) dead).
  set (db4 := delete_follows_where df db3).
  set (dcv := fun c => mem (Conversations.user1_id c) dead
                       || mem (Conversations.user2_id c) dead).
  set (db5 := delete_conversations_where dcv db4).
  set (dm := fun m => mem (Messages.sender_id m) dead).
  set (db6 := delete_messages_where dm db5).
  set (dn := fun n => mem (Notifications.user_id n) dead
                      || mem (Notifications.actor_id n) dead).
  set (db7 := delete_notifications_where dn db6).
  pose proof (delete_likes_where_shrunk dl db1) as S2.
  pose proof (delete_comments_where_shrunk dc db2) as S3.
  pose proof (delete_follows_where_shrunk df db3) as S4.
  pose proof (delete_conversations_where_shrunk dcv db4) as S5.
  pose proof (delete_messages_where_shrunk dm db5) as S6.
  pose proof (delete_notifications_where_shrunk dn db6) as S7.
  fold db2 in S2. fold db3 in S3. fold db4 in S4.
  fold db5 in S5. fold db6 in S6. fold db7 in S7.
  pose proof (shrunk_trans _ _ _ S7 S6) as S75.
  pose proof (shrunk_trans _ _ _ S75 S5) as S74.
  pose proof (shrunk_trans _ _ _ S74 S4) as S73.
  pose proof (shrunk_trans _ _ _ S73 S3) as S72.
  pose proof (shrunk_trans _ _ _ S72 S2) as S71.
  repeat match goal with |- _ /\ _ => split end; intros r Hr.
  - apply S71 in Hr. apply delete_posts_where_left in Hr. exact Hr.
  - apply S72 in Hr. apply delete_likes_where_left in Hr. exact Hr.
  - apply S73 in Hr. apply delete_comments_where_left in Hr. exact Hr.
  - apply S74 in Hr. apply delete_follows_where_left in Hr.
    apply orb_false_iff in Hr. exact Hr.
  - apply S75 in Hr. apply delete_conversations_where_left in Hr.
    apply orb_false_iff in Hr. exact Hr.
  - apply S7 in Hr. apply delete_messages_where_left in Hr. exact Hr.
  - apply delete_notifications_where_left in Hr. apply orb_false_iff in Hr. exact Hr.
Qed.

Lemma delete_profiles_where_holds k doomed db :
  holds k db = true -> holds k (delete_profiles_where doomed db) = true.
Proof.
  intros H.
  set (dead := keys Profiles.id (filter doomed (profiles db))).
  assert (Chain : forall db0,
            holds k db0 = true ->
            holds k (delete_notifications_where
                       (fun n => mem (Notifications.user_id n) dead
                                 || mem (Notifications.actor_id n) dead)
                    (delete_messages_where (fun m => mem (Messages.sender_id m) dead)
                    (delete_conversations_where
                       (fun c => mem (Conversations.user1_id c) dead
                                 || mem (Conversations.user2_id c) dead)
                    (delete_follows_where
                       (fun f => mem (Follows.follower_id f) dead
                                 || mem (Follows.following_id f) dead)
                    (delete_comments_where (fun c => mem (Comments.user_id c) dead)
                    (delete_likes_where (fun l => mem (Likes.user_id l) dead)
                    (delete_posts_where (fun p => mem (Posts.user_id p) dead)
                       db0))))))) = true).
  { intros db0 H0.
    apply delete_notifications_where_holds, delete_messages_where_holds,
      delete_conversations_where_holds, delete_follows_where_holds,
      delete_comments_where_holds, delete_likes_where_holds,
      delete_posts_where_holds. exact H0. }
  destruct (delete_profiles_where_shrunk doomed db)
    as [_ [_ [Spo [Sl [Sc [Sf [Scv [Sm Sn]]]]]]]].
  destruct (delete_profiles_where_profiles doomed db) as [Fp _].
  destruct (delete_profiles_where_left doomed db)
    as [Lpo [Ll [Lc [Lf [Lcv [Lm Ln]]]]]].
  fold dead in Lpo, Ll, Lc, Lf, Lcv, Lm, Ln.
  destruct k;
    try (unfold delete_profiles_where; fold dead; apply Chain; revert H; projections;
         intros H; fewer_rows H);
    unfold holds; rewrite Fp.
  - apply (references_cascade (posts db)); [exact Spo | | exact H].
    intros r Hr. exact (Lpo r Hr).
  - apply (references_cascade (likes db)); [exact Sl | | exact H].
    intros r Hr. exact (Ll r Hr).
  - apply (references_cascade (comments db)); [exact Sc | | exact H].
    intros r Hr. exact (Lc r Hr).
  - apply (references_cascade (follows db)); [exact Sf | | exact H].
    intros r Hr. exact (proj1 (Lf r Hr)).
  - apply (references_cascade (follows db)); [exact Sf | | exact H].
    intros r Hr. exact (proj2 (Lf r Hr)).
  - apply (references_cascade (conversations db)); [exact Scv | | exact H].
    intros r Hr. exact (proj1 (Lcv r Hr)).
  - apply (references_cascade (conversations db)); [exact Scv | | exact H].
    intros r Hr. exact (proj2 (Lcv r Hr)).
  - apply (references_cascade (messages db)); [exact Sm | | exact H].
    intros r Hr. exact (Lm r Hr).
  - apply (references_cascade (notifications db)); [exact Sn | | exact H].
    intros r Hr. exact (proj1 (Ln r Hr)).
  - apply (references_cascade (notifications db)); [exact Sn | | exact H].
    intros r Hr. exact (proj2 (Ln r Hr)).
Qed.

Lemma create_user_holds k u db :
  holds k db = true -> holds k (create_user u db) = true.
Proof.
  unfold create_user. destruct (mem u (auth_users db)); [trivial |].
  destruct k; projections; intros H; try exact H.
  apply (references_incl _ _ _ _ _ (incl_refl _) (incl_tl u (incl_refl _)) H).
Qed.

Lemma delete_user_holds k u db :
  holds k db = true -> holds k (delete_user u db) = true.
Proof.
  intros H. unfold delete_user.
  set (db0 := with_auth_users _ db).
  destruct k;
    try (apply delete_profiles_where_holds; revert H; projections; intros H; exact H).
  (* profiles_id_fkey *)
  unfold holds.
  destruct (delete_profiles_where_profiles (fun r => Profiles.id r =? u) db0) as [Fp Fa].
  rewrite Fp, Fa. subst db0. projections.
  unfold holds in H. rewrite references_forall in *.
  intros r v Hr E. apply In_keep in Hr. destruct Hr as [Hr D].
  injection E as <-. apply filter_In. split; [exact (H r _ Hr eq_refl) |].
  cbv beta in D. rewrite D. reflexivity.
Qed.

(** *** An INSERT keeps every foreign key *)

Lemma references_cons {R : Type} (r : R) (rows : list R) (column : R -> option uuid)
    (ids : list uuid) :
  fk_opt (column r) ids = true ->
  references rows column ids = true ->
  references (r :: rows) column ids = true.
Proof.
  intros Hr H. unfold references in *. cbn [forallb]. rewrite Hr, H. reflexivity.
Qed.

Lemma references_more_keys {R : Type} (rows : list R) (column : R -> option uuid)
    (u : uuid) (ids : list uuid) :
  references rows column ids = true -> references rows column (u :: ids) = true.
Proof.
  apply references_incl; [apply incl_refl | apply incl_tl, incl_refl].
Qed.

Ltac new_row F :=
  first [ exact F
        | apply references_more_keys; exact F
        | apply references_cons; [cbn [fk_opt]; assumption | exact F]
        | apply references_cons;
          [cbn [fk_opt]; assumption | apply references_more_keys; exact F] ].

Lemma insert_profile_foreign_keys who r db db' :
  foreign_keys db = true -> insert_profile who r db = Ok db' -> foreign_keys db' = true.
Proof.
  rewrite !foreign_keys_holds. intros F H k. specialize (F k).
  unfold insert_profile in H. passed H. injection H as <-.
  unfold keys in *. destruct k; revert F; projections; cbn [keys map]; intros F; new_row F.
Qed.

Lemma insert_post_foreign_keys who r db db' :
  foreign_keys db = true -> insert_post who r db = Ok db' -> foreign_keys db' = true.
Proof.
  rewrite !foreign_keys_holds. intros F H k. specialize (F k).
  unfold insert_post in H. passed H. injection H as <-.
  destruct k; revert F; projections; cbn [keys map]; intros F; new_row F.
Qed.

Lemma insert_like_foreign_keys who r db db' :
  foreign_keys db = true -> insert_like who r db = Ok db' -> foreign_keys db' = true.
Proof.
  rewrite !foreign_keys_holds. intros F H k. specialize (F k).
  unfold insert_like in H. passed H. injection H as <-.
  destruct k; revert F; projections; cbn [keys map]; intros F; new_row F.
Qed.

Lemma insert_comment_foreign_keys who r db db' :
  foreign_keys db = true -> insert_comment who r db = Ok db' -> foreign_keys db' = true.
Proof.
  rewrite !foreign_keys_holds. intros F H k. specialize (F k).
  unfold insert_comment in H. passed H. injection H as <-.
  destruct k; revert F; projections; cbn [keys map] in *; intros F; new_row F.
Qed.

Lemma insert_follow_foreign_keys who r db db' :
  foreign_keys db = true -> insert_follow who r db = Ok db' -> foreign_keys db' = true.
Proof.
  rewrite !foreign_keys_holds. intros F H k. specialize (F k).
  unfold insert_follow in H. passed H. injection H as <-.
  destruct k; revert F; projections; cbn [keys map]; intros F; new_row F.
Qed.

Lemma insert_conversation_foreign_keys who r db db' :
  foreign_keys db = true -> insert_conversation who r db = Ok db' ->
  foreign_keys db' = true.
Proof.
  rewrite !foreign_keys_holds. intros F H k. specialize (F k).
  unfold insert_conversation in H. passed H. injection H as <-.
  destruct k; revert F; projections; cbn [keys map]; intros F; new_row F.
Qed.

Lemma insert_notification_foreign_keys who r db db' :
  foreign_keys db = true -> insert_notification who r db = Ok db' ->
  foreign_keys db' = true.
Proof.
  rewrite !foreign_keys_holds. intros F H k. specialize (F k).
  unfold insert_notification in H. passed H. injection H as <-.
  destruct k; revert F; projections; cbn [keys map]; intros F; new_row F.
Qed.

Lemma insert_message_foreign_keys who r db db' :
  foreign_keys db = true -> insert_message who r db = Ok db' -> foreign_keys db' = true.
Proof.
  rewrite !foreign_keys_holds. intros F H k. specialize (F k).
  unfold insert_message in H. passed H. injection H as <-.
  unfold update_conversation_timestamp, update_conversation_last_message.
  destruct k; revert F; projections; unfold references, keys in *;
    rewrite ?touched_conversations_map, ?touched_conversations_forallb by reflexivity;
    fold (@keys Profiles.row Profiles.id) (@keys Conversations.row Conversations.id);
    intros F; try exact F;
    cbn [forallb fk_opt]; apply andb_true_iff; split; assumption.
Qed.

(** *** An UPDATE keeps every foreign key *)

Section ReplacedKeys.

Context {T : Type} (key : T -> uuid).

Lemma keys_replace_row_same (target : uuid) (new : T) (l : list T) :
  key new = target -> keys key (replace_row key target new l) = keys key l.
Proof.
  intros E. unfold keys, replace_row. rewrite map_map. apply map_ext_in.
  intros x _. destruct (key x =? target) eqn:Q; [| reflexivity].
  apply N.eqb_eq in Q. congruence.
Qed.

Lemma In_keys_replace_row (target : uuid) (new : T) (l : list T) (x : uuid) :
  In x (keys key l) -> x <> target -> In x (keys key (replace_row key target new l)).
Proof.
  unfold keys, replace_row. rewrite map_map, !in_map_iff.
  intros [t [E Ht]] N. exists t. split; [| exact Ht].
  destruct (key t =? target) eqn:Q; [| exact E].
  apply N.eqb_eq in Q. congruence.
Qed.

Lemma In_new_keys_replace_row (target : uuid) (new : T) (l : list T) :
  In target (keys key l) -> In (key new) (keys key (replace_row key target new l)).
Proof.
  unfold keys, replace_row. rewrite map_map, !in_map_iff.
  intros [t [E Ht]]. exists t. split; [| exact Ht]. rewrite E, N.eqb_refl. reflexivity.
Qed.

Lemma In_keys_new_others (target : uuid) (new : T) (l : list T) (x : uuid) :
  In target (keys key l) ->
  In x (keys key (new :: others key target l)) ->
  In x (keys key (replace_row key target new l)).
Proof.
  intros Ht [<- | Hx]; [apply In_new_keys_replace_row; exact Ht |].
  unfold keys, others in Hx. apply in_map_iff in Hx. destruct Hx as [t [E Hx]].
  apply filter_In in Hx. destruct Hx as [Hx Q].
  apply negb_true_iff, N.eqb_neq in Q.
  apply In_keys_replace_row; [| congruence].
  unfold keys. apply in_map_iff. exists t. auto.
Qed.

Lemma In_replace_row (target : uuid) (new : T) (l : list T) (r : T) :
  In r (replace_row key target new l) -> r = new \/ In r (others key target l).
Proof.
  unfold replace_row, others. rewrite in_map_iff. intros [t [E Ht]].
  destruct (key t =? target) eqn:Q; [left; congruence |].
  right. subst r. apply filter_In. rewrite Q. auto.
Qed.

(** The rows that reference the table keep resolving when the key of the
    replaced row stays, or when none of them names it. *)
Lemma references_into_replaced {R : Type} (rows : list R) (column : R -> option uuid)
    (target : uuid) (new : T) (l : list T) :
  references rows column (keys key l) = true ->
  key new = target \/ (forall r, In r rows -> column r <> Some target) ->
  references rows column (keys key (replace_row key target new l)) = true.
Proof.
  intros H [E | N].
  - rewrite (keys_replace_row_same _ _ _ E). exact H.
  - rewrite references_forall in *. intros r u Hr Eu.
    apply In_keys_replace_row; [exact (H r u Hr Eu) |].
    intros ->. exact (N r Hr Eu).
Qed.

End ReplacedKeys.

Lemma references_replace_row {R : Type} (key : R -> uuid) (target : uuid) (new : R)
    (rows : list R) (column : R -> option uuid) (ids : list uuid) :
  fk_opt (column new) ids = true ->
  references rows column ids = true ->
  references (replace_row key target new rows) column ids = true.
Proof.
  intros Hn H. unfold references in *. apply forallb_replace_row; assumption.
Qed.

Lemma not_referenced {R : Type} (rows : list R) (column : R -> uuid) (target : uuid) :
  negb (existsb (fun r => column r =? target) rows) = true ->
  forall r, In r rows -> Some (column r) <> Some target.
Proof.
  rewrite negb_true_iff. intros H r Hr E. injection E as E.
  assert (X : existsb (fun r => column r =? target) rows = true).
  { apply existsb_exists. exists r. split; [exact Hr | apply N.eqb_eq; exact E]. }
  congruence.
Qed.

Lemma not_referenced_opt {R : Type} (rows : list R) (column : R -> option uuid)
    (target : uuid) :
  negb (existsb (fun r => opt_mem (column r) [target]) rows) = true ->
  forall r, In r rows -> column r <> Some target.
Proof.
  rewrite negb_true_iff. intros H r Hr E.
  assert (X : existsb (fun r => opt_mem (column r) [target]) rows = true).
  { apply existsb_exists. exists r. split; [exact Hr |].
    rewrite E. simpl. rewrite N.eqb_refl. reflexivity. }
  congruence.
Qed.

Lemma find_row_key {R : Type} (key : R -> uuid) (target : uuid) (l : list R) (r : R) :
  find_row key target l = Some r -> In target (keys key l).
Proof.
  intros H. apply find_row_In in H. destruct H as [H <-].
  unfold keys. apply in_map. exact H.
Qed.

Ltac new_version F :=
  first [ exact F
        | apply references_replace_row; [cbn [fk_opt]; assumption | exact F] ].

Lemma update_like_foreign_keys who target set db db' :
  foreign_keys db = true -> update_like who target set db = Ok db' ->
  foreign_keys db' = true.
Proof.
  rewrite !foreign_keys_holds. intros F H k. specialize (F k).
  unfold update_like in H. do 2 not_updated H.
  cbv zeta in H. passed H. injection H as <-.
  destruct k; revert F; projections; intros F; new_version F.
Qed.

Lemma update_follow_foreign_keys who target set db db' :
  foreign_keys db = true -> update_follow who target set db = Ok db' ->
  foreign_keys db' = true.
Proof.
  rewrite !foreign_keys_holds. intros F H k. specialize (F k).
  unfold update_follow in H. do 2 not_updated H.
  cbv zeta in H. passed H. injection H as <-.
  destruct k; revert F; projections; intros F; new_version F.
Qed.

Lemma update_message_foreign_keys who target set db db' :
  foreign_keys db = true -> update_message who target set db = Ok db' ->
  foreign_keys db' = true.
Proof.
  rewrite !foreign_keys_holds. intros F H k. specialize (F k).
  unfold update_message in H. do 2 not_updated H.
  cbv zeta in H. passed H. injection H as <-.
  destruct k; revert F; projections; intros F; new_version F.
Qed.

Lemma update_notification_foreign_keys who target set db db' :
  foreign_keys db = true -> update_notification who target set db = Ok db' ->
  foreign_keys db' = true.
Proof.
  rewrite !foreign_keys_holds. intros F H k. specialize (F k).
  unfold update_notification in H. do 2 not_updated H.
  cbv zeta in H. passed H. injection H as <-.
  destruct k; revert F; projections; intros F; new_version F.
Qed.

Ltac still_referenced F U :=
  apply references_into_replaced; [exact F |];
  destruct U as [U | U]; [left; exact U | right];
  first [ apply not_referenced; tauto | apply not_referenced_opt; tauto ].

Lemma update_profile_foreign_keys who e target set db db' :
  foreign_keys db = true -> update_profile who e target set db = Ok db' ->
  foreign_keys db' = true.
Proof.
  rewrite !foreign_keys_holds. intros F H k. specialize (F k).
  unfold update_profile in H. do 2 not_updated H.
  cbv zeta in H. passed H. injection H as <-.
  apply key_unchanged_or_Ok in Pass5.
  cbn [profile_references forallb fst] in Pass5. rewrite ?andb_true_iff in Pass5.
  destruct k; revert F; projections; intros F;
    first [ new_version F | still_referenced F Pass5 ].
Qed.

Lemma update_post_foreign_keys who e target set db db' :
  foreign_keys db = true -> update_post who e target set db = Ok db' ->
  foreign_keys db' = true.
Proof.
  rewrite !foreign_keys_holds. intros F H k. specialize (F k).
  unfold update_post in H. do 2 not_updated H.
  cbv zeta in H. passed H. injection H as <-.
  apply key_unchanged_or_Ok in Pass3.
  cbn [post_references forallb fst] in Pass3. rewrite ?andb_true_iff in Pass3.
  destruct k; revert F; projections; intros F;
    first [ new_version F | still_referenced F Pass3 ].
Qed.

Lemma update_conversation_foreign_keys who target set db db' :
  foreign_keys db = true -> update_conversation who target set db = Ok db' ->
  foreign_keys db' = true.
Proof.
  rewrite !foreign_keys_holds. intros F H k. specialize (F k).
  unfold update_conversation in H. do 2 not_updated H.
  cbv zeta in H. passed H. injection H as <-.
  apply key_unchanged_or_Ok in Pass5.
  cbn [conversation_references forallb fst] in Pass5. rewrite ?andb_true_iff in Pass5.
  destruct k; revert F; projections; intros F;
    first [ new_version F | still_referenced F Pass5 ].
Qed.

Lemma update_comment_foreign_keys who e target set db db' :
  foreign_keys db = true -> update_comment who e target set db = Ok db' ->
  foreign_keys db' = true.
Proof.
  rewrite !foreign_keys_holds. intros F H k. specialize (F k).
  unfold update_comment in H. not_updated H.
  match goal with Q : find_row _ _ _ = Some _ |- _ => rename Q into Found end.
  not_updated H.
  cbv zeta in H. passed H. injection H as <-.
  apply key_unchanged_or_Ok in Pass5.
  cbn [comment_references forallb fst] in Pass5. rewrite ?andb_true_iff in Pass5.
  destruct k; revert F; projections; intros F;
    try (first [ new_version F | still_referenced F Pass5 ]).
  (* comments_parent_id_fkey *)
  apply find_row_key in Found.
  rewrite references_forall in *. intros c u Hc Eu.
  apply In_replace_row in Hc. destruct Hc as [-> | Hc].
  - rewrite fk_opt_In in Pass4.
    apply (In_keys_new_others Comments.id target _ _ _ Found).
    exact (Pass4 u Eu).
  - assert (Hc' : In c (comments db)).
    { unfold others in Hc. apply filter_In in Hc. tauto. }
    destruct Pass5 as [E | N].
    + rewrite (keys_replace_row_same _ _ _ _ E). exact (F c u Hc' Eu).
    + apply In_keys_replace_row; [exact (F c u Hc' Eu) |].
      intros ->. destruct N as [N _].
      exact (not_referenced_opt _ _ _ N c Hc Eu).
Qed.

Lemma exec_foreign_keys who e s db db' :
  foreign_keys db = true -> exec who e s db = Ok db' -> foreign_keys db' = true.
Proof.
  intros F H.
  assert (D : forall f : DB -> DB,
            (forall k, holds k db = true -> holds k (f db) = true) ->
            Ok (f db) = Ok db' -> foreign_keys db' = true).
  { intros f Hf E. injection E as <-. rewrite foreign_keys_holds in *.
    intros k. apply Hf, F. }
  destruct s; cbn [exec] in H;
  [ exact (D _ (fun k => create_user_holds k _ db) H)
  | exact (D _ (fun k => delete_user_holds k _ db) H)
  | exact (insert_profile_foreign_keys _ _ _ _ F H)
  | exact (update_profile_foreign_keys _ _ _ _ _ _ F H)
  | exact (D _ (fun k => delete_profiles_where_holds k _ db) H)
  | exact (insert_post_foreign_keys _ _ _ _ F H)
  | exact (update_post_foreign_keys _ _ _ _ _ _ F H)
  | exact (D _ (fun k => delete_posts_where_holds k _ db) H)
  | exact (insert_like_foreign_keys _ _ _ _ F H)
  | exact (update_like_foreign_keys _ _ _ _ _ F H)
  | exact (D _ (fun k => delete_likes_where_holds k _ db) H)
  | exact (insert_comment_foreign_keys _ _ _ _ F H)
  | exact (update_comment_foreign_keys _ _ _ _ _ _ F H)
  | exact (D _ (fun k => delete_comments_where_holds k _ db) H)
  | exact (insert_follow_foreign_keys _ _ _ _ F H)
  | exact (update_follow_foreign_keys _ _ _ _ _ F H)
  | exact (D _ (fun k => delete_follows_where_holds k _ db) H)
  | exact (insert_conversation_foreign_keys _ _ _ _ F H)
  | exact (update_conversation_foreign_keys _ _ _ _ _ F H)
  | exact (D _ (fun k => delete_conversations_where_holds k _ db) H)
  | exact (insert_message_foreign_keys _ _ _ _ F H)
  | exact (update_message_foreign_keys _ _ _ _ _ F H)
  | exact (D _ (fun k => delete_messages_where_holds k _ db) H)
  | exact (insert_notification_foreign_keys _ _ _ _ F H)
  | exact (update_notification_foreign_keys _ _ _ _ _ F H)
  | exact (D _ (fun k => delete_notifications_where_holds k _ db) H) ].
Qed.

(** In every reachable state every foreign key resolves. *)
Lemma reachable_foreign_keys db : reachable db -> foreign_keys db = true.
Proof.
  induction 1 as [| db db' who e s _ IH H]; [reflexivity |].
  eapply exec_foreign_keys; eassumption.
Qed.

(** C2. Deleting the row of a profile P leaves no row that references P:
    no post, like or comment of P, no follow from or to P, no conversation
    P takes part in, no message P sent and no notification to or from P;
    and no row of P in profiles. Every table is otherwise a part of what it
    was, and where every foreign key resolved before the delete, every
    foreign key resolves after it: what referenced a deleted row went with
    it. *)
Theorem delete_profile_cascades (P : uuid) (db : DB) :
  mem P (keys Profiles.id (profiles db)) = true ->
  unreferenced P (delete_profile P db) = true
  /\ shrunk (delete_profile P db) db
  /\ (foreign_keys db = true -> foreign_keys (delete_profile P db) = true).
Proof.
  intros HP. split; [| split].
  - apply delete_profiles_where_unreferenced.
    + apply mem_In in HP. apply mem_In. unfold keys in *.
      apply in_map_iff in HP. destruct HP as [r [E Hr]].
      apply in_map_iff. exists r. split; [exact E |].
      apply filter_In. split; [exact Hr |]. apply N.eqb_eq. exact E.
    + intros r E. apply N.eqb_eq. exact E.
  - apply delete_profiles_where_shrunk.
  - rewrite !foreign_keys_holds. intros F k.
    apply delete_profiles_where_holds, F.
Qed.

Lemma delete_profile_cascades_witness :
  unreferenced Example.alice (delete_profile Example.alice Example.chat) = true
  /\ conversations (delete_profile Example.alice Example.chat) = []
  /\ messages (delete_profile Example.alice Example.chat) = []
  /\ foreign_keys (delete_profile Example.alice Example.chat) = true.
Proof.
  destruct (delete_profile_cascades Example.alice Example.chat eq_refl) as [H1 [_ H2]].
  split; [exact H1 |]. split; [reflexivity |]. split; [reflexivity |].
  apply H2. reflexivity.
Defined.

(** * Further properties of the schema and of its callers *)

Lemma busy_reachable : reachable Scenario.busy.
Proof.
  apply (run_script_reachable Scenario.script empty_db);
    [apply reachable_empty | vm_compute; reflexivity].
Qed.

(** ** What the CHECK and UNIQUE constraints keep *)

Lemma reachable_checks db :
  reachable db ->
  forallb Posts.content_length (posts db) = true
  /\ forallb Comments.comment_length (comments db) = true
  /\ forallb Messages.message_length (messages db) = true
  /\ forallb Notifications.valid_notification_type (notifications db) = true
  /\ forallb Profiles.username_length (profiles db) = true
  /\ forallb Profiles.username_format (profiles db) = true.
Proof.
  intros R. apply reachable_consistent in R.
  unfold consistent, checks in R. rewrite !andb_true_iff in R. tauto.
Qed.

Lemma reachable_primary_keys db :
  reachable db ->
  distinct_by N.eqb (keys Profiles.id (profiles db)) = true
  /\ distinct_by N.eqb (keys Posts.id (posts db)) = true
  /\ distinct_by N.eqb (keys Likes.id (likes db)) = true
  /\ distinct_by N.eqb (keys Comments.id (comments db)) = true
  /\ distinct_by N.eqb (keys Follows.id (follows db)) = true
  /\ distinct_by N.eqb (keys Conversations.id (conversations db)) = true
  /\ distinct_by N.eqb (keys Messages.id (messages db)) = true
  /\ distinct_by N.eqb (keys Notifications.id (notifications db)) = true
  /\ distinct_by String.eqb (map Profiles.username (profiles db)) = true.
Proof.
  intros R. apply reachable_consistent in R.
  unfold consistent, primary_keys, unique_keys in R. rewrite !andb_true_iff in R. tauto.
Qed.

Lemma length_bounds (lo hi n : nat) :
  (lo <? n)%nat && (n <=? hi)%nat = true -> (lo < n <= hi)%nat.
Proof.
  rewrite andb_true_iff, Nat.ltb_lt, Nat.leb_le. tauto.
Qed.

(** X1. In every reachable state the content of every post has between 1
    and 5000 characters, that of every comment and of every message between
    1 and 2000: characters, not bytes. *)
Theorem stored_content_within_bounds (db : DB) :
  reachable db ->
  (forall p, In p (posts db) -> (0 < char_length (Posts.content p) <= 5000)%nat)
  /\ (forall c, In c (comments db) -> (0 < char_length (Comments.content c) <= 2000)%nat)
  /\ (forall m, In m (messages db) -> (0 < char_length (Messages.content m) <= 2000)%nat).
Proof.
  intros R. destruct (reachable_checks db R) as [P [C [M _]]].
  rewrite forallb_forall in P, C, M.
  split; [| split]; intros r Hr.
  - apply (length_bounds 0 5000), (P r Hr).
  - apply (length_bounds 0 2000), (C r Hr).
  - apply (length_bounds 0 2000), (M r Hr).
Qed.

Lemma stored_content_within_bounds_witness :
  (0 < char_length (Messages.content Example.the_message) <= 2000)%nat.
Proof.
  destruct (stored_content_within_bounds Scenario.busy busy_reachable) as [_ [_ H]].
  apply H. right. left. reflexivity.
Defined.

(** X2. In every reachable state the type of every notification is one of
    follow, like, comment, mention and message. *)
Theorem stored_notification_type_valid (db : DB) :
  reachable db ->
  forall n, In n (notifications db) ->
            In (Notifications.type n) ["follow"; "like"; "comment"; "mention"; "message"].
Proof.
  intros R n Hn. destruct (reachable_checks db R) as [_ [_ [_ [T _]]]].
  rewrite forallb_forall in T. specialize (T n Hn).
  unfold Notifications.valid_notification_type in T.
  apply existsb_exists in T. destruct T as [t [Ht E]].
  apply String.eqb_eq in E. rewrite E. exact Ht.
Qed.

Lemma stored_notification_type_valid_witness :
  In (Notifications.type
        (Notifications.new Example.clock (Scenario.notification 70 "like" None)))
     ["follow"; "like"; "comment"; "mention"; "message"].
Proof.
  apply (stored_notification_type_valid Scenario.busy busy_reachable).
  right. left. reflexivity.
Defined.

(** Rows of one key are one row, where the key is unique. *)
Lemma same_key_same_row {R K : Type} (eqb : K -> K -> bool) (k : R -> K) (l : list R) :
  (forall a b, eqb a b = true <-> a = b) ->
  distinct_by eqb (map k l) = true ->
  forall a b, In a l -> In b l -> k a = k b -> a = b.
Proof.
  intros Heq. induction l as [| x l IH]; [contradiction |].
  cbn [map distinct_by]. rewrite andb_true_iff, negb_true_iff. intros [Hx Hl] a b Ha Hb E.
  assert (X : forall y, In y l -> k x <> k y).
  { intros y Hy Ey.
    assert (existsb (eqb (k x)) (map k l) = true).
    { apply existsb_exists. exists (k y). split; [apply in_map; exact Hy |].
      apply Heq. exact Ey. }
    congruence. }
  destruct Ha as [<- | Ha], Hb as [<- | Hb].
  - reflexivity.
  - destruct (X b Hb E).
  - destruct (X a Ha (eq_sym E)).
  - exact (IH Hl a b Ha Hb E).
Qed.

(** X3. In every reachable state no two profiles have the same username,
    compared byte for byte, and no two the same id. An INSERT of a profile
    whose username another row has fails with the uniqueness violation of
    profiles_username_key, for a caller the policy admits whose id has no
    row yet. *)
Theorem one_profile_per_username (db : DB) :
  reachable db ->
  (forall p q, In p (profiles db) -> In q (profiles db) ->
               Profiles.username p = Profiles.username q -> p = q)
  /\ (forall p q, In p (profiles db) -> In q (profiles db) ->
                  Profiles.id p = Profiles.id q -> p = q)
  /\ (forall who r q,
         In q (profiles db) ->
         Profiles.username r = Profiles.username q ->
         policy_using who (fun uid => Profiles.users_can_insert_their_own_profile uid r) = true ->
         mem (Profiles.id r) (keys Profiles.id (profiles db)) = false ->
         insert_profile who r db = Err (unique_violation "profiles_username_key")).
Proof.
  intros R. destruct (reachable_primary_keys db R) as [K [_ [_ [_ [_ [_ [_ [_ U]]]]]]]].
  destruct (reachable_checks db R) as [_ [_ [_ [_ [L F]]]]].
  split; [| split].
  - exact (same_key_same_row String.eqb Profiles.username _ String.eqb_eq U).
  - exact (same_key_same_row N.eqb Profiles.id _ N.eqb_eq K).
  - intros who r q Hq E P Fresh.
    rewrite forallb_forall in L, F.
    assert (D : existsb (String.eqb (Profiles.username r))
                  (map Profiles.username (profiles db)) = true).
    { apply (existsb_key_of_row _ _ _ q _ Hq). apply String.eqb_eq. exact E. }
    unfold insert_profile.
    rewrite policy_with_check_using, P, Fresh, D.
    unfold Profiles.username_format, Profiles.username_length. rewrite E.
    fold (Profiles.username_format q) (Profiles.username_length q).
    rewrite (F q Hq), (L q Hq). reflexivity.
Qed.

Lemma one_profile_per_username_witness :
  let dave : uuid := 4 in
  insert_profile (authenticated dave)
    (Profiles.new Example.later (Example.profile dave "alice"))
    (create_user dave Example.people)
  = Err (unique_violation "profiles_username_key").
Proof.
  intros dave.
  assert (R : reachable (create_user dave Example.people)).
  { apply (reachable_step Example.people _ service_role Example.clock (CREATE_USER dave));
      [exact people_reachable | reflexivity]. }
  destruct (one_profile_per_username _ R) as [_ [_ H]].
  apply (H (authenticated dave) _
           (Profiles.new Example.clock (Example.profile Example.alice "alice")));
    [right; right; left; reflexivity | reflexivity | reflexivity | reflexivity].
Defined.

Lemma holds_In {R : Type} (rows : list R) (column : R -> uuid) (ids : list uuid) (r : R) :
  references rows (fun x => Some (column x)) ids = true ->
  In r rows -> mem (column r) ids = true.
Proof.
  intros H Hr. apply mem_In.
  exact (proj1 (references_forall _ _ _) H r (column r) Hr eq_refl).
Qed.

(** X4. A follow is a directed edge: in a reachable state where A follows
    B and B does not follow A, B's INSERT of a follow of A under a fresh key
    is stored. (UNIQUE(follower_id, following_id) is on the ordered pair,
    unlike the index of conversations.) *)
Theorem follow_back_is_stored (db : DB) (f r : Follows.row) :
  reachable db ->
  In f (follows db) ->
  Follows.follower_id r = Follows.following_id f ->
  Follows.following_id r = Follows.follower_id f ->
  mem (Follows.id r) (keys Follows.id (follows db)) = false ->
  existsb (pair_eqb (Follows.follower_id_following_id r))
          (map Follows.follower_id_following_id (follows db)) = false ->
  insert_follow (authenticated (Follows.follower_id r)) r db
  = Ok (with_follows (r :: follows db) db).
Proof.
  intros R Hf E1 E2 Fresh NoBack.
  destruct (reachable_unique_keys db R) as [_ [_ [_ [_ [S _]]]]].
  rewrite forallb_forall in S. specialize (S f Hf).
  pose proof (reachable_foreign_keys db R) as FK. rewrite foreign_keys_holds in FK.
  pose proof (holds_In _ _ _ f (FK follows_follower_id_fkey) Hf) as P1.
  pose proof (holds_In _ _ _ f (FK follows_following_id_fkey) Hf) as P2.
  unfold insert_follow. cbn [policy_with_check].
  unfold Follows.users_can_create_their_own_follows. rewrite N.eqb_refl. cbn [require bind].
  assert (C : Follows.no_self_follow r = true).
  { unfold Follows.no_self_follow in *. rewrite E1, E2, N.eqb_sym. exact S. }
  rewrite C, Fresh, NoBack, E1, E2, P1, P2. reflexivity.
Qed.

Lemma follow_back_is_stored_witness :
  let back : Follows.row :=
    {| Follows.id := 51; Follows.follower_id := Example.bob;
       Follows.following_id := Example.alice; Follows.created_at := None |} in
  insert_follow (authenticated Example.bob) back Example.feed
  = Ok (with_follows (back :: follows Example.feed) Example.feed).
Proof.
  intros back.
  apply (follow_back_is_stored Example.feed (Follows.new Example.clock Example.follow) back
           feed_reachable);
    [left; reflexivity | reflexivity | reflexivity | reflexivity | reflexivity].
Defined.

(** X5. In every reachable state every foreign key of the schema resolves:
    each of the seventeen referencing columns holds NULL, where it may, or
    the key of a row of the table it references. So every message is in a
    stored conversation and from a stored profile, and every like is of a
    stored post by a stored profile. *)
Theorem every_reference_resolves (db : DB) :
  reachable db ->
  (forall k, holds k db = true)
  /\ (forall m, In m (messages db) ->
        (exists c, In c (conversations db)
                   /\ Conversations.id c = Messages.conversation_id m)
        /\ (exists p, In p (profiles db) /\ Profiles.id p = Messages.sender_id m))
  /\ (forall l, In l (likes db) ->
        (exists p, In p (posts db) /\ Posts.id p = Likes.post_id l)
        /\ (exists p, In p (profiles db) /\ Profiles.id p = Likes.user_id l)).
Proof.
  intros R. pose proof (reachable_foreign_keys db R) as FK.
  rewrite foreign_keys_holds in FK.
  assert (X : forall {T : Type} (key : T -> uuid) (table : list T) (x : uuid),
            mem x (keys key table) = true -> exists t, In t table /\ key t = x).
  { intros T key table x H. apply mem_In in H. unfold keys in H.
    apply in_map_iff in H. destruct H as [t [E Ht]]. eauto. }
  split; [exact FK |]. split.
  - intros m Hm. split.
    + apply X. exact (holds_In _ _ _ m (FK messages_conversation_id_fkey) Hm).
    + apply X. exact (holds_In _ _ _ m (FK messages_sender_id_fkey) Hm).
  - intros l Hl. split.
    + apply X. exact (holds_In _ _ _ l (FK likes_post_id_fkey) Hl).
    + apply X. exact (holds_In _ _ _ l (FK likes_user_id_fkey) Hl).
Qed.

Lemma every_reference_resolves_witness :
  holds messages_conversation_id_fkey Scenario.busy = true
  /\ holds comments_parent_id_fkey Scenario.busy = true.
Proof.
  split; apply (proj1 (every_reference_resolves Scenario.busy busy_reachable)).
Defined.

(** X6. A message for a conversation that does not exist: an authenticated
    caller is refused by the policy, whose EXISTS finds no conversation,
    before any foreign key is looked at; a caller that bypasses the policies
    gets the violation of messages_conversation_id_fkey, when the content
    and the key are in order. Nothing is stored either way. *)
Theorem message_to_missing_conversation (m : Messages.row) (db : DB) :
  mem (Messages.conversation_id m) (keys Conversations.id (conversations db)) = false ->
  (forall uid, insert_message (authenticated uid) m db
               = Err (insufficient_privilege "messages"))
  /\ (Messages.message_length m = true ->
      mem (Messages.id m) (keys Messages.id (messages db)) = false ->
      insert_message service_role m db
      = Err (foreign_key_violation "messages_conversation_id_fkey")).
Proof.
  intros Missing. split.
  - intros uid. unfold insert_message. cbn [policy_with_check].
    unfold Messages.users_can_create_messages_in_their_conversations.
    assert (X : Messages.in_conversation_of (conversations db) uid m = false).
    { apply not_true_is_false. intros X. unfold Messages.in_conversation_of in X.
      apply existsb_exists in X. destruct X as [c [Hc X]].
      apply andb_true_iff in X. destruct X as [X _]. apply N.eqb_eq in X.
      apply mem_false in Missing. apply Missing. rewrite <- X.
      unfold keys. apply in_map. exact Hc. }
    rewrite X, andb_false_r. reflexivity.
  - intros L Fresh. unfold insert_message. cbn [policy_with_check bind].
    rewrite L, Fresh, Missing. reflexivity.
Qed.

Lemma message_to_missing_conversation_witness :
  let lost : Messages.row :=
    {| Messages.id := 22; Messages.conversation_id := 99;
       Messages.sender_id := Example.alice; Messages.content := "anyone there";
       Messages.is_read := None; Messages.created_at := None |} in
  insert_message (authenticated Example.alice) lost Example.chat
  = Err (insufficient_privilege "messages")
  /\ insert_message service_role lost Example.chat
     = Err (foreign_key_violation "messages_conversation_id_fkey").
Proof.
  intros lost.
  destruct (message_to_missing_conversation lost Example.chat eq_refl) as [H1 H2].
  split; [apply H1 | apply H2; reflexivity].
Defined.

(** ** Cascades of posts and of comments *)

(** The rows that the deletion of posts leaves name no deleted post. *)
Lemma delete_posts_where_left_references doomed db :
  let dead := keys Posts.id (filter doomed (posts db)) in
  let db' := delete_posts_where doomed db in
  (forall l, In l (likes db') -> mem (Likes.post_id l) dead = false)
  /\ (forall c, In c (comments db') -> mem (Comments.post_id c) dead = false)
  /\ (forall n, In n (notifications db') -> opt_mem (Notifications.post_id n) dead = false).
Proof.
  intros dead db'. subst db'. unfold delete_posts_where. fold dead.
  split; [| split]; intros r Hr.
  - apply delete_notifications_where_shrunk in Hr.
    apply delete_comments_where_shrunk in Hr.
    apply delete_likes_where_left in Hr. exact Hr.
  - apply delete_notifications_where_shrunk in Hr.
    apply delete_comments_where_left in Hr. exact Hr.
  - apply delete_notifications_where_left in Hr. exact Hr.
Qed.

Lemma exec_reachable (db : DB) (who : role) (e : env) (s : statement) :
  reachable db -> reachable (commit db (exec who e s db)).
Proof.
  intros R. destruct (exec who e s db) as [db' |] eqn:E; simpl; [| exact R].
  exact (reachable_step db db' who e s R E).
Qed.

(** X7. In a reachable state, the owner's DELETE of a post removes the
    post and, by cascade, every like and comment of it and every
    notification about it, whoever wrote them; profiles, follows,
    conversations and messages are untouched, no table gains a row, and
    every foreign key still resolves. *)
Theorem owner_delete_post_cascades (db : DB) (r : Posts.row) :
  reachable db ->
  In r (posts db) ->
  let db' := delete_posts (authenticated (Posts.user_id r))
               (fun x => Posts.id x =? Posts.id r) db in
  post_unreferenced (Posts.id r) db' = true
  /\ profiles db' = profiles db
  /\ follows db' = follows db
  /\ conversations db' = conversations db
  /\ messages db' = messages db
  /\ shrunk db' db
  /\ foreign_keys db' = true.
Proof.
  intros R Hr. cbv zeta.
  destruct (reachable_primary_keys db R) as [_ [K _]].
  set (doomed := fun x : Posts.row =>
         (Posts.id x =? Posts.id r)
         && policy_using (authenticated (Posts.user_id r))
              (fun uid => Posts.posts_are_viewable_by_authenticated_users uid x)
         && policy_using (authenticated (Posts.user_id r))
              (fun uid => Posts.users_can_delete_their_own_posts uid x)).
  assert (E : delete_posts (authenticated (Posts.user_id r))
                (fun x => Posts.id x =? Posts.id r) db
              = delete_posts_where doomed db) by reflexivity.
  assert (Dr : doomed r = true).
  { unfold doomed. cbn. unfold Posts.users_can_delete_their_own_posts.
    rewrite !N.eqb_refl. reflexivity. }
  assert (Dead : mem (Posts.id r) (keys Posts.id (filter doomed (posts db))) = true).
  { apply mem_In. unfold keys. apply in_map. apply filter_In. auto. }
  destruct (delete_posts_where_left_references doomed db) as [Ll [Lc Ln]].
  destruct (delete_posts_where_frame doomed db) as [_ [Fp [Fposts [Ff [Fc Fm]]]]].
  rewrite E.
  split; [| split; [exact Fp | split; [exact Ff | split; [exact Fc |
            split; [exact Fm | split]]]]].
  - unfold post_unreferenced. rewrite !andb_true_iff, !forallb_forall.
    repeat split; intros x Hx.
    + rewrite Fposts in Hx. apply In_keep in Hx. destruct Hx as [Hx Dx].
      apply negb_true_iff, N.eqb_neq. intros Ex.
      rewrite (same_key_same_row N.eqb Posts.id _ N.eqb_eq K x r Hx Hr Ex) in Dx.
      congruence.
    + exact (not_the_dead _ _ _ Dead (Ll x Hx)).
    + exact (not_the_dead _ _ _ Dead (Lc x Hx)).
    + specialize (Ln x Hx). destruct (Notifications.post_id x) as [p |]; [| reflexivity].
      exact (not_the_dead _ _ _ Dead Ln).
  - apply delete_posts_where_shrunk.
  - apply reachable_foreign_keys. rewrite <- E.
    exact (exec_reachable db (authenticated (Posts.user_id r)) Example.clock
             (DELETE_posts (fun x => Posts.id x =? Posts.id r)) R).
Qed.

Lemma owner_delete_post_cascades_witness :
  let db' := delete_posts (authenticated Example.alice) (fun x => Posts.id x =? 30)
               Scenario.busy in
  post_unreferenced 30 db' = true
  /\ comments db' = []
  /\ likes db' = []
  /\ notifications db' = []
  /\ messages db' = messages Scenario.busy.
Proof.
  intros db'.
  destruct (owner_delete_post_cascades Scenario.busy Scenario.the_post busy_reachable
              (or_introl eq_refl)) as [H1 [_ [_ [_ [H2 _]]]]].
  split; [exact H1 |]. split; [reflexivity |]. split; [reflexivity |].
  split; [reflexivity | exact H2].
Defined.

(** X8. In a reachable state, the author's DELETE of a comment removes the
    comment and every reply under it, at any depth and whoever wrote it. *)
Theorem delete_comment_removes_thread (db : DB) (c : Comments.row) :
  reachable db ->
  In c (comments db) ->
  let db' := delete_comments (authenticated (Comments.user_id c))
               (fun x => Comments.id x =? Comments.id c) db in
  ~ In c (comments db')
  /\ (forall r, reply_under (comments db) c r -> ~ In r (comments db')).
Proof.
  intros R Hc. cbv zeta.
  destruct (reachable_primary_keys db R) as [_ [_ [_ [K _]]]].
  set (doomed := fun x : Comments.row =>
         (Comments.id x =? Comments.id c)
         && policy_using (authenticated (Comments.user_id c))
              (fun uid => Comments.comments_are_viewable_by_authenticated_users uid x)
         && policy_using (authenticated (Comments.user_id c))
              (fun uid => Comments.users_can_delete_their_own_comments uid x)).
  assert (E : delete_comments (authenticated (Comments.user_id c))
                (fun x => Comments.id x =? Comments.id c) db
              = delete_comments_where doomed db) by reflexivity.
  destruct (delete_comments_where_leaves doomed db) as [dead [live [El [I [C1 C3]]]]].
  rewrite E, El. cbn [comments with_notifications with_comments].
  assert (Dc : doomed c = true).
  { unfold doomed. cbn. unfold Comments.users_can_delete_their_own_comments.
    rewrite !N.eqb_refl. reflexivity. }
  assert (Gone : ~ In c live).
  { intros H. apply I in H. apply In_keep in H. destruct H as [_ H]. congruence. }
  assert (Dead : forall x, In x (comments db) -> ~ In x live -> In (Comments.id x) dead).
  { intros x Hx Nx.
    destruct (C3 (Comments.id x)) as [H | H]; [unfold keys; apply in_map; exact Hx | | exact H].
    exfalso. unfold keys in H. apply in_map_iff in H. destruct H as [y [Ey Hy]].
    assert (Hy' : In y (comments db)).
    { apply I in Hy. apply In_keep in Hy. tauto. }
    rewrite (same_key_same_row N.eqb Comments.id _ N.eqb_eq K y x Hy' Hx Ey) in Hy.
    exact (Nx Hy). }
  assert (Under : forall p r, In p (comments db) -> ~ In p live ->
                              Comments.parent_id r = Some (Comments.id p) -> ~ In r live).
  { intros p r Hp Np Er Hr. specialize (C1 r Hr). rewrite opt_mem_false in C1.
    exact (C1 _ Er (Dead p Hp Np)). }
  split; [exact Gone |].
  assert (Both : forall r, reply_under (comments db) c r ->
                           In r (comments db) /\ ~ In r live).
  { induction 1 as [r Hr Er | r' r _ [Hr' Nr'] Hr Er].
    - split; [exact Hr | exact (Under c r Hc Gone Er)].
    - split; [exact Hr | exact (Under r' r Hr' Nr' Er)]. }
  intros r Hr. exact (proj2 (Both r Hr)).
Qed.

Lemma delete_comment_removes_thread_witness :
  let db' := delete_comments (authenticated Example.bob) (fun x => Comments.id x =? 60)
               Scenario.busy in
  Comments.user_id Scenario.last_comment = Example.carol
  /\ In Scenario.last_comment (comments Scenario.busy)
  /\ ~ In Scenario.last_comment (comments db').
Proof.
  intros db'.
  destruct (delete_comment_removes_thread Scenario.busy Scenario.first_comment
              busy_reachable (or_intror (or_intror (or_introl eq_refl)))) as [_ H].
  split; [reflexivity |]. split; [left; reflexivity |].
  apply H.
  apply (reply_to_reply _ _
           (Comments.new Example.clock
              (Scenario.comment 61 Example.alice (Some 60) "thanks"))).
  - apply reply_to; [right; left; reflexivity | reflexivity].
  - left. reflexivity.
  - reflexivity.
Defined.

(** ** Statements no policy lets through *)

Lemma keep_nothing {R : Type} (doomed : R -> bool) (l : list R) :
  (forall r, doomed r = false) -> keep doomed l = l.
Proof.
  intros H. unfold keep. induction l as [| x l IH]; simpl; [reflexivity |].
  rewrite (H x), IH. reflexivity.
Qed.

Lemma filter_nothing {R : Type} (doomed : R -> bool) (l : list R) :
  (forall r, doomed r = false) -> filter doomed l = [].
Proof.
  intros H. induction l as [| x l IH]; simpl; [reflexivity |].
  rewrite (H x). exact IH.
Qed.

Lemma delete_messages_where_nothing doomed db :
  (forall r, doomed r = false) -> delete_messages_where doomed db = db.
Proof.
  intros H. unfold delete_messages_where. rewrite (keep_nothing _ _ H).
  destruct db; reflexivity.
Qed.

Lemma delete_conversations_where_nothing doomed db :
  (forall r, doomed r = false) -> delete_conversations_where doomed db = db.
Proof.
  intros H. unfold delete_conversations_where.
  rewrite (keep_nothing _ _ H), (filter_nothing _ _ H).
  rewrite delete_messages_where_nothing; [destruct db; reflexivity | reflexivity].
Qed.

Lemma delete_notifications_where_nothing doomed db :
  (forall r, doomed r = false) -> delete_notifications_where doomed db = db.
Proof.
  intros H. unfold delete_notifications_where. rewrite (keep_nothing _ _ H).
  destruct db; reflexivity.
Qed.

Lemma delete_likes_where_nothing doomed db :
  (forall r, doomed r = false) -> delete_likes_where doomed db = db.
Proof.
  intros H. unfold delete_likes_where. rewrite (keep_nothing _ _ H).
  destruct db; reflexivity.
Qed.

Lemma delete_follows_where_nothing doomed db :
  (forall r, doomed r = false) -> delete_follows_where doomed db = db.
Proof.
  intros H. unfold delete_follows_where. rewrite (keep_nothing _ _ H).
  destruct db; reflexivity.
Qed.

Lemma cascade_replies_nothing rounds live :
  cascade_replies rounds [] live = ([], live).
Proof.
  destruct rounds as [| n]; [reflexivity |]. cbn [cascade_replies].
  rewrite filter_nothing; [reflexivity |].
  intros c. destruct (Comments.parent_id c); reflexivity.
Qed.

Lemma delete_comments_where_nothing doomed db :
  (forall r, doomed r = false) -> delete_comments_where doomed db = db.
Proof.
  intros H. unfold delete_comments_where.
  rewrite (keep_nothing _ _ H), (filter_nothing _ _ H). cbn [keys map].
  rewrite cascade_replies_nothing.
  rewrite delete_notifications_where_nothing.
  - destruct db; reflexivity.
  - intros n. destruct (Notifications.comment_id n); reflexivity.
Qed.

Lemma delete_posts_where_nothing doomed db :
  (forall r, doomed r = false) -> delete_posts_where doomed db = db.
Proof.
  intros H. unfold delete_posts_where.
  rewrite (keep_nothing _ _ H), (filter_nothing _ _ H). cbn [keys map].
  rewrite delete_likes_where_nothing by reflexivity.
  rewrite delete_comments_where_nothing by reflexivity.
  rewrite delete_notifications_where_nothing.
  - destruct db; reflexivity.
  - intros n. destruct (Notifications.post_id n); reflexivity.
Qed.

Lemma delete_profiles_where_nothing doomed db :
  (forall r, doomed r = false) -> delete_profiles_where doomed db = db.
Proof.
  intros H. unfold delete_profiles_where.
  rewrite (keep_nothing _ _ H), (filter_nothing _ _ H). cbn [keys map].
  rewrite delete_posts_where_nothing by reflexivity.
  rewrite delete_likes_where_nothing by reflexivity.
  rewrite delete_comments_where_nothing by reflexivity.
  rewrite delete_follows_where_nothing by reflexivity.
  rewrite delete_conversations_where_nothing by reflexivity.
  rewrite delete_messages_where_nothing by reflexivity.
  rewrite delete_notifications_where_nothing by reflexivity.
  destruct db; reflexivity.
Qed.


(** ** The timestamp of the last change *)

Lemma In_new_replace_row {R : Type} (key : R -> uuid) (target : uuid) (new old : R)
    (l : list R) :
  find_row key target l = Some old -> In new (replace_row key target new l).
Proof.
  intros F. apply find_row_In in F. destruct F as [H E].
  unfold replace_row. apply in_map_iff. exists old. rewrite E, N.eqb_refl. auto.
Qed.

(** X10. After a successful UPDATE of a profile, a post or a comment,
    by any role and with any SET list, every row of the table is a row
    that was there before or carries updated_at equal to the instant of the
    statement: a written row never keeps the updated_at its SET list
    gave. *)
Theorem update_stamps_updated_at (who : role) (e : env) (target : uuid) (db db' : DB) :
  (forall set r,
      update_profile who e target set db = Ok db' ->
      In r (profiles db') ->
      In r (profiles db) \/ Profiles.updated_at r = Some (now e))
  /\ (forall set r,
         update_post who e target set db = Ok db' ->
         In r (posts db') ->
         In r (posts db) \/ Posts.updated_at r = Some (now e))
  /\ (forall set r,
         update_comment who e target set db = Ok db' ->
         In r (comments db') ->
         In r (comments db) \/ Comments.updated_at r = Some (now e)).
Proof.
  split; [| split]; intros set r H Hr.
  - unfold update_profile in H.
    destruct (find_row _ _ _) as [old |]; [| injection H as <-; auto].
    destruct (_ && _); [| injection H as <-; auto].
    cbv zeta in H. passed H. injection H as <-. cbn [profiles with_profiles] in Hr.
    apply In_replace_row in Hr. destruct Hr as [-> | Hr]; [right; reflexivity |].
    left. unfold others in Hr. apply filter_In in Hr. tauto.
  - unfold update_post in H.
    destruct (find_row _ _ _) as [old |]; [| injection H as <-; auto].
    destruct (_ && _); [| injection H as <-; auto].
    cbv zeta in H. passed H. injection H as <-. cbn [posts with_posts] in Hr.
    apply In_replace_row in Hr. destruct Hr as [-> | Hr]; [right; reflexivity |].
    left. unfold others in Hr. apply filter_In in Hr. tauto.
  - unfold update_comment in H.
    destruct (find_row _ _ _) as [old |]; [| injection H as <-; auto].
    destruct (_ && _); [| injection H as <-; auto].
    cbv zeta in H. passed H. injection H as <-. cbn [comments with_comments] in Hr.
    apply In_replace_row in Hr. destruct Hr as [-> | Hr]; [right; reflexivity |].
    left. unfold others in Hr. apply filter_In in Hr. tauto.
Qed.

Lemma update_stamps_updated_at_witness :
  Posts.updated_at
    (Posts.set_updated_at (Some 2000%Z) Scenario.the_post) = Some 2000%Z
  /\ (In (Posts.set_updated_at (Some 2000%Z) Scenario.the_post) (posts Scenario.busy)
      \/ Posts.updated_at (Posts.set_updated_at (Some 2000%Z) Scenario.the_post)
         = Some (now Example.later)).
Proof.
  split; [reflexivity |].
  refine (proj1 (proj2 (update_stamps_updated_at (authenticated Example.alice)
            Example.later 30 Scenario.busy
            (commit Scenario.busy
               (update_post (authenticated Example.alice) Example.later 30
                  (Posts.set_updated_at (Some 5%Z)) Scenario.busy))))
            (Posts.set_updated_at (Some 5%Z)) _ _ _).
  - reflexivity.
  - vm_compute. left. reflexivity.
Defined.

(** ** Rows of other users *)

Lemma In_cons_other {R : Type} (r new : R) (l : list R) :
  r <> new -> (In r (new :: l) <-> In r l).
Proof.
  intros N. split; [intros [E | H]; [congruence | exact H] | intros H; right; exact H].
Qed.

Lemma In_keep_other {R : Type} (doomed : R -> bool) (l : list R) (r : R) :
  doomed r = false -> (In r (keep doomed l) <-> In r l).
Proof. intros D. rewrite In_keep. tauto. Qed.

Lemma In_replace_row_other {R : Type} (key : R -> uuid) (target : uuid) (new old r : R)
    (l : list R) :
  distinct_by N.eqb (keys key l) = true ->
  find_row key target l = Some old ->
  r <> old -> r <> new ->
  (In r (replace_row key target new l) <-> In r l).
Proof.
  intros K F No Nn. apply find_row_In in F. destruct F as [Ho Eo]. split.
  - intros H. apply In_replace_row in H. destruct H as [E | H]; [congruence |].
    unfold others in H. apply filter_In in H. tauto.
  - intros H. unfold replace_row. apply in_map_iff. exists r. split; [| exact H].
    destruct (key r =? target) eqn:Q; [| reflexivity].
    apply N.eqb_eq in Q. exfalso. apply No.
    apply (same_key_same_row N.eqb key l N.eqb_eq K r old H Ho). congruence.
Qed.

Lemma not_the_owner (uid owner : uuid) : owner <> uid -> (uid =? owner) = false.
Proof. intros N. apply N.eqb_neq. congruence. Qed.

Lemma the_owner (uid owner : uuid) : (uid =? owner) = true -> owner = uid.
Proof. intros E. apply N.eqb_eq in E. congruence. Qed.

Ltac owned H :=
  cbv [policy_using
       Profiles.users_can_insert_their_own_profile
       Profiles.users_can_update_their_own_profile
       Posts.users_can_create_their_own_posts
       Posts.users_can_update_their_own_posts
       Follows.users_can_create_their_own_follows] in H;
  apply the_owner in H.

Ltac same_rows :=
  repeat match goal with |- _ /\ _ => split end; intros; apply iff_refl.

(** X11. In a reachable state, whatever statement an authenticated client
    runs on whatever table, the profiles, posts and follows that belong to
    other users are after it exactly the ones before it: none is added,
    changed or removed. *)
Theorem rows_of_others_untouched (uid : uuid) (e : env) (s : statement) (db db' : DB) :
  reachable db ->
  match s with CREATE_USER _ | DELETE_USER _ => False | _ => True end ->
  exec (authenticated uid) e s db = Ok db' ->
  (forall r, Profiles.id r <> uid -> (In r (profiles db') <-> In r (profiles db)))
  /\ (forall r, Posts.user_id r <> uid -> (In r (posts db') <-> In r (posts db)))
  /\ (forall r, Follows.follower_id r <> uid -> (In r (follows db') <-> In r (follows db))).
Proof.
  intros R C H.
  destruct (reachable_primary_keys db R) as [Kp [Kq [_ [_ [Kf _]]]]].
  assert (F : forall a b : bool, a && b && false = false).
  { intros a b. apply andb_false_r. }
  destruct s; try contradiction; cbn [exec] in H.
  - (* INSERT profiles *)
    unfold insert_profile in H. passed H. injection H as <-. projections.
    owned Pass.
    split; [| same_rows]. intros x N. apply In_cons_other. congruence.
  - (* UPDATE profiles *)
    unfold update_profile in H.
    destruct (find_row _ _ _) as [old |] eqn:Fo; [| injection H as <-; same_rows].
    destruct (_ && _) eqn:U; [| injection H as <-; same_rows].
    cbv zeta in H. passed H. injection H as <-. projections.
    owned Pass.
    apply andb_true_iff in U. destruct U as [_ U]. owned U.
    split; [| same_rows]. intros x N.
    apply (In_replace_row_other _ _ _ old); [exact Kp | exact Fo | congruence | congruence].
  - (* DELETE profiles *)
    injection H as <-. unfold delete_profiles.
    rewrite delete_profiles_where_nothing; [same_rows | intros x; apply F].
  - (* INSERT posts *)
    unfold insert_post in H. passed H. injection H as <-. projections.
    owned Pass.
    split; [same_rows | split; [| same_rows]]. intros x N. apply In_cons_other. congruence.
  - (* UPDATE posts *)
    unfold update_post in H.
    destruct (find_row _ _ _) as [old |] eqn:Fo; [| injection H as <-; same_rows].
    destruct (_ && _) eqn:U; [| injection H as <-; same_rows].
    cbv zeta in H. passed H. injection H as <-. projections.
    owned Pass.
    apply andb_true_iff in U. destruct U as [_ U]. owned U.
    split; [same_rows | split; [| same_rows]]. intros x N.
    apply (In_replace_row_other _ _ _ old); [exact Kq | exact Fo | congruence | congruence].
  - (* DELETE posts *)
    injection H as <-. unfold delete_posts.
    destruct (delete_posts_where_frame
                (fun r => cond r
                          && policy_using (authenticated uid)
                               (fun u => Posts.posts_are_viewable_by_authenticated_users u r)
                          && policy_using (authenticated uid)
                               (fun u => Posts.users_can_delete_their_own_posts u r)) db)
      as [_ [-> [-> [-> _]]]].
    split; [same_rows | split; [| same_rows]]. intros x N. apply In_keep_other.
    cbn [policy_using]. unfold Posts.users_can_delete_their_own_posts.
    rewrite (not_the_owner _ _ N). apply andb_false_r.
  - (* INSERT likes *)
    unfold insert_like in H. passed H. injection H as <-. same_rows.
  - (* UPDATE likes *)
    unfold update_like in H.
    destruct (find_row _ _ _) as [old |] eqn:Fo; [| injection H as <-; same_rows].
    destruct (_ && _) eqn:U; [| injection H as <-; same_rows].
    cbv zeta in H. passed H. injection H as <-. same_rows.
  - (* DELETE likes *)
    injection H as <-. same_rows.
  - (* INSERT comments *)
    unfold insert_comment in H. passed H. injection H as <-. same_rows.
  - (* UPDATE comments *)
    unfold update_comment in H.
    destruct (find_row _ _ _) as [old |] eqn:Fo; [| injection H as <-; same_rows].
    destruct (_ && _) eqn:U; [| injection H as <-; same_rows].
    cbv zeta in H. passed H. injection H as <-. same_rows.
  - (* DELETE comments *)
    injection H as <-. unfold delete_comments.
    match goal with
    | |- context [delete_comments_where ?d db] =>
        destruct (delete_comments_where_frame d db) as [_ [-> [-> [_ [-> _]]]]]
    end.
    same_rows.
  - (* INSERT follows *)
    unfold insert_follow in H. passed H. injection H as <-. projections.
    owned Pass.
    split; [same_rows | split; [same_rows |]]. intros x N. apply In_cons_other. congruence.
  - (* UPDATE follows *)
    unfold update_follow in H.
    destruct (find_row _ _ _) as [old |] eqn:Fo; [| injection H as <-; same_rows].
    cbn [policy_using no_policy] in H. rewrite andb_false_r in H.
    injection H as <-. same_rows.
  - (* DELETE follows *)
    injection H as <-. unfold delete_follows, delete_follows_where. projections.
    split; [same_rows | split; [same_rows |]]. intros x N. apply In_keep_other.
    cbn [policy_using]. unfold Follows.users_can_delete_their_own_follows.
    rewrite (not_the_owner _ _ N). apply andb_false_r.
  - (* INSERT conversations *)
    unfold insert_conversation in H. passed H. injection H as <-. same_rows.
  - (* UPDATE conversations *)
    unfold update_conversation in H.
    destruct (find_row _ _ _) as [old |] eqn:Fo; [| injection H as <-; same_rows].
    destruct (_ && _) eqn:U; [| injection H as <-; same_rows].
    cbv zeta in H. passed H. injection H as <-. same_rows.
  - (* DELETE conversations *)
    injection H as <-. same_rows.
  - (* INSERT messages *)
    unfold insert_message in H. passed H. injection H as <-. same_rows.
  - (* UPDATE messages *)
    unfold update_message in H.
    destruct (find_row _ _ _) as [old |] eqn:Fo; [| injection H as <-; same_rows].
    destruct (_ && _) eqn:U; [| injection H as <-; same_rows].
    cbv zeta in H. passed H. injection H as <-. same_rows.
  - (* DELETE messages *)
    injection H as <-. same_rows.
  - (* INSERT notifications *)
    unfold insert_notification in H. passed H. injection H as <-. same_rows.
  - (* UPDATE notifications *)
    unfold update_notification in H.
    destruct (find_row _ _ _) as [old |] eqn:Fo; [| injection H as <-; same_rows].
    destruct (_ && _) eqn:U; [| injection H as <-; same_rows].
    cbv zeta in H. passed H. injection H as <-. same_rows.
  - (* DELETE notifications *)
    injection H as <-. same_rows.
Qed.

Lemma rows_of_others_untouched_witness :
  In Scenario.the_post
     (posts (commit Scenario.busy
               (exec (authenticated Example.bob) Example.later
                     (DELETE_posts (fun _ => true)) Scenario.busy)))
  <-> In Scenario.the_post (posts Scenario.busy).
Proof.
  refine (proj1 (proj2 (rows_of_others_untouched Example.bob Example.later
                          (DELETE_posts (fun _ => true)) Scenario.busy _
                          busy_reachable I _)) Scenario.the_post _).
  - reflexivity.
  - vm_compute. discriminate.
Defined.

(** ** The messages page *)

Lemma find_row_the_row {R : Type} (key : R -> uuid) (l : list R) (r : R) :
  distinct_by N.eqb (keys key l) = true -> In r l -> find_row key (key r) l = Some r.
Proof.
  intros K Hr. destruct (find_row key (key r) l) as [old |] eqn:F.
  - apply find_row_In in F. destruct F as [Ho Eo]. f_equal.
    exact (same_key_same_row N.eqb key l N.eqb_eq K old r Ho Hr Eo).
  - unfold find_row in F. pose proof (find_none _ _ F r Hr) as Q.
    cbn beta in Q. rewrite N.eqb_refl in Q. discriminate.
Qed.

Lemma absent_from_others {R : Type} (key : R -> uuid) (t : uuid) (l : list R) :
  mem t (keys key (others key t l)) = false.
Proof.
  apply mem_false. intros H. unfold keys, others in H.
  apply in_map_iff in H. destruct H as [x [E H]]. apply filter_In in H.
  destruct H as [_ Q]. rewrite E, N.eqb_refl in Q. discriminate.
Qed.

Lemma replace_row_of_the_row {R : Type} (key : R -> uuid) (f : R -> R) (l : list R) (r : R) :
  distinct_by N.eqb (keys key l) = true -> In r l ->
  replace_row key (key r) (f r) l = map (fun x => if key x =? key r then f x else x) l.
Proof.
  intros K Hr. unfold replace_row. apply map_ext_in. intros x Hx.
  destruct (key x =? key r) eqn:Q; [| reflexivity].
  apply N.eqb_eq in Q.
  rewrite (same_key_same_row N.eqb key l N.eqb_eq K x r Hx Hr Q). reflexivity.
Qed.

Lemma filter_none {R : Type} (f : R -> bool) (l : list R) :
  (forall x, In x l -> f x = false) -> filter f l = [].
Proof.
  induction l as [| x l IH]; intros H; [reflexivity |]. cbn [filter].
  rewrite (H x (or_introl eq_refl)). apply IH. intros y Hy. apply H. right. exact Hy.
Qed.

Lemma mem_key_of_filter {R : Type} (key : R -> uuid) (cond : R -> bool) (l : list R) (x : R) :
  distinct_by N.eqb (keys key l) = true -> In x l ->
  mem (key x) (keys key (filter cond l)) = cond x.
Proof.
  intros K Hx. destruct (cond x) eqn:C.
  - apply mem_In. unfold keys. apply in_map. apply filter_In. auto.
  - apply mem_false. intros H. unfold keys in H. apply in_map_iff in H.
    destruct H as [y [E Hy]]. apply filter_In in Hy. destruct Hy as [Hy Cy].
    rewrite (same_key_same_row N.eqb key l N.eqb_eq K y x Hy Hx E) in Cy. congruence.
Qed.

Lemma with_messages_twice (a b : list Messages.row) (db : DB) :
  with_messages a (with_messages b db) = with_messages a db.
Proof. reflexivity. Qed.

Lemma with_messages_same (db : DB) : with_messages (messages db) db = db.
Proof. destruct db; reflexivity. Qed.

(** One row of the UPDATE of markMessagesAsRead, as a participant. *)
Lemma mark_one_message (me : uuid) (db : DB) (c : Conversations.row) (m : Messages.row) :
  reachable db ->
  In c (conversations db) ->
  me = Conversations.user1_id c \/ me = Conversations.user2_id c ->
  In m (messages db) ->
  Messages.conversation_id m = Conversations.id c ->
  update_message (authenticated me) (Messages.id m) MessagesPage.is_read_true db
  = Ok (with_messages
          (map (fun x => if Messages.id x =? Messages.id m
                         then MessagesPage.is_read_true x else x)
               (messages db))
          db).
Proof.
  intros R Hc Hp Hm Em.
  destruct (reachable_primary_keys db R) as [_ [_ [_ [_ [_ [_ [Km _]]]]]]].
  destruct (reachable_checks db R) as [_ [_ [Lm _]]].
  pose proof (proj1 (foreign_keys_holds db) (reachable_foreign_keys db R)) as F.
  pose proof (F messages_conversation_id_fkey) as Fc.
  pose proof (F messages_sender_id_fkey) as Fs. cbn [holds] in Fc, Fs.
  unfold update_message. rewrite (find_row_the_row _ _ _ Km Hm).
  cbn [policy_using policy_with_check].
  unfold Messages.users_can_view_messages_in_their_conversations,
    Messages.users_can_update_their_own_messages.
  rewrite (in_conversation_of_participant _ c me m Hc Em Hp).
  rewrite (in_conversation_of_participant _ c me (MessagesPage.is_read_true m) Hc Em Hp).
  cbn [andb require bind]. cbv zeta.
  change (Messages.message_length (MessagesPage.is_read_true m))
    with (Messages.message_length m).
  rewrite (proj1 (forallb_forall _ _) Lm m Hm).
  change (Messages.id (MessagesPage.is_read_true m)) with (Messages.id m).
  rewrite absent_from_others.
  change (Messages.conversation_id (MessagesPage.is_read_true m))
    with (Messages.conversation_id m).
  rewrite (holds_In _ _ _ m Fc Hm).
  change (Messages.sender_id (MessagesPage.is_read_true m)) with (Messages.sender_id m).
  rewrite (holds_In _ _ _ m Fs Hm).
  cbn [negb require bind].
  rewrite (replace_row_of_the_row Messages.id MessagesPage.is_read_true _ m Km Hm).
  reflexivity.
Qed.

Lemma mark_each_message (me : uuid) (c : Conversations.row) (targets : list uuid) :
  forall db,
    reachable db ->
    In c (conversations db) ->
    me = Conversations.user1_id c \/ me = Conversations.user2_id c ->
    (forall t, In t targets ->
               exists m, In m (messages db) /\ Messages.id m = t
                         /\ Messages.conversation_id m = Conversations.id c) ->
    update_each (fun t => update_message (authenticated me) t MessagesPage.is_read_true)
      targets db
    = Ok (with_messages
            (map (fun x => if mem (Messages.id x) targets
                           then MessagesPage.is_read_true x else x)
                 (messages db))
            db).
Proof.
  induction targets as [| t rest IH]; intros db R Hc Hp Ht.
  - cbn [update_each mem existsb]. rewrite map_id, with_messages_same. reflexivity.
  - cbn [update_each].
    destruct (Ht t (or_introl eq_refl)) as [m [Hm [Et Em]]]. subst t.
    pose proof (mark_one_message me db c m R Hc Hp Hm Em) as S.
    rewrite S. cbn [bind].
    rewrite IH.
    + rewrite with_messages_twice. cbn [messages with_messages].
      rewrite map_map. f_equal. f_equal. apply map_ext. intros x.
      cbn [mem existsb]. fold (mem (Messages.id x) rest).
      destruct (Messages.id x =? Messages.id m); cbn [orb].
      * change (Messages.id (MessagesPage.is_read_true x)) with (Messages.id x).
        destruct (mem (Messages.id x) rest); reflexivity.
      * reflexivity.
    + exact (reachable_step db _ (authenticated me) Example.clock
               (UPDATE_messages (Messages.id m) MessagesPage.is_read_true) R S).
    + exact Hc.
    + exact Hp.
    + intros t Hin. destruct (Ht t (or_intror Hin)) as [x [Hx [Ex Cx]]].
      exists (if Messages.id x =? Messages.id m then MessagesPage.is_read_true x else x).
      cbn [messages with_messages]. split; [| split].
      * apply (in_map (fun x => if Messages.id x =? Messages.id m
                                then MessagesPage.is_read_true x else x)). exact Hx.
      * destruct (Messages.id x =? Messages.id m); exact Ex.
      * destruct (Messages.id x =? Messages.id m); exact Cx.
Qed.

(** X12. In a reachable state, when a participant of a conversation opens
    it, markMessagesAsRead sets is_read on exactly the messages of that
    conversation the other side sent, and changes nothing else in the
    database; the unread count the page then shows for the conversation
    is 0. *)
Theorem markMessagesAsRead_marks_the_others_messages (db : DB) (me : uuid)
    (c : Conversations.row) :
  reachable db ->
  In c (conversations db) ->
  me = Conversations.user1_id c \/ me = Conversations.user2_id c ->
  let db' := MessagesPage.markMessagesAsRead (Some me) (Conversations.id c) db in
  db' = with_messages
          (map (fun m => if (Messages.conversation_id m =? Conversations.id c)
                            && negb (Messages.sender_id m =? me)
                         then MessagesPage.is_read_true m else m)
               (messages db))
          db
  /\ MessagesPage.unread_count me (Conversations.id c) db' = 0%nat.
Proof.
  intros R Hc Hp. cbv zeta.
  destruct (reachable_primary_keys db R) as [_ [_ [_ [_ [_ [_ [Km _]]]]]]].
  assert (E : MessagesPage.markMessagesAsRead (Some me) (Conversations.id c) db
              = with_messages
                  (map (fun m => if (Messages.conversation_id m =? Conversations.id c)
                                    && negb (Messages.sender_id m =? me)
                                 then MessagesPage.is_read_true m else m)
                       (messages db))
                  db).
  { unfold MessagesPage.markMessagesAsRead, update_messages.
    rewrite (mark_each_message me c _ db R Hc Hp).
    - cbn [commit]. f_equal. apply map_ext_in. intros x Hx.
      rewrite (mem_key_of_filter Messages.id _ _ x Km Hx). reflexivity.
    - intros t Ht. unfold keys in Ht. apply in_map_iff in Ht.
      destruct Ht as [m [Et Hm]]. apply filter_In in Hm. destruct Hm as [Hm Q].
      exists m. split; [exact Hm | split; [exact Et |]].
      apply andb_true_iff in Q. destruct Q as [Q _]. apply N.eqb_eq in Q. exact Q. }
  split; [exact E |]. rewrite E.
  unfold MessagesPage.unread_count, select_messages. cbn [messages with_messages].
  rewrite filter_none; [reflexivity |].
  intros y Hy. apply filter_In in Hy. destruct Hy as [Hy _].
  apply in_map_iff in Hy. destruct Hy as [x [<- _]].
  destruct ((Messages.conversation_id x =? Conversations.id c)
            && negb (Messages.sender_id x =? me)) eqn:Q.
  - cbn [Messages.is_read MessagesPage.is_read_true eq_opt Bool.eqb].
    rewrite andb_false_r. reflexivity.
  - destruct (Messages.conversation_id x =? Conversations.id c);
      destruct (negb (Messages.sender_id x =? me));
      cbn [andb] in *; try reflexivity; try discriminate.
    apply andb_false_r.
Qed.

Lemma markMessagesAsRead_marks_the_others_messages_witness :
  MessagesPage.unread_count Example.alice 10 Scenario.busy = 1%nat
  /\ MessagesPage.unread_count Example.alice 10
       (MessagesPage.markMessagesAsRead (Some Example.alice) 10 Scenario.busy) = 0%nat.
Proof.
  split; [reflexivity |].
  refine (proj2 (markMessagesAsRead_marks_the_others_messages Scenario.busy Example.alice
                   Example.the_conversation busy_reachable _ _)).
  - vm_compute. left. reflexivity.
  - left. reflexivity.
Defined.

Lemma filter_of_filter {R : Type} (f g : R -> bool) (l : list R) :
  filter f (filter g l) = filter (fun x => g x && f x) l.
Proof.
  induction l as [| x l IH]; [reflexivity |]. cbn [filter].
  destruct (g x); cbn [filter andb]; rewrite IH; reflexivity.
Qed.

Lemma the_only_row {R : Type} (f : R -> bool) (l : list R) (c : R) :
  (List.length (filter f l) <= 1)%nat -> In c l -> f c = true -> filter f l = [c].
Proof.
  intros L Hc Fc. assert (H : In c (filter f l)) by (apply filter_In; auto).
  destruct (filter f l) as [| x [| y rest]]; [contradiction | | cbn in L; lia].
  destruct H as [-> | []]. reflexivity.
Qed.

Lemma between_swap (A B : uuid) (c : Conversations.row) : between A B c = between B A c.
Proof. unfold between. apply orb_comm. Qed.

Lemma between_participant (A B : uuid) (c : Conversations.row) :
  between A B c = true -> Conversations.users_can_view_their_own_conversations A c = true.
Proof.
  unfold between, Conversations.users_can_view_their_own_conversations.
  rewrite !orb_true_iff, !andb_true_iff, !N.eqb_eq. intros [[H _] | [_ H]]; auto.
Qed.

(** The query of startConversation finds the conversation of the pair. *)
Lemma the_conversation_between (db : DB) (A B : uuid) (c : Conversations.row) :
  reachable db -> In c (conversations db) -> between A B c = true ->
  filter (between A B) (select_conversations (authenticated A) db) = [c].
Proof.
  intros R Hc Bc. destruct (reachable_unique_keys db R) as [_ [_ [U _]]].
  unfold select_conversations. rewrite filter_of_filter.
  apply the_only_row.
  - apply (at_most_one_row pair_eqb Conversations.conversations_users_idx); [| exact U].
    intros x y Fx Fy. apply andb_true_iff in Fx, Fy.
    rewrite (between_users_idx A B x (proj2 Fx)), (between_users_idx A B y (proj2 Fy)).
    apply pair_eqb_eq. reflexivity.
  - exact Hc.
  - cbn [policy_using]. rewrite (between_participant A B c Bc), Bc. reflexivity.
Qed.

Lemma maybeSingle_Some {A : Type} (rows : list A) (x : A) :
  MessagesPage.maybeSingle rows = Some x -> rows = [x].
Proof.
  destruct rows as [| a [| b rest]]; cbn; intros H; try discriminate.
  injection H as <-. reflexivity.
Qed.

(** X13. In a reachable state, when startConversation selects a
    conversation, it is one between the user and the other user that the
    table holds; starting the conversation again, from either of the two
    sides, selects the same row and writes nothing. *)
Theorem startConversation_again_finds_it (e1 e2 : env) (me otherUser : uuid)
    (db db1 : DB) (c : Conversations.row) :
  reachable db ->
  MessagesPage.startConversation e1 (Some me) otherUser db = (db1, Some c) ->
  In c (conversations db1)
  /\ between me otherUser c = true
  /\ MessagesPage.startConversation e2 (Some me) otherUser db1 = (db1, Some c)
  /\ MessagesPage.startConversation e2 (Some otherUser) me db1 = (db1, Some c).
Proof.
  intros R H.
  assert (K : reachable db1 /\ In c (conversations db1) /\ between me otherUser c = true).
  { unfold MessagesPage.startConversation in H.
    destruct (MessagesPage.maybeSingle _) as [existingConv |] eqn:M.
    - injection H as <- <-. apply maybeSingle_Some in M.
      assert (Hc : In existingConv
                     (filter (between me otherUser)
                        (select_conversations (authenticated me) db))).
      { unfold between. rewrite M. left. reflexivity. }
      apply filter_In in Hc. destruct Hc as [Hc Bc].
      unfold select_conversations in Hc. apply filter_In in Hc. tauto.
    - cbv zeta in H.
      destruct (insert_conversation _ _ db) as [db' | err] eqn:I; [| discriminate].
      injection H as <- <-. split; [| split].
      + exact (reachable_step db db' (authenticated me) e1 (INSERT_conversations _) R I).
      + unfold insert_conversation in I. passed I. injection I as <-.
        cbn [conversations with_conversations]. left. reflexivity.
      + unfold between. cbn [Conversations.new Conversations.user1_id
                               Conversations.user2_id Conversations.ins_user1_id
                               Conversations.ins_user2_id].
        rewrite !N.eqb_refl. reflexivity. }
  destruct K as [R1 [Hc Bc]]. split; [exact Hc | split; [exact Bc |]].
  pose proof (the_conversation_between db1 me otherUser c R1 Hc Bc) as Q1.
  rewrite between_swap in Bc.
  pose proof (the_conversation_between db1 otherUser me c R1 Hc Bc) as Q2.
  unfold between in Q1, Q2. unfold MessagesPage.startConversation.
  rewrite Q1, Q2. split; reflexivity.
Qed.

Lemma startConversation_again_finds_it_witness :
  MessagesPage.startConversation Example.later (Some Example.carol) Example.alice
    (fst (MessagesPage.startConversation Example.clock (Some Example.alice) Example.carol
            Scenario.busy))
  = MessagesPage.startConversation Example.clock (Some Example.alice) Example.carol
      Scenario.busy
  /\ List.length (conversations
                    (fst (MessagesPage.startConversation Example.clock (Some Example.alice)
                            Example.carol Scenario.busy))) = 2%nat.
Proof.
  split; [| reflexivity].
  refine (proj2 (proj2 (proj2 (startConversation_again_finds_it Example.clock Example.later
                   Example.alice Example.carol Scenario.busy _ _ busy_reachable _)))).
  reflexivity.
Defined.

Lemma in_conversation_of_last_message_at (convs : list Conversations.row)
    (f : Conversations.row -> Conversations.row) (uid : uuid) (m : Messages.row) :
  (forall c, Conversations.id (f c) = Conversations.id c
             /\ Conversations.user1_id (f c) = Conversations.user1_id c
             /\ Conversations.user2_id (f c) = Conversations.user2_id c) ->
  Messages.in_conversation_of (map f convs) uid m = Messages.in_conversation_of convs uid m.
Proof.
  intros H. unfold Messages.in_conversation_of.
  induction convs as [| c convs IH]; [reflexivity |]. cbn [map existsb].
  destruct (H c) as [-> [-> ->]]. rewrite IH. reflexivity.
Qed.

Lemma participants_have_profiles (db : DB) (c : Conversations.row) :
  reachable db -> In c (conversations db) ->
  mem (Conversations.user1_id c) (keys Profiles.id (profiles db)) = true
  /\ mem (Conversations.user2_id c) (keys Profiles.id (profiles db)) = true.
Proof.
  intros R Hc.
  pose proof (proj1 (foreign_keys_holds db) (reachable_foreign_keys db R)) as F.
  pose proof (F conversations_user1_id_fkey) as F1.
  pose proof (F conversations_user2_id_fkey) as F2. cbn [holds] in F1, F2.
  split; [exact (holds_In _ _ _ c F1 Hc) | exact (holds_In _ _ _ c F2 Hc)].
Qed.



(** ** The like button *)

Lemma keep_nothing_of {R : Type} (doomed : R -> bool) (l : list R) :
  (forall r, In r l -> doomed r = false) -> keep doomed l = l.
Proof.
  intros H. unfold keep. induction l as [| x l IH]; [reflexivity |]. cbn [filter].
  rewrite (H x (or_introl eq_refl)). cbn [negb]. f_equal.
  apply IH. intros r Hr. apply H. right. exact Hr.
Qed.

Lemma with_likes_same (db : DB) : with_likes (likes db) db = db.
Proof. destruct db; reflexivity. Qed.

(** X15. In a reachable state, a user who likes another user's post and
    then takes the like back leaves the likes as they were, but the
    notification the like sent stays with the owner of the post: the
    DELETE that handleLike issues for it, as the actor, removes nothing. *)
Theorem unlike_leaves_the_notification (e1 e2 e3 e4 : env) (me : uuid) (p : Posts.row)
    (post0 post1 : PostCard.Post) (db : DB) :
  reachable db ->
  In p (posts db) ->
  mem me (keys Profiles.id (profiles db)) = true ->
  me <> Posts.user_id p ->
  existsb (pair_eqb (me, Posts.id p)) (map Likes.user_id_post_id (likes db)) = false ->
  mem (gen_random_uuid e1) (keys Likes.id (likes db)) = false ->
  mem (gen_random_uuid e2) (keys Notifications.id (notifications db)) = false ->
  PostCard.id post0 = Posts.id p /\ PostCard.user_id post0 = Posts.user_id p ->
  PostCard.id post1 = Posts.id p /\ PostCard.user_id post1 = Posts.user_id p ->
  PostCard.isLiked (Some me) post0 = false ->
  PostCard.isLiked (Some me) post1 = true ->
  let sent := Notifications.new e2 (PostCard.notification_of me post0) in
  let db1 := PostCard.handleLike e1 e2 (Some me) false post0 db in
  let db2 := PostCard.handleLike e3 e4 (Some me) false post1 db1 in
  db1 = with_notifications (sent :: notifications db)
          (with_likes (Likes.new e1 (PostCard.like_of me post0) :: likes db) db)
  /\ db2 = with_notifications (sent :: notifications db) db
  /\ In sent (select_notifications (authenticated (Posts.user_id p)) db2).
Proof.
  intros R Hp Pm Ne Nl K1 K2 [I0 O0] [I1 O1] L0 L1. cbv zeta.
  pose proof (proj1 (foreign_keys_holds db) (reachable_foreign_keys db R)) as F.
  pose proof (F posts_user_id_fkey) as Fo. cbn [holds] in Fo.
  pose proof (holds_In _ _ _ p Fo Hp) as Po.
  assert (Mp : mem (Posts.id p) (keys Posts.id (posts db)) = true).
  { apply mem_In. unfold keys. apply in_map. exact Hp. }
  assert (Q : (me =? Posts.user_id p) = false) by (apply N.eqb_neq; exact Ne).
  assert (E1 : PostCard.handleLike e1 e2 (Some me) false post0 db
               = with_notifications
                   (Notifications.new e2 (PostCard.notification_of me post0)
                      :: notifications db)
                   (with_likes (Likes.new e1 (PostCard.like_of me post0) :: likes db) db)).
  { unfold PostCard.handleLike. rewrite L0.
    unfold insert_like. cbn [policy_with_check].
    unfold Likes.users_can_create_their_own_likes.
    change (Likes.user_id_post_id (Likes.new e1 (PostCard.like_of me post0)))
      with (me, PostCard.id post0).
    cbn [Likes.new PostCard.like_of Likes.id Likes.user_id Likes.post_id Likes.ins_id
         Likes.ins_user_id Likes.ins_post_id or_default].
    rewrite N.eqb_refl, K1, I0, Nl, Pm, Mp. cbn [negb require bind commit].
    rewrite O0, Q. cbn [negb].
    unfold insert_notification. cbn [policy_with_check].
    unfold Notifications.users_can_create_notifications.
    cbn [Notifications.new PostCard.notification_of Notifications.id
         Notifications.user_id Notifications.actor_id Notifications.post_id
         Notifications.comment_id Notifications.ins_id Notifications.ins_user_id
         Notifications.ins_actor_id Notifications.ins_post_id
         Notifications.ins_comment_id or_default fk_opt
         notifications profiles posts comments with_likes].
    rewrite N.eqb_refl, K2, O0, Po, Pm, I0, Mp. reflexivity. }
  assert (E2 : forall likes1 notes1,
             likes1 = Likes.new e1 (PostCard.like_of me post0) :: likes db ->
             PostCard.handleLike e3 e4 (Some me) false post1
               (with_notifications notes1 (with_likes likes1 db))
             = with_notifications notes1 db).
  { intros likes1 notes1 ->. unfold PostCard.handleLike. rewrite L1.
    unfold delete_likes, delete_likes_where, delete_notifications,
      delete_notifications_where.
    cbn [likes notifications with_likes with_notifications policy_using].
    rewrite (keep_nothing _ notes1).
    - unfold keep. cbn [filter].
      unfold Likes.likes_are_viewable_by_authenticated_users,
        Likes.users_can_delete_their_own_likes.
      cbn [Likes.new PostCard.like_of Likes.user_id Likes.post_id Likes.ins_user_id
           Likes.ins_post_id].
      rewrite I0, I1, !N.eqb_refl. cbn [andb negb].
      fold (keep (fun r => (Likes.user_id r =? me) && (Likes.post_id r =? Posts.id p)
                           && true && (me =? Likes.user_id r)) (likes db)).
      rewrite keep_nothing_of.
      + rewrite <- (with_likes_same db) at 2. reflexivity.
      + intros l Hl.
        destruct ((Likes.user_id l =? me) && (Likes.post_id l =? Posts.id p)) eqn:C;
          [| reflexivity].
        apply andb_true_iff in C. destruct C as [Cu Cp].
        apply N.eqb_eq in Cu, Cp.
        assert (X : existsb (pair_eqb (me, Posts.id p))
                      (map Likes.user_id_post_id (likes db)) = true).
        { apply (existsb_key_of_row pair_eqb Likes.user_id_post_id _ l _ Hl).
          apply pair_eqb_eq. unfold Likes.user_id_post_id. congruence. }
        congruence.
    - intros n. unfold Notifications.users_can_view_their_own_notifications.
      rewrite O1.
      destruct (Notifications.user_id n =? Posts.user_id p) eqn:C.
      + apply N.eqb_eq in C. rewrite C, Q. cbn [andb].
        rewrite !andb_false_r. reflexivity.
      + reflexivity. }
  rewrite E1. rewrite (E2 _ _ eq_refl).
  split; [reflexivity |]. split; [reflexivity |].
  unfold select_notifications. cbn [notifications with_notifications filter policy_using].
  unfold Notifications.users_can_view_their_own_notifications.
  cbn [Notifications.new PostCard.notification_of Notifications.user_id
       Notifications.ins_user_id].
  rewrite O0, N.eqb_refl. left. reflexivity.
Qed.

Lemma unlike_leaves_the_notification_witness :
  PostCard.handleLike Example.later Example.later (Some Example.carol) false
    {| PostCard.id := 30; PostCard.user_id := Example.alice;
       PostCard.likes := [Example.carol; Example.bob] |}
    (PostCard.handleLike Example.clock Example.later (Some Example.carol) false
       {| PostCard.id := 30; PostCard.user_id := Example.alice;
          PostCard.likes := [Example.bob] |}
       Scenario.busy)
  = with_notifications
      (Notifications.new Example.later
         (PostCard.notification_of Example.carol
            {| PostCard.id := 30; PostCard.user_id := Example.alice;
               PostCard.likes := [Example.bob] |})
       :: notifications Scenario.busy)
      Scenario.busy.
Proof.
  refine (proj1 (proj2 (unlike_leaves_the_notification Example.clock Example.later
                   Example.later Example.later Example.carol Scenario.the_post
                   {| PostCard.id := 30; PostCard.user_id := Example.alice;
                      PostCard.likes := [Example.bob] |}
                   {| PostCard.id := 30; PostCard.user_id := Example.alice;
                      PostCard.likes := [Example.carol; Example.bob] |}
                   Scenario.busy busy_reachable _ _ _ _ _ _ _ _ _ _))).
  - vm_compute. left. reflexivity.
  - reflexivity.
  - vm_compute. discriminate.
  - reflexivity.
  - reflexivity.
  - reflexivity.
  - split; reflexivity.
  - split; reflexivity.
  - reflexivity.
  - reflexivity.
Defined.

(** ** The notifications page and the counters *)

Lemma references_In {R : Type} (rows : list R) (column : R -> option uuid)
    (ids : list uuid) (r : R) :
  references rows column ids = true -> In r rows -> fk_opt (column r) ids = true.
Proof.
  unfold references. rewrite forallb_forall. intros H Hr. exact (H r Hr).
Qed.

Lemma with_notifications_twice (a b : list Notifications.row) (db : DB) :
  with_notifications a (with_notifications b db) = with_notifications a db.
Proof. reflexivity. Qed.

Lemma with_notifications_same (db : DB) : with_notifications (notifications db) db = db.
Proof. destruct db; reflexivity. Qed.

(** One row of the UPDATE of markAllAsRead, as the recipient. *)
Lemma mark_one_notification (me : uuid) (db : DB) (n : Notifications.row) :
  reachable db ->
  In n (notifications db) ->
  Notifications.user_id n = me ->
  update_notification (authenticated me) (Notifications.id n)
    NotificationsPage.is_read_true db
  = Ok (with_notifications
          (map (fun x => if Notifications.id x =? Notifications.id n
                         then NotificationsPage.is_read_true x else x)
               (notifications db))
          db).
Proof.
  intros R Hn En. subst me.
  destruct (reachable_primary_keys db R) as [_ [_ [_ [_ [_ [_ [_ [Kn _]]]]]]]].
  destruct (reachable_checks db R) as [_ [_ [_ [Tn _]]]].
  pose proof (proj1 (foreign_keys_holds db) (reachable_foreign_keys db R)) as F.
  pose proof (F notifications_user_id_fkey) as Fu.
  pose proof (F notifications_actor_id_fkey) as Fa.
  pose proof (F notifications_post_id_fkey) as Fp.
  pose proof (F notifications_comment_id_fkey) as Fc. cbn [holds] in Fu, Fa, Fp, Fc.
  unfold update_notification. rewrite (find_row_the_row _ _ _ Kn Hn).
  cbn [policy_using policy_with_check].
  unfold Notifications.users_can_view_their_own_notifications,
    Notifications.users_can_update_their_own_notifications.
  change (Notifications.user_id (NotificationsPage.is_read_true n))
    with (Notifications.user_id n).
  rewrite N.eqb_refl. cbn [andb require bind]. cbv zeta.
  change (Notifications.valid_notification_type (NotificationsPage.is_read_true n))
    with (Notifications.valid_notification_type n).
  rewrite (proj1 (forallb_forall _ _) Tn n Hn).
  change (Notifications.id (NotificationsPage.is_read_true n)) with (Notifications.id n).
  rewrite absent_from_others.
  change (Notifications.user_id (NotificationsPage.is_read_true n))
    with (Notifications.user_id n).
  rewrite (holds_In _ _ _ n Fu Hn).
  change (Notifications.actor_id (NotificationsPage.is_read_true n))
    with (Notifications.actor_id n).
  rewrite (holds_In _ _ _ n Fa Hn).
  change (Notifications.post_id (NotificationsPage.is_read_true n))
    with (Notifications.post_id n).
  rewrite (references_In _ _ _ n Fp Hn).
  change (Notifications.comment_id (NotificationsPage.is_read_true n))
    with (Notifications.comment_id n).
  rewrite (references_In _ _ _ n Fc Hn).
  cbn [negb require bind].
  rewrite (replace_row_of_the_row Notifications.id NotificationsPage.is_read_true _ n Kn Hn).
  reflexivity.
Qed.

Lemma mark_each_notification (me : uuid) (targets : list uuid) :
  forall db,
    reachable db ->
    (forall t, In t targets ->
               exists n, In n (notifications db) /\ Notifications.id n = t
                         /\ Notifications.user_id n = me) ->
    update_each (fun t => update_notification (authenticated me) t
                            NotificationsPage.is_read_true)
      targets db
    = Ok (with_notifications
            (map (fun x => if mem (Notifications.id x) targets
                           then NotificationsPage.is_read_true x else x)
                 (notifications db))
            db).
Proof.
  induction targets as [| t rest IH]; intros db R Ht.
  - cbn [update_each mem existsb]. rewrite map_id, with_notifications_same. reflexivity.
  - cbn [update_each].
    destruct (Ht t (or_introl eq_refl)) as [n [Hn [Et En]]]. subst t.
    pose proof (mark_one_notification me db n R Hn En) as S.
    rewrite S. cbn [bind].
    rewrite IH.
    + rewrite with_notifications_twice. cbn [notifications with_notifications].
      rewrite map_map. f_equal. f_equal. apply map_ext. intros x.
      cbn [mem existsb]. fold (mem (Notifications.id x) rest).
      destruct (Notifications.id x =? Notifications.id n); cbn [orb].
      * change (Notifications.id (NotificationsPage.is_read_true x))
          with (Notifications.id x).
        destruct (mem (Notifications.id x) rest); reflexivity.
      * reflexivity.
    + exact (reachable_step db _ (authenticated me) Example.clock
               (UPDATE_notifications (Notifications.id n) NotificationsPage.is_read_true)
               R S).
    + intros t Hin. destruct (Ht t (or_intror Hin)) as [x [Hx [Ex Ux]]].
      exists (if Notifications.id x =? Notifications.id n
              then NotificationsPage.is_read_true x else x).
      cbn [notifications with_notifications]. split; [| split].
      * apply (in_map (fun x => if Notifications.id x =? Notifications.id n
                                then NotificationsPage.is_read_true x else x)). exact Hx.
      * destruct (Notifications.id x =? Notifications.id n); exact Ex.
      * destruct (Notifications.id x =? Notifications.id n); exact Ux.
Qed.

(** X16. In a reachable state, markAllAsRead sets is_read on exactly the
    unread notifications of the signed-in user and changes nothing else:
    the notifications of the other users and every other table are as
    before. The count of unread notifications the layout then shows
    is 0. *)
Theorem markAllAsRead_clears_the_counter (db : DB) (me : uuid) :
  reachable db ->
  let db' := NotificationsPage.markAllAsRead (Some me) db in
  db' = with_notifications
          (map (fun n => if (Notifications.user_id n =? me)
                            && eq_opt Bool.eqb (Notifications.is_read n) false
                         then NotificationsPage.is_read_true n else n)
               (notifications db))
          db
  /\ (forall n, Notifications.user_id n <> me ->
                (In n (notifications db') <-> In n (notifications db)))
  /\ Layout.notifCount me db' = 0%nat.
Proof.
  intros R. cbv zeta.
  destruct (reachable_primary_keys db R) as [_ [_ [_ [_ [_ [_ [_ [Kn _]]]]]]]].
  assert (E : NotificationsPage.markAllAsRead (Some me) db
              = with_notifications
                  (map (fun n => if (Notifications.user_id n =? me)
                                    && eq_opt Bool.eqb (Notifications.is_read n) false
                                 then NotificationsPage.is_read_true n else n)
                       (notifications db))
                  db).
  { unfold NotificationsPage.markAllAsRead, update_notifications.
    rewrite (mark_each_notification me _ db R).
    - cbn [commit]. f_equal. apply map_ext_in. intros x Hx.
      rewrite (mem_key_of_filter Notifications.id _ _ x Kn Hx). reflexivity.
    - intros t Ht. unfold keys in Ht. apply in_map_iff in Ht.
      destruct Ht as [n [Et Hn]]. apply filter_In in Hn. destruct Hn as [Hn Q].
      exists n. split; [exact Hn | split; [exact Et |]].
      apply andb_true_iff in Q. destruct Q as [Q _]. apply N.eqb_eq in Q. exact Q. }
  rewrite E. split; [reflexivity |]. split.
  - intros n Hn. cbn [notifications with_notifications]. rewrite in_map_iff. split.
    + intros [x [Ex Hx]].
      destruct (Notifications.user_id x =? me) eqn:Q; cbn [andb] in Ex.
      * destruct (eq_opt Bool.eqb (Notifications.is_read x) false).
        -- subst n. apply N.eqb_eq in Q. contradiction.
        -- subst n. exact Hx.
      * subst n. exact Hx.
    + intros Hx. exists n. split; [| exact Hx].
      apply N.eqb_neq in Hn. rewrite Hn. reflexivity.
  - unfold Layout.notifCount, select_notifications.
    cbn [notifications with_notifications].
    rewrite filter_none; [reflexivity |].
    intros y Hy. apply filter_In in Hy. destruct Hy as [Hy _].
    apply in_map_iff in Hy. destruct Hy as [x [<- _]].
    destruct ((Notifications.user_id x =? me)
              && eq_opt Bool.eqb (Notifications.is_read x) false) eqn:Q.
    + cbn [Notifications.is_read NotificationsPage.is_read_true eq_opt Bool.eqb].
      apply andb_false_r.
    + exact Q.
Qed.

Lemma markAllAsRead_clears_the_counter_witness :
  Layout.notifCount Example.alice Scenario.busy = 2%nat
  /\ Layout.notifCount Example.alice
       (NotificationsPage.markAllAsRead (Some Example.alice) Scenario.busy) = 0%nat.
Proof.
  split; [reflexivity |].
  exact (proj2 (proj2 (markAllAsRead_clears_the_counter Scenario.busy Example.alice
                         busy_reachable))).
Defined.

Lemma distinct_by_filter {R K : Type} (eqb : K -> K -> bool) (k : R -> K)
    (f : R -> bool) (l : list R) :
  distinct_by eqb (map k l) = true -> distinct_by eqb (map k (filter f l)) = true.
Proof.
  intros D. rewrite (filter_ext f (fun x => negb (negb (f x)))).
  - exact (distinct_by_keep eqb k (fun x => negb (f x)) l D).
  - intros x. symmetry. apply negb_involutive.
Qed.

Lemma list_sum_cons (x : nat) (l : list nat) : list_sum (x :: l) = (x + list_sum l)%nat.
Proof. reflexivity. Qed.

Lemma count_split {R : Type} (x y Q : R -> bool) (rows : list R) :
  (forall m, x m = true -> y m = false) ->
  List.length (filter (fun m => (x m || y m) && Q m) rows)
  = (List.length (filter (fun m => x m && Q m) rows)
     + List.length (filter (fun m => y m && Q m) rows))%nat.
Proof.
  intros D. induction rows as [| m rows IH]; [reflexivity |]. cbn [filter].
  destruct (x m) eqn:X.
  - rewrite (D m X). cbn [orb andb].
    destruct (Q m); cbn [List.length]; rewrite IH; reflexivity.
  - cbn [orb andb]. destruct (y m && Q m); cbn [List.length]; rewrite IH; lia.
Qed.

(** Counting the rows whose key is among distinct [ids] is adding up the
    counts for each of the [ids]. *)
Lemma count_by_key {R : Type} (k : R -> uuid) (A B : R -> bool) (rows : list R) :
  forall ids,
    distinct_by N.eqb ids = true ->
    List.length (filter (fun m => mem (k m) ids && A m && B m) rows)
    = list_sum (map (fun c => List.length
                                (filter (fun m => (k m =? c) && A m && B m) rows))
                    ids).
Proof.
  induction ids as [| c rest IH]; intros D.
  - cbn [mem existsb map]. rewrite filter_none; [reflexivity | reflexivity].
  - cbn [distinct_by] in D. apply andb_true_iff in D. destruct D as [Dc Dr].
    apply negb_true_iff in Dc. cbn [map]. rewrite list_sum_cons, <- (IH Dr). clear IH.
    rewrite (filter_ext (fun m => mem (k m) (c :: rest) && A m && B m)
               (fun m => ((k m =? c) || mem (k m) rest) && (A m && B m))).
    + rewrite count_split.
      * f_equal; f_equal; apply filter_ext; intros m; apply andb_assoc.
      * intros m Q. apply N.eqb_eq in Q. rewrite Q. exact Dc.
    + intros m. cbn [mem existsb]. symmetry. apply andb_assoc.
Qed.

(** X17. In a reachable state, the count of unread messages the layout
    shows is the sum, over the conversations of the signed-in user, of the
    unread counts the messages page shows for each of them. *)
Theorem msgCount_is_the_sum_of_the_unread_counts (db : DB) (me : uuid) :
  reachable db ->
  Layout.msgCount me db
  = list_sum (map (fun c => MessagesPage.unread_count me c db)
                  (Layout.conversationIds me db)).
Proof.
  intros R. destruct (reachable_unique_keys db R) as [_ [_ [_ [K _]]]].
  unfold Layout.msgCount, MessagesPage.unread_count.
  apply (count_by_key Messages.conversation_id
           (fun m => eq_opt Bool.eqb (Messages.is_read m) false)
           (fun m => negb (Messages.sender_id m =? me))).
  unfold Layout.conversationIds, select_conversations.
  apply distinct_by_filter, distinct_by_filter. exact K.
Qed.

Lemma msgCount_is_the_sum_of_the_unread_counts_witness :
  Layout.msgCount Example.alice Scenario.busy = 1%nat
  /\ Layout.msgCount Example.alice Scenario.busy
     = list_sum (map (fun c => MessagesPage.unread_count Example.alice c Scenario.busy)
                     (Layout.conversationIds Example.alice Scenario.busy)).
Proof.
  split; [reflexivity |].
  exact (msgCount_is_the_sum_of_the_unread_counts Scenario.busy Example.alice
           busy_reachable).
Defined.

(** ** The follow button *)

(** X18. handleFollow does not read the outcome of its INSERT into
    follows: when the follow is refused, because the user already follows
    the profile (the page's isFollowing being out of date) or because the
    profile is the user's own, follows is unchanged and the notification
    of type follow is stored all the same, under a fresh key and between
    stored profiles. ProfilePage issues the same statements. *)
Theorem handleFollow_notifies_a_refused_follow (e1 e2 : env) (me profileId : uuid)
    (db : DB) :
  mem me (keys Profiles.id (profiles db)) = true ->
  mem profileId (keys Profiles.id (profiles db)) = true ->
  mem (gen_random_uuid e2) (keys Notifications.id (notifications db)) = false ->
  me = profileId
  \/ existsb (pair_eqb (me, profileId))
             (map Follows.follower_id_following_id (follows db)) = true ->
  (exists err, insert_follow (authenticated me)
                 (Follows.new e1 (ExplorePage.follow_of me profileId)) db = Err err)
  /\ ExplorePage.handleFollow e1 e2 (Some me) profileId false db
     = with_notifications
         (Notifications.new e2 (ExplorePage.notification_of me profileId)
            :: notifications db) db
  /\ ProfilePage.handleFollow e1 e2 (Some me) (Some profileId) false db
     = ExplorePage.handleFollow e1 e2 (Some me) profileId false db.
Proof.
  intros Pm Pp K2 Why.
  assert (Refused : exists err,
             insert_follow (authenticated me)
               (Follows.new e1 (ExplorePage.follow_of me profileId)) db = Err err).
  { unfold insert_follow. cbn [policy_with_check].
    unfold Follows.users_can_create_their_own_follows, Follows.no_self_follow.
    change (Follows.follower_id_following_id
              (Follows.new e1 (ExplorePage.follow_of me profileId)))
      with (me, profileId).
    cbn [Follows.new ExplorePage.follow_of Follows.id Follows.follower_id
         Follows.following_id Follows.ins_id Follows.ins_follower_id
         Follows.ins_following_id or_default].
    rewrite N.eqb_refl. cbn [require bind].
    destruct (me =? profileId) eqn:Q; cbn [negb require bind]; [eauto |].
    destruct Why as [E | Dup]; [apply N.eqb_neq in Q; contradiction |].
    destruct (mem (gen_random_uuid e1) (keys Follows.id (follows db)));
      cbn [negb require bind]; [eauto |].
    rewrite Dup. cbn [negb require bind]. eauto. }
  split; [exact Refused |]. split; [| reflexivity].
  destruct Refused as [err Refused].
  unfold ExplorePage.handleFollow. rewrite Refused. cbn [commit].
  unfold insert_notification. cbn [policy_with_check].
  unfold Notifications.users_can_create_notifications.
  cbn [Notifications.new ExplorePage.notification_of Notifications.id
       Notifications.user_id Notifications.actor_id Notifications.post_id
       Notifications.comment_id Notifications.ins_id Notifications.ins_user_id
       Notifications.ins_actor_id Notifications.ins_post_id
       Notifications.ins_comment_id or_default fk_opt].
  rewrite N.eqb_refl, K2, Pm, Pp. reflexivity.
Qed.

Lemma handleFollow_notifies_a_refused_follow_witness :
  ExplorePage.handleFollow Example.later Example.later (Some Example.alice) Example.bob
    false Scenario.busy
  = with_notifications
      (Notifications.new Example.later
         (ExplorePage.notification_of Example.alice Example.bob)
       :: notifications Scenario.busy) Scenario.busy.
Proof.
  refine (proj1 (proj2 (handleFollow_notifies_a_refused_follow Example.later
                          Example.later Example.alice Example.bob Scenario.busy
                          _ _ _ _))).
  - reflexivity.
  - reflexivity.
  - reflexivity.
  - right. reflexivity.
Defined.

(** ** The comments of a post *)

Lemma handleSubmit_stores (trim : text -> text) (e1 : env) (me : uuid) (p : Posts.row)
    (newComment : text) (db : DB) :
  In p (posts db) ->
  mem me (keys Profiles.id (profiles db)) = true ->
  (0 < char_length (trim newComment) <= 2000)%nat ->
  mem (gen_random_uuid e1) (keys Comments.id (comments db)) = false ->
  insert_comment (authenticated me)
    (Comments.new e1 (CommentSection.comment_of trim me (Posts.id p) newComment)) db
  = Ok (with_comments
          (Comments.new e1 (CommentSection.comment_of trim me (Posts.id p) newComment)
             :: comments db) db).
Proof.
  intros Hp Pm [L0 L1] K1.
  assert (Mp : mem (Posts.id p) (keys Posts.id (posts db)) = true).
  { apply mem_In. unfold keys. apply in_map. exact Hp. }
  unfold insert_comment. cbn [policy_with_check].
  unfold Comments.users_can_create_their_own_comments, Comments.comment_length.
  cbn [Comments.new CommentSection.comment_of Comments.id Comments.user_id
       Comments.post_id Comments.parent_id Comments.content Comments.ins_id
       Comments.ins_user_id Comments.ins_post_id Comments.ins_parent_id
       Comments.ins_content or_default fk_opt].
  rewrite N.eqb_refl, K1, Pm, Mp.
  rewrite (proj2 (Nat.ltb_lt _ _) L0), (proj2 (Nat.leb_le _ _) L1). reflexivity.
Qed.



(** ** Who is in a conversation *)

(** X20. The UPDATE policy of conversations asks only that the caller be
    a participant before and after. In a reachable state the first
    participant of a conversation can therefore put a third profile in the
    place of the second, when the two have no conversation yet: the UPDATE
    is carried out, and from then on the third user reads every message of
    the conversation, and the user who was replaced reads none of them. *)
Theorem participant_can_replace_the_other (db : DB) (c : Conversations.row)
    (third : uuid) :
  reachable db ->
  In c (conversations db) ->
  mem third (keys Profiles.id (profiles db)) = true ->
  third <> Conversations.user1_id c ->
  existsb (pair_eqb (LEAST (Conversations.user1_id c) third,
                     GREATEST (Conversations.user1_id c) third))
          (map Conversations.conversations_users_idx
               (others Conversations.id (Conversations.id c) (conversations db))) = false ->
  let set := fun r : Conversations.row =>
    {| Conversations.id := Conversations.id r;
       Conversations.user1_id := Conversations.user1_id r;
       Conversations.user2_id := third;
       Conversations.last_message_at := Conversations.last_message_at r;
       Conversations.created_at := Conversations.created_at r |} in
  let db' := with_conversations
               (replace_row Conversations.id (Conversations.id c) (set c) (conversations db))
               db in
  update_conversation (authenticated (Conversations.user1_id c)) (Conversations.id c) set db
  = Ok db'
  /\ (forall m, In m (messages db) ->
                Messages.conversation_id m = Conversations.id c ->
                In m (select_messages (authenticated third) db'))
  /\ (third <> Conversations.user2_id c ->
      forall m, In m (messages db) ->
                Messages.conversation_id m = Conversations.id c ->
                ~ In m (select_messages (authenticated (Conversations.user2_id c)) db')).
Proof.
  intros R Hc Pt Nt U. cbv zeta.
  destruct (reachable_unique_keys db R) as [_ [_ [_ [K [_ D]]]]].
  destruct (participants_have_profiles db c R Hc) as [P1 _].
  pose proof (proj1 (forallb_forall _ _) D c Hc) as Dc.
  unfold Conversations.different_users in Dc. apply negb_true_iff, N.eqb_neq in Dc.
  set (new := {| Conversations.id := Conversations.id c;
                 Conversations.user1_id := Conversations.user1_id c;
                 Conversations.user2_id := third;
                 Conversations.last_message_at := Conversations.last_message_at c;
                 Conversations.created_at := Conversations.created_at c |}).
  set (db' := with_conversations
                (replace_row Conversations.id (Conversations.id c) new (conversations db))
                db).
  assert (S : update_conversation (authenticated (Conversations.user1_id c))
                (Conversations.id c)
                (fun r => {| Conversations.id := Conversations.id r;
                             Conversations.user1_id := Conversations.user1_id r;
                             Conversations.user2_id := third;
                             Conversations.last_message_at := Conversations.last_message_at r;
                             Conversations.created_at := Conversations.created_at r |})
                db = Ok db').
  { unfold update_conversation. rewrite (find_row_the_row _ _ _ K Hc).
    cbn [policy_using policy_with_check].
    unfold Conversations.users_can_view_their_own_conversations,
      Conversations.users_can_update_their_own_conversations,
      Conversations.different_users.
    fold new. cbv zeta.
    change (Conversations.conversations_users_idx new)
      with (LEAST (Conversations.user1_id c) third,
            GREATEST (Conversations.user1_id c) third).
    cbn [new Conversations.id Conversations.user1_id Conversations.user2_id].
    rewrite N.eqb_refl, absent_from_others, U, P1, Pt.
    assert (Q : (Conversations.user1_id c =? third) = false).
    { apply N.eqb_neq. congruence. }
    rewrite Q. unfold key_unchanged_or. rewrite N.eqb_refl. reflexivity. }
  assert (R' : reachable db').
  { exact (reachable_step db db' _ Example.clock (UPDATE_conversations _ _) R S). }
  destruct (reachable_unique_keys db' R') as [_ [_ [_ [K' _]]]].
  assert (Hn : In new (conversations db')).
  { unfold db'. cbn [conversations with_conversations].
    exact (In_new_replace_row _ _ _ _ _ (find_row_the_row _ _ _ K Hc)). }
  split; [exact S |]. split.
  - intros m Hm Em. unfold select_messages. apply filter_In. split; [exact Hm |].
    cbn [policy_using].
    apply (in_conversation_of_participant (conversations db') new third m Hn Em).
    right. reflexivity.
  - intros N2 m Hm Em Hsel. unfold select_messages in Hsel.
    apply filter_In in Hsel. destruct Hsel as [_ V]. cbn [policy_using] in V.
    unfold Messages.users_can_view_messages_in_their_conversations in V.
    rewrite (in_conversation_of_the_one (conversations db') new
               (Conversations.user2_id c) m K' Hn Em) in V.
    cbn [new Conversations.user1_id Conversations.user2_id] in V.
    apply orb_true_iff in V. destruct V as [V | V]; apply N.eqb_eq in V; congruence.
Qed.

Lemma participant_can_replace_the_other_witness :
  In Example.the_message
     (select_messages (authenticated Example.carol)
        (with_conversations
           (replace_row Conversations.id 10
              {| Conversations.id := 10; Conversations.user1_id := Example.alice;
                 Conversations.user2_id := Example.carol;
                 Conversations.last_message_at := Some 2000%Z;
                 Conversations.created_at := Some 1000%Z |}
              (conversations Scenario.busy))
           Scenario.busy))
  /\ In Example.the_message (select_messages (authenticated Example.bob) Scenario.busy).
Proof.
  split.
  - refine (proj1 (proj2 (participant_can_replace_the_other Scenario.busy
                            Example.the_conversation Example.carol busy_reachable
                            _ _ _ _)) Example.the_message _ _).
    + vm_compute. left. reflexivity.
    + reflexivity.
    + vm_compute. discriminate.
    + reflexivity.
    + vm_compute. right. left. reflexivity.
    + reflexivity.
  - vm_compute. right. left. reflexivity.
Defined.

Lemma delete_comments_where_none (doomed : Comments.row -> bool) (db : DB) :
  (forall r, In r (comments db) -> doomed r = false) ->
  delete_comments_where doomed db = db.
Proof.
  intros H. unfold delete_comments_where.
  rewrite (keep_nothing_of _ _ H), (filter_none _ _ H). cbn [keys map].
  rewrite cascade_replies_nothing.
  rewrite delete_notifications_where_nothing.
  - destruct db; reflexivity.
  - intros n. destruct (Notifications.comment_id n); reflexivity.
Qed.

(** A comment under a key no row refers to goes alone. *)
Lemma cascade_replies_of_a_leaf (rounds : nat) (key : uuid) (live : list Comments.row) :
  (forall c, In c live -> opt_mem (Comments.parent_id c) [key] = false) ->
  cascade_replies rounds [key] live = ([key], live).
Proof.
  intros H. destruct rounds as [| n]; [reflexivity |]. cbn [cascade_replies].
  rewrite (filter_none _ _ H). reflexivity.
Qed.

Lemma not_the_fresh_key (x : option uuid) (key : uuid) (ids : list uuid) :
  fk_opt x ids = true -> mem key ids = false -> opt_mem x [key] = false.
Proof.
  destruct x as [u |]; [| reflexivity]. cbn [fk_opt opt_mem mem existsb].
  intros Hu Hk. rewrite orb_false_r. apply N.eqb_neq. intros E. congruence.
Qed.

(** X21. In a reachable state, after handleSubmit stored a user's comment
    on another user's post, handleDelete for that comment changes nothing
    when another user runs it; run by its author, it removes the comment
    and nothing else: the notification of the comment stays with the owner
    of the post, since the page never sets its comment_id and the cascade
    from comments does not reach it. *)
Theorem deleted_comment_leaves_its_notification (trim : text -> text) (e1 e2 : env)
    (me : uuid) (p : Posts.row) (newComment : text) (db : DB) :
  reachable db ->
  In p (posts db) ->
  mem me (keys Profiles.id (profiles db)) = true ->
  me <> Posts.user_id p ->
  (0 < char_length (trim newComment) <= 2000)%nat ->
  mem (gen_random_uuid e1) (keys Comments.id (comments db)) = false ->
  mem (gen_random_uuid e2) (keys Notifications.id (notifications db)) = false ->
  let sent :=
    Notifications.new e2
      (CommentSection.notification_of me (Posts.id p) (Posts.user_id p)) in
  let db1 := CommentSection.handleSubmit trim e1 e2 (Some me) (Posts.id p)
               (Posts.user_id p) newComment db in
  (forall other, other <> me ->
     CommentSection.handleDelete (authenticated other) (gen_random_uuid e1) db1 = db1)
  /\ CommentSection.handleDelete (authenticated me) (gen_random_uuid e1) db1
     = with_notifications (sent :: notifications db) db
  /\ In sent (select_notifications (authenticated (Posts.user_id p))
                (CommentSection.handleDelete (authenticated me) (gen_random_uuid e1) db1)).
Proof.
  intros R Hp Pm Other L K1 K2. cbv zeta.
  pose proof (proj1 (foreign_keys_holds db) (reachable_foreign_keys db R)) as F.
  pose proof (F comments_parent_id_fkey) as Fp.
  pose proof (F notifications_comment_id_fkey) as Fc. cbn [holds] in Fp, Fc.
  assert (T : String.eqb (trim newComment) "" = false).
  { destruct (String.eqb_spec (trim newComment) "") as [E |]; [| reflexivity].
    rewrite E in L. cbn in L. lia. }
  assert (Fresh : forall c, In c (comments db) ->
                            (Comments.id c =? gen_random_uuid e1) = false).
  { intros c Hin. apply N.eqb_neq. intros E.
    assert (X : mem (gen_random_uuid e1) (keys Comments.id (comments db)) = true).
    { apply mem_In. unfold keys. rewrite <- E. apply in_map. exact Hin. }
    congruence. }
  assert (E1 : CommentSection.handleSubmit trim e1 e2 (Some me) (Posts.id p)
                 (Posts.user_id p) newComment db
               = with_notifications
                   (Notifications.new e2
                      (CommentSection.notification_of me (Posts.id p) (Posts.user_id p))
                    :: notifications db)
                   (with_comments
                      (Comments.new e1
                         (CommentSection.comment_of trim me (Posts.id p) newComment)
                       :: comments db) db)).
  { unfold CommentSection.handleSubmit.
    rewrite T, (handleSubmit_stores trim e1 me p newComment db Hp Pm L K1).
    pose proof Other as Q. apply N.eqb_neq in Q. rewrite Q. cbn [negb].
    pose proof (F posts_user_id_fkey) as Fo. cbn [holds] in Fo.
    unfold insert_notification. cbn [policy_with_check].
    unfold Notifications.users_can_create_notifications.
    cbn [Notifications.new CommentSection.notification_of Notifications.id
         Notifications.user_id Notifications.actor_id Notifications.post_id
         Notifications.comment_id Notifications.ins_id Notifications.ins_user_id
         Notifications.ins_actor_id Notifications.ins_post_id
         Notifications.ins_comment_id or_default fk_opt
         notifications profiles posts with_comments].
    rewrite N.eqb_refl, K2, (holds_In _ _ _ p Fo Hp), Pm.
    assert (Mp : mem (Posts.id p) (keys Posts.id (posts db)) = true).
    { apply mem_In. unfold keys. apply in_map. exact Hp. }
    rewrite Mp. reflexivity. }
  rewrite E1. unfold CommentSection.handleDelete, delete_comments.
  assert (E2 : delete_comments_where
                 (fun r => (Comments.id r =? gen_random_uuid e1)
                           && policy_using (authenticated me)
                                (fun uid =>
                                   Comments.comments_are_viewable_by_authenticated_users uid r)
                           && policy_using (authenticated me)
                                (fun uid => Comments.users_can_delete_their_own_comments uid r))
                 (with_notifications
                    (Notifications.new e2
                       (CommentSection.notification_of me (Posts.id p) (Posts.user_id p))
                     :: notifications db)
                    (with_comments
                       (Comments.new e1
                          (CommentSection.comment_of trim me (Posts.id p) newComment)
                        :: comments db) db))
               = with_notifications
                   (Notifications.new e2
                      (CommentSection.notification_of me (Posts.id p) (Posts.user_id p))
                    :: notifications db) db).
  { unfold delete_comments_where.
    cbn [comments with_comments with_notifications filter keep policy_using].
    unfold keep. cbn [filter].
    unfold Comments.comments_are_viewable_by_authenticated_users,
      Comments.users_can_delete_their_own_comments.
    cbn [Comments.new CommentSection.comment_of Comments.id Comments.user_id
         Comments.ins_id Comments.ins_user_id or_default].
    rewrite !N.eqb_refl. cbn [andb negb].
    fold (keep (fun r => (Comments.id r =? gen_random_uuid e1) && true
                         && (me =? Comments.user_id r)) (comments db)).
    rewrite keep_nothing_of, filter_none.
    - cbn [keys map Comments.id].
      rewrite cascade_replies_of_a_leaf.
      + unfold delete_notifications_where.
        cbn [notifications with_notifications with_comments].
        rewrite keep_nothing_of.
        * destruct db; reflexivity.
        * intros n [<- | Hn]; [reflexivity |].
          exact (not_the_fresh_key _ _ _ (references_In _ _ _ n Fc Hn) K1).
      + intros c Hin.
        exact (not_the_fresh_key _ _ _ (references_In _ _ _ c Fp Hin) K1).
    - intros c Hin. rewrite (Fresh c Hin). reflexivity.
    - intros c Hin. rewrite (Fresh c Hin). reflexivity. }
  split; [| split].
  - intros other No. apply delete_comments_where_none.
    cbn [comments with_comments with_notifications policy_using].
    unfold Comments.users_can_delete_their_own_comments.
    intros r [<- | Hin].
    + cbn [Comments.new CommentSection.comment_of Comments.user_id Comments.ins_user_id].
      apply N.eqb_neq in No. rewrite No. apply andb_false_r.
    + rewrite (Fresh r Hin). reflexivity.
  - exact E2.
  - rewrite E2. unfold select_notifications.
    cbn [notifications with_notifications filter policy_using].
    unfold Notifications.users_can_view_their_own_notifications.
    cbn [Notifications.new CommentSection.notification_of Notifications.user_id
         Notifications.ins_user_id].
    rewrite N.eqb_refl. left. reflexivity.
Qed.

Lemma deleted_comment_leaves_its_notification_witness :
  CommentSection.handleDelete (authenticated Example.carol) 78
    (CommentSection.handleSubmit (fun s => s) Example.later Example.later
       (Some Example.carol) 30 Example.alice "me too" Scenario.busy)
  = with_notifications
      (Notifications.new Example.later
         (CommentSection.notification_of Example.carol 30 Example.alice)
       :: notifications Scenario.busy) Scenario.busy.
Proof.
  refine (proj1 (proj2 (deleted_comment_leaves_its_notification (fun s => s)
                          Example.later Example.later Example.carol Scenario.the_post
                          "me too" Scenario.busy busy_reachable _ _ _ _ _ _))).
  - vm_compute. left. reflexivity.
  - reflexivity.
  - vm_compute. discriminate.
  - vm_compute. lia.
  - reflexivity.
  - reflexivity.
Defined.

(** ** Editing a post, and the forms *)



Lemma remove_none_below (index start : nat) (l : list text) :
  (index < start)%nat ->
  map snd (filter (fun x => negb (fst x =? index)%nat)
                  (combine (seq start (List.length l)) l)) = l.
Proof.
  revert start. induction l as [| a l IH]; intros start L; [reflexivity |].
  cbn [List.length seq combine filter fst].
  assert (Q : (start =? index)%nat = false) by (apply Nat.eqb_neq; lia).
  rewrite Q. cbn [negb map snd]. f_equal. apply IH. lia.
Qed.

Lemma remove_at (i start : nat) (l : list text) :
  map snd (filter (fun x => negb (fst x =? start + i)%nat)
                  (combine (seq start (List.length l)) l))
  = firstn i l ++ skipn (S i) l.
Proof.
  revert i start. induction l as [| a l IH]; intros i start.
  - destruct i; reflexivity.
  - cbn [List.length seq combine filter fst]. destruct i as [| j].
    + rewrite Nat.add_0_r, Nat.eqb_refl. cbn [negb firstn skipn app].
      apply remove_none_below. lia.
    + assert (Q : (start =? start + S j)%nat = false) by (apply Nat.eqb_neq; lia).
      rewrite Q. cbn [negb map snd firstn skipn app]. f_equal.
      replace (start + S j)%nat with (S start + j)%nat by lia. apply IH.
Qed.



Lemma unique_among_others {R K : Type} (eqb : K -> K -> bool) (k : R -> K)
    (key : R -> uuid) (l : list R) (r : R) :
  (forall a b, eqb a b = true <-> a = b) ->
  distinct_by eqb (map k l) = true ->
  In r l ->
  existsb (eqb (k r)) (map k (others key (key r) l)) = false.
Proof.
  intros Heq D Hr. destruct (existsb _ _) eqn:X; [| reflexivity].
  apply existsb_exists in X. destruct X as [v [Hv Ev]].
  apply in_map_iff in Hv. destruct Hv as [y [<- Hy]].
  unfold others in Hy. apply filter_In in Hy. destruct Hy as [Hy Q].
  apply Heq in Ev.
  rewrite (same_key_same_row eqb k l Heq D y r Hy Hr (eq_sym Ev)) in Q.
  rewrite N.eqb_refl in Q. discriminate.
Qed.



(** ** The function migrations on any catalog *)



Lemma with_follows_same (db : DB) : with_follows (follows db) db = db.
Proof. destruct db; reflexivity. Qed.

(** X26. A user who follows another stored profile and then unfollows it
    leaves follows as it was, but the notification of the follow stays
    with the profile that was followed: the DELETE that handleFollow
    issues for it, as the actor, removes nothing. *)
Theorem unfollow_leaves_the_notification (e1 e2 e3 e4 : env) (me profileId : uuid)
    (db : DB) :
  mem me (keys Profiles.id (profiles db)) = true ->
  mem profileId (keys Profiles.id (profiles db)) = true ->
  me <> profileId ->
  existsb (pair_eqb (me, profileId))
          (map Follows.follower_id_following_id (follows db)) = false ->
  mem (gen_random_uuid e1) (keys Follows.id (follows db)) = false ->
  mem (gen_random_uuid e2) (keys Notifications.id (notifications db)) = false ->
  let sent := Notifications.new e2 (ExplorePage.notification_of me profileId) in
  let db1 := ExplorePage.handleFollow e1 e2 (Some me) profileId false db in
  let db2 := ExplorePage.handleFollow e3 e4 (Some me) profileId true db1 in
  db1 = with_notifications (sent :: notifications db)
          (with_follows (Follows.new e1 (ExplorePage.follow_of me profileId) :: follows db)
             db)
  /\ db2 = with_notifications (sent :: notifications db) db
  /\ In sent (select_notifications (authenticated profileId) db2).
Proof.
  intros Pm Pp Ne Nf K1 K2. cbv zeta.
  assert (Q : (me =? profileId) = false) by (apply N.eqb_neq; exact Ne).
  assert (E1 : ExplorePage.handleFollow e1 e2 (Some me) profileId false db
               = with_notifications
                   (Notifications.new e2 (ExplorePage.notification_of me profileId)
                      :: notifications db)
                   (with_follows
                      (Follows.new e1 (ExplorePage.follow_of me profileId) :: follows db)
                      db)).
  { unfold ExplorePage.handleFollow.
    unfold insert_follow. cbn [policy_with_check].
    unfold Follows.users_can_create_their_own_follows, Follows.no_self_follow.
    change (Follows.follower_id_following_id
              (Follows.new e1 (ExplorePage.follow_of me profileId)))
      with (me, profileId).
    cbn [Follows.new ExplorePage.follow_of Follows.id Follows.follower_id
         Follows.following_id Follows.ins_id Follows.ins_follower_id
         Follows.ins_following_id or_default].
    rewrite N.eqb_refl, Q, K1, Nf, Pm, Pp. cbn [negb require bind commit].
    unfold insert_notification. cbn [policy_with_check].
    unfold Notifications.users_can_create_notifications.
    cbn [Notifications.new ExplorePage.notification_of Notifications.id
         Notifications.user_id Notifications.actor_id Notifications.post_id
         Notifications.comment_id Notifications.ins_id Notifications.ins_user_id
         Notifications.ins_actor_id Notifications.ins_post_id
         Notifications.ins_comment_id or_default fk_opt
         notifications profiles posts comments with_follows].
    rewrite N.eqb_refl, K2, Pm, Pp. reflexivity. }
  assert (E2 : forall notes1,
             ExplorePage.handleFollow e3 e4 (Some me) profileId true
               (with_notifications notes1
                  (with_follows
                     (Follows.new e1 (ExplorePage.follow_of me profileId) :: follows db)
                     db))
             = with_notifications notes1 db).
  { intros notes1. unfold ExplorePage.handleFollow.
    unfold delete_follows, delete_follows_where, delete_notifications,
      delete_notifications_where.
    cbn [follows notifications with_follows with_notifications policy_using].
    rewrite (keep_nothing _ notes1).
    - unfold keep. cbn [filter].
      unfold Follows.follows_are_viewable_by_authenticated_users,
        Follows.users_can_delete_their_own_follows.
      cbn [Follows.new ExplorePage.follow_of Follows.follower_id Follows.following_id
           Follows.ins_follower_id Follows.ins_following_id].
      rewrite !N.eqb_refl. cbn [andb negb].
      fold (keep (fun r => (Follows.follower_id r =? me)
                           && (Follows.following_id r =? profileId)
                           && true && (me =? Follows.follower_id r)) (follows db)).
      rewrite keep_nothing_of.
      + rewrite <- (with_follows_same db) at 2. reflexivity.
      + intros f Hf.
        destruct ((Follows.follower_id f =? me)
                  && (Follows.following_id f =? profileId)) eqn:C; [| reflexivity].
        apply andb_true_iff in C. destruct C as [Cu Cp].
        apply N.eqb_eq in Cu, Cp.
        assert (X : existsb (pair_eqb (me, profileId))
                      (map Follows.follower_id_following_id (follows db)) = true).
        { apply (existsb_key_of_row pair_eqb Follows.follower_id_following_id _ f _ Hf).
          apply pair_eqb_eq. unfold Follows.follower_id_following_id. congruence. }
        congruence.
    - intros n. unfold Notifications.users_can_view_their_own_notifications.
      destruct (Notifications.user_id n =? profileId) eqn:C.
      + apply N.eqb_eq in C. rewrite C, Q. cbn [andb].
        rewrite !andb_false_r. reflexivity.
      + reflexivity. }
  rewrite E1, E2.
  split; [reflexivity |]. split; [reflexivity |].
  unfold select_notifications. cbn [notifications with_notifications filter policy_using].
  unfold Notifications.users_can_view_their_own_notifications.
  cbn [Notifications.new ExplorePage.notification_of Notifications.user_id
       Notifications.ins_user_id].
  rewrite N.eqb_refl. left. reflexivity.
Qed.

Lemma unfollow_leaves_the_notification_witness :
  ExplorePage.handleFollow Example.later Example.later (Some Example.carol) Example.alice
    true
    (ExplorePage.handleFollow Example.clock Example.later (Some Example.carol)
       Example.alice false Scenario.busy)
  = with_notifications
      (Notifications.new Example.later
         (ExplorePage.notification_of Example.carol Example.alice)
       :: notifications Scenario.busy) Scenario.busy.
Proof.
  refine (proj1 (proj2 (unfollow_leaves_the_notification Example.clock Example.later
                          Example.later Example.later Example.carol Example.alice
                          Scenario.busy _ _ _ _ _ _))).
  - reflexivity.
  - reflexivity.
  - vm_compute. discriminate.
  - reflexivity.
  - reflexivity.
  - reflexivity.
Defined.

(** X27. handleSendMessage notifies only after a message was stored. In
    a reachable state, a text that is empty once trimmed, a text of more
    than 2000 characters, and a sender who is not a participant of the
    selected conversation each leave the database as it was: no message
    and no notification. *)
Theorem handleSendMessage_refused_sends_nothing (trim : text -> text) (e1 e2 : env)
    (me : uuid) (conv : Conversations.row) (newMessage : text) (db : DB) :
  reachable db ->
  In conv (conversations db) ->
  trim newMessage = ""
  \/ (2000 < char_length (trim newMessage))%nat
  \/ (me <> Conversations.user1_id conv /\ me <> Conversations.user2_id conv) ->
  MessagesPage.handleSendMessage trim e1 e2 (Some me) (Some conv) newMessage db = db.
Proof.
  intros R Hc Why. unfold MessagesPage.handleSendMessage.
  destruct (String.eqb (trim newMessage) "") eqn:T; [reflexivity |].
  destruct Why as [E | [L | [N1 N2]]].
  - rewrite E in T. discriminate.
  - unfold insert_message. cbn [policy_with_check].
    destruct (Messages.users_can_create_messages_in_their_conversations _ _ _);
      cbn [require bind]; [| reflexivity].
    unfold Messages.message_length.
    cbn [Messages.new MessagesPage.message_of Messages.content Messages.ins_content].
    assert (Q : (char_length (trim newMessage) <=? 2000)%nat = false).
    { apply Nat.leb_gt. exact L. }
    rewrite Q, andb_false_r. reflexivity.
  - destruct (reachable_unique_keys db R) as [_ [_ [_ [K _]]]].
    unfold insert_message. cbn [policy_with_check].
    unfold Messages.users_can_create_messages_in_their_conversations.
    rewrite (in_conversation_of_the_one (conversations db) conv me
               (Messages.new e1 (MessagesPage.message_of trim me conv newMessage))
               K Hc eq_refl).
    assert (Q1 : (Conversations.user1_id conv =? me) = false).
    { apply N.eqb_neq. congruence. }
    assert (Q2 : (Conversations.user2_id conv =? me) = false).
    { apply N.eqb_neq. congruence. }
    rewrite Q1, Q2, andb_false_r. reflexivity.
Qed.

Lemma handleSendMessage_refused_sends_nothing_witness :
  MessagesPage.handleSendMessage (fun s => s) Example.later Example.later
    (Some Example.carol) (Some Example.the_conversation) "let me in" Scenario.busy
  = Scenario.busy.
Proof.
  refine (handleSendMessage_refused_sends_nothing (fun s => s) Example.later
            Example.later Example.carol Example.the_conversation "let me in"
            Scenario.busy busy_reachable _ _).
  - vm_compute. left. reflexivity.
  - right. right. split; vm_compute; discriminate.
Defined.
